(** * Cascaded shadow maps and the min/max reduction chain

    A shallow embedding of [CSMShadowGenerator] (the cascaded shadow map
    orchestrator) and of [MinMaxReducer.setSourceTexture] (the chain of
    half-resolution reduction passes), with the properties of the
    specification proved or refuted against it.

    Conventions of the embedding.
    - A JavaScript [number] that holds a count or an index ([numCascades],
      [activeCascade], texture sizes, [filter]) is a [Z]; a [number] that
      holds a quantity (distances, matrices, biases) is a real number in the
      records of the generator, which is exact for what the code stores,
      copies and compares.
    - Where a property depends on how the arithmetic rounds, which is the
      case for the split scheme of [setDistanceSplit], the code is embedded
      a second time over an arithmetic that is a parameter (module [Split]):
      evaluated in IEEE 754 binary64 it is the program, evaluated in the real
      numbers it is [CSM.setDistanceSplit] (lemma
      [setDistanceSplit_exactView]).  The bounds of the splits are stated on
      the binary64 reading.
    - Objects are records and every method is a function from the state
      before the call to the state after it.  The generator record holds the
      one scene and the one light it refers to, so a write through
      [this._scene] or [this._light] is a write to that field.
    - Arrays are lists; a cell of an array that can hold [null], [undefined]
      or a hole is an [option].
    - Babylon.js itself and the class [CSMShadowMap] are not part of the
      sources: the constants and the constructor they provide are section
      variables, the settings of a renderer are modelled as data. *)

From Stdlib Require Import ZArith QArith Qround Reals Lra Lia String DecimalString.
From Stdlib Require Import PrimFloat.
From stdpp Require Import base list strings gmap.
From Equations Require Import Equations.
From Equations.Prop Require Import Logic.

Close Scope Q_scope.
Local Open Scope Z_scope.

Declare Scope num_scope.
Delimit Scope num_scope with num.

(** ** JavaScript helpers *)

Module JS.

(** [String(n)] for a non-negative integer. *)
Definition toString (n : nat) : string :=
  NilZero.string_of_uint (Nat.to_uint n).

(** [Math.round]: the nearest integer, ties towards plus infinity. *)
Definition Math_round (x : Q) : Z := Qfloor (x + (1 # 2))%Q.

(** [base ** exponent] in exact arithmetic; [Rpower] is the real power for
    a positive base, which is the only case the split scheme is specified
    for.  On doubles the operator is a parameter, see [Numbers.binary64]. *)
Definition pow (base exponent : R) : R := Rpower base exponent.

(** [Number.MAX_VALUE] and [Number.MIN_VALUE] (the smallest positive
    double). *)
Definition Number_MAX_VALUE : R := (IZR (2 ^ 53 - 1) * 2 ^ 971)%R.
Definition Number_MIN_VALUE : R := (/ 2 ^ 1074)%R.

(** [a[i] = x] on an ordinary array: a write past the end extends the
    array, the cells in between are holes. *)
Definition array_set {A} (i : nat) (x : option A) (a : list (option A)) : list (option A) :=
  if decide (i < length a)%nat then <[i := x]> a
  else a ++ replicate (i - length a) None ++ [x].

(** [a.indexOf(x)], with the elements compared by [eqb]. *)
Fixpoint indexOf {A} (eqb : A -> A -> bool) (x : A) (a : list A) : Z :=
  match a with
  | [] => -1
  | y :: a' =>
      if eqb y x then 0
      else let r := indexOf eqb x a' in if r =? -1 then -1 else r + 1
  end.

(** [a.splice(index, 1)] for [0 <= index]. *)
Definition splice1 {A} (index : Z) (a : list A) : list A :=
  take (Z.to_nat index) a ++ drop (S (Z.to_nat index)) a.

End JS.

(** ** The collaborators of the generator *)

Record Vector3 := { vx : R; vy : R; vz : R }.

Definition minimizeInPlace (v other : Vector3) : Vector3 :=
  {| vx := Rmin (vx v) (vx other); vy := Rmin (vy v) (vy other); vz := Rmin (vz v) (vz other) |}.

Definition maximizeInPlace (v other : Vector3) : Vector3 :=
  {| vx := Rmax (vx v) (vx other); vy := Rmax (vy v) (vy other); vz := Rmax (vz v) (vz other) |}.

Record BoundingInfo := { minimum : Vector3; maximum : Vector3 }.

(** A mesh: its identity, the world bounding box and the child meshes. *)
#[warnings="-register-all"]
Inductive AbstractMesh :=
  Mesh (uniqueId : nat) (minimumWorld maximumWorld : Vector3) (children : list AbstractMesh).

Definition uniqueId (m : AbstractMesh) : nat := let 'Mesh i _ _ _ := m in i.
Definition minimumWorld (m : AbstractMesh) : Vector3 := let 'Mesh _ lo _ _ := m in lo.
Definition maximumWorld (m : AbstractMesh) : Vector3 := let 'Mesh _ _ hi _ := m in hi.
Definition getChildren (m : AbstractMesh) : list AbstractMesh := let 'Mesh _ _ _ cs := m in cs.

(** [mesh.getChildMeshes()]: every descendant, parents before children. *)
Fixpoint getChildMeshes (m : AbstractMesh) : list AbstractMesh :=
  let 'Mesh _ _ _ cs := m in
  flat_map (fun c => c :: getChildMeshes c) cs.

(** [a === b] on meshes is identity of objects. *)
Definition same_mesh (a b : AbstractMesh) : bool := Nat.eqb (uniqueId a) (uniqueId b).

(** A render target texture: its identity and its size. *)
Record RenderTargetTexture := { textureId : nat; renderWidth : Z; renderHeight : Z }.

Record Camera := { minZ : R; maxZ : R }.

(** An observer of [scene.onBeforeRenderObservable] is known by its key. *)
Definition Observer := nat.

Record Scene := {
  shadowsEnabled : bool;
  activeCamera : option Camera;
  onBeforeRenderObservable : list Observer;
  shadowGeneratorComponent : bool
}.

(** A write to the light's uniform buffer. *)
Inductive UniformUpdate :=
| updateFloat4 (name : string) (x y z w : R) (suffix : string)
| updateFloat2 (name : string) (x y : R) (suffix : string).

Record IShadowLight := {
  getTypeID : Z;
  shadowEnabled : bool;
  needCube : bool;
  getDepthMinZ : Camera -> R;
  getDepthMaxZ : Camera -> R;
  meshesMarkedDirty : nat;
  _uniformBuffer : list UniformUpdate
}.

Definition _markMeshesAsLightDirty (l : IShadowLight) : IShadowLight :=
  {| getTypeID := getTypeID l; shadowEnabled := shadowEnabled l; needCube := needCube l;
     getDepthMinZ := getDepthMinZ l; getDepthMaxZ := getDepthMaxZ l;
     meshesMarkedDirty := S (meshesMarkedDirty l); _uniformBuffer := _uniformBuffer l |}.

Definition uniformBuffer_push (u : UniformUpdate) (l : IShadowLight) : IShadowLight :=
  {| getTypeID := getTypeID l; shadowEnabled := shadowEnabled l; needCube := needCube l;
     getDepthMinZ := getDepthMinZ l; getDepthMaxZ := getDepthMaxZ l;
     meshesMarkedDirty := meshesMarkedDirty l; _uniformBuffer := _uniformBuffer l ++ [u] |}.

(** A call on the shader-binding target ([Effect]). *)
Inductive EffectCall :=
| setDepthStencilTexture (name : string) (texture : option RenderTargetTexture)
| setMatrices (name : string) (matrices : list R)
| setInt (name : string) (value : Z)
| setTextureArray (name : string) (textures : list (option RenderTargetTexture))
| setArray (name : string) (values : list (option R)).

Definition Effect := list EffectCall.

(** A value of a define table. *)
Inductive DefineValue :=
| DBool (b : bool)
| DNumber (n : Z).

Abbreviation MaterialDefines := (gmap string DefineValue).

(** A sub mesh is known by its identity. *)
Record SubMesh := { subMeshId : nat }.

(** ** The per-cascade renderer *)

(** The settings of a renderer that the orchestrator passes through. *)
Module Setting.

Inductive number :=
| bias | normalBias | blurBoxOffset | blurScale | blurKernel | depthScale
| filteringQuality | contactHardeningLightSizeUVRatio | darkness | frustumEdgeFalloff.

Inductive flag :=
| useKernelBlur | transparencyShadow | forceBackFacesOnly | depthClamp.

#[global] Instance number_eq_dec : EqDecision number.
Proof. solve_decision. Defined.

#[global] Instance flag_eq_dec : EqDecision flag.
Proof. solve_decision. Defined.

End Setting.

Module ShadowMap.

(** Modelled from the spec: the class [CSMShadowMap] of [./csmShadowMap] is
    not part of the sources.  A renderer "owns exactly one shadow depth map
    and its filtering settings for a single cascade" and exposes "bias /
    normalBias / blur* / filter / darkness / transparency / backface /
    depthClamp settings"; it holds "a non-owning reference" to the caster
    list.  The settings are data properties: reading one returns the value
    last assigned to it.  The fields named after a method hold what the
    method returns. *)
Record CSMShadowMap := {
  number : Setting.number -> R;
  filter : Z;
  flag : Setting.flag -> bool;
  getShadowMap : option RenderTargetTexture;
  getShadowMapForRendering : option RenderTargetTexture;
  getTransformMatrix : list R;
  viewMatrix : list R;
  isDisposed : bool
}.

Definition set_number (k : Setting.number) (v : R) (r : CSMShadowMap) : CSMShadowMap :=
  {| number := fun k' => if decide (k' = k) then v else number r k';
     filter := filter r; flag := flag r;
     getShadowMap := getShadowMap r; getShadowMapForRendering := getShadowMapForRendering r;
     getTransformMatrix := getTransformMatrix r; viewMatrix := viewMatrix r;
     isDisposed := isDisposed r |}.

Definition set_filter (v : Z) (r : CSMShadowMap) : CSMShadowMap :=
  {| number := number r; filter := v; flag := flag r;
     getShadowMap := getShadowMap r; getShadowMapForRendering := getShadowMapForRendering r;
     getTransformMatrix := getTransformMatrix r; viewMatrix := viewMatrix r;
     isDisposed := isDisposed r |}.

Definition set_flag (k : Setting.flag) (v : bool) (r : CSMShadowMap) : CSMShadowMap :=
  {| number := number r; filter := filter r;
     flag := fun k' => if decide (k' = k) then v else flag r k';
     getShadowMap := getShadowMap r; getShadowMapForRendering := getShadowMapForRendering r;
     getTransformMatrix := getTransformMatrix r; viewMatrix := viewMatrix r;
     isDisposed := isDisposed r |}.

Definition getDarkness (r : CSMShadowMap) : R := number r Setting.darkness.

(** Modelled from the spec: [CSMShadowMap.dispose] releases the depth map
    of the renderer; the caster list is not its own and stays as it is. *)
Definition dispose (r : CSMShadowMap) : CSMShadowMap :=
  {| number := number r; filter := filter r; flag := flag r;
     getShadowMap := None; getShadowMapForRendering := None;
     getTransformMatrix := getTransformMatrix r; viewMatrix := viewMatrix r;
     isDisposed := true |}.

(** [matrix.copyToArray(array, offset)] on a [Float32Array]: a typed array
    has a fixed length, a write past its end is dropped. *)
Fixpoint copyToArray (matrix : list R) (array : list R) (offset : nat) : list R :=
  match matrix with
  | [] => array
  | x :: matrix' => copyToArray matrix' (<[offset := x]> array) (S offset)
  end.

End ShadowMap.

Abbreviation CSMShadowMap := ShadowMap.CSMShadowMap.

Record ICascade := {
  generator : CSMShadowMap;
  prevSplitDistance : R;
  splitDistance : R
}.

Definition with_generator (f : CSMShadowMap -> CSMShadowMap) (c : ICascade) : ICascade :=
  {| generator := f (generator c); prevSplitDistance := prevSplitDistance c;
     splitDistance := splitDistance c |}.

(** ** The state of the generator *)

(** The fields of [CSMShadowGenerator], in the order of the class, and
    [console], the lines written with [console.error]. *)
Record CSMShadowGenerator := mkGenerator {
  _activeCascade : Z;
  _numCascades : Z;
  _lambda : R;
  _minDistance : R;
  _maxDistance : R;
  _stabilizeCascades : bool;
  _useRightDirectionAsUpForOrthoProj : bool;
  _freezeShadowCastersBoundingInfo : bool;
  _freezeShadowCastersBoundingInfoObservable : option Observer;
  _shadowCastersBoundingInfo : BoundingInfo;
  _debug : bool;
  _cascades : list ICascade;
  _renderList : list AbstractMesh;
  _light : IShadowLight;
  _scene : Scene;
  _mapSize : Z;
  _usefulFloatFirst : option bool;
  _lightMatrices : list R;
  _samplers : list (option RenderTargetTexture);
  _cascadeDepths : list (option R);
  console : list string
}.

(** Assignments to one field. *)
Definition assign_activeCascade (v : Z) (g : CSMShadowGenerator) : CSMShadowGenerator :=
  mkGenerator v (_numCascades g) (_lambda g) (_minDistance g) (_maxDistance g) (_stabilizeCascades g) (_useRightDirectionAsUpForOrthoProj g) (_freezeShadowCastersBoundingInfo g) (_freezeShadowCastersBoundingInfoObservable g) (_shadowCastersBoundingInfo g) (_debug g) (_cascades g) (_renderList g) (_light g) (_scene g) (_mapSize g) (_usefulFloatFirst g) (_lightMatrices g) (_samplers g) (_cascadeDepths g) (console g).
Definition assign_numCascades (v : Z) (g : CSMShadowGenerator) : CSMShadowGenerator :=
  mkGenerator (_activeCascade g) v (_lambda g) (_minDistance g) (_maxDistance g) (_stabilizeCascades g) (_useRightDirectionAsUpForOrthoProj g) (_freezeShadowCastersBoundingInfo g) (_freezeShadowCastersBoundingInfoObservable g) (_shadowCastersBoundingInfo g) (_debug g) (_cascades g) (_renderList g) (_light g) (_scene g) (_mapSize g) (_usefulFloatFirst g) (_lightMatrices g) (_samplers g) (_cascadeDepths g) (console g).
Definition assign_lambda (v : R) (g : CSMShadowGenerator) : CSMShadowGenerator :=
  mkGenerator (_activeCascade g) (_numCascades g) v (_minDistance g) (_maxDistance g) (_stabilizeCascades g) (_useRightDirectionAsUpForOrthoProj g) (_freezeShadowCastersBoundingInfo g) (_freezeShadowCastersBoundingInfoObservable g) (_shadowCastersBoundingInfo g) (_debug g) (_cascades g) (_renderList g) (_light g) (_scene g) (_mapSize g) (_usefulFloatFirst g) (_lightMatrices g) (_samplers g) (_cascadeDepths g) (console g).
Definition assign_minDistance (v : R) (g : CSMShadowGenerator) : CSMShadowGenerator :=
  mkGenerator (_activeCascade g) (_numCascades g) (_lambda g) v (_maxDistance g) (_stabilizeCascades g) (_useRightDirectionAsUpForOrthoProj g) (_freezeShadowCastersBoundingInfo g) (_freezeShadowCastersBoundingInfoObservable g) (_shadowCastersBoundingInfo g) (_debug g) (_cascades g) (_renderList g) (_light g) (_scene g) (_mapSize g) (_usefulFloatFirst g) (_lightMatrices g) (_samplers g) (_cascadeDepths g) (console g).
Definition assign_maxDistance (v : R) (g : CSMShadowGenerator) : CSMShadowGenerator :=
  mkGenerator (_activeCascade g) (_numCascades g) (_lambda g) (_minDistance g) v (_stabilizeCascades g) (_useRightDirectionAsUpForOrthoProj g) (_freezeShadowCastersBoundingInfo g) (_freezeShadowCastersBoundingInfoObservable g) (_shadowCastersBoundingInfo g) (_debug g) (_cascades g) (_renderList g) (_light g) (_scene g) (_mapSize g) (_usefulFloatFirst g) (_lightMatrices g) (_samplers g) (_cascadeDepths g) (console g).
Definition assign_stabilizeCascades (v : bool) (g : CSMShadowGenerator) : CSMShadowGenerator :=
  mkGenerator (_activeCascade g) (_numCascades g) (_lambda g) (_minDistance g) (_maxDistance g) v (_useRightDirectionAsUpForOrthoProj g) (_freezeShadowCastersBoundingInfo g) (_freezeShadowCastersBoundingInfoObservable g) (_shadowCastersBoundingInfo g) (_debug g) (_cascades g) (_renderList g) (_light g) (_scene g) (_mapSize g) (_usefulFloatFirst g) (_lightMatrices g) (_samplers g) (_cascadeDepths g) (console g).
Definition assign_useRightDirectionAsUpForOrthoProj (v : bool) (g : CSMShadowGenerator) : CSMShadowGenerator :=
  mkGenerator (_activeCascade g) (_numCascades g) (_lambda g) (_minDistance g) (_maxDistance g) (_stabilizeCascades g) v (_freezeShadowCastersBoundingInfo g) (_freezeShadowCastersBoundingInfoObservable g) (_shadowCastersBoundingInfo g) (_debug g) (_cascades g) (_renderList g) (_light g) (_scene g) (_mapSize g) (_usefulFloatFirst g) (_lightMatrices g) (_samplers g) (_cascadeDepths g) (console g).
Definition assign_freezeShadowCastersBoundingInfo (v : bool) (g : CSMShadowGenerator) : CSMShadowGenerator :=
  mkGenerator (_activeCascade g) (_numCascades g) (_lambda g) (_minDistance g) (_maxDistance g) (_stabilizeCascades g) (_useRightDirectionAsUpForOrthoProj g) v (_freezeShadowCastersBoundingInfoObservable g) (_shadowCastersBoundingInfo g) (_debug g) (_cascades g) (_renderList g) (_light g) (_scene g) (_mapSize g) (_usefulFloatFirst g) (_lightMatrices g) (_samplers g) (_cascadeDepths g) (console g).
Definition assign_freezeShadowCastersBoundingInfoObservable (v : option Observer) (g : CSMShadowGenerator) : CSMShadowGenerator :=
  mkGenerator (_activeCascade g) (_numCascades g) (_lambda g) (_minDistance g) (_maxDistance g) (_stabilizeCascades g) (_useRightDirectionAsUpForOrthoProj g) (_freezeShadowCastersBoundingInfo g) v (_shadowCastersBoundingInfo g) (_debug g) (_cascades g) (_renderList g) (_light g) (_scene g) (_mapSize g) (_usefulFloatFirst g) (_lightMatrices g) (_samplers g) (_cascadeDepths g) (console g).
Definition assign_shadowCastersBoundingInfo (v : BoundingInfo) (g : CSMShadowGenerator) : CSMShadowGenerator :=
  mkGenerator (_activeCascade g) (_numCascades g) (_lambda g) (_minDistance g) (_maxDistance g) (_stabilizeCascades g) (_useRightDirectionAsUpForOrthoProj g) (_freezeShadowCastersBoundingInfo g) (_freezeShadowCastersBoundingInfoObservable g) v (_debug g) (_cascades g) (_renderList g) (_light g) (_scene g) (_mapSize g) (_usefulFloatFirst g) (_lightMatrices g) (_samplers g) (_cascadeDepths g) (console g).
Definition assign_debug (v : bool) (g : CSMShadowGenerator) : CSMShadowGenerator :=
  mkGenerator (_activeCascade g) (_numCascades g) (_lambda g) (_minDistance g) (_maxDistance g) (_stabilizeCascades g) (_useRightDirectionAsUpForOrthoProj g) (_freezeShadowCastersBoundingInfo g) (_freezeShadowCastersBoundingInfoObservable g) (_shadowCastersBoundingInfo g) v (_cascades g) (_renderList g) (_light g) (_scene g) (_mapSize g) (_usefulFloatFirst g) (_lightMatrices g) (_samplers g) (_cascadeDepths g) (console g).
Definition assign_cascades (v : list ICascade) (g : CSMShadowGenerator) : CSMShadowGenerator :=
  mkGenerator (_activeCascade g) (_numCascades g) (_lambda g) (_minDistance g) (_maxDistance g) (_stabilizeCascades g) (_useRightDirectionAsUpForOrthoProj g) (_freezeShadowCastersBoundingInfo g) (_freezeShadowCastersBoundingInfoObservable g) (_shadowCastersBoundingInfo g) (_debug g) v (_renderList g) (_light g) (_scene g) (_mapSize g) (_usefulFloatFirst g) (_lightMatrices g) (_samplers g) (_cascadeDepths g) (console g).
Definition assign_renderList (v : list AbstractMesh) (g : CSMShadowGenerator) : CSMShadowGenerator :=
  mkGenerator (_activeCascade g) (_numCascades g) (_lambda g) (_minDistance g) (_maxDistance g) (_stabilizeCascades g) (_useRightDirectionAsUpForOrthoProj g) (_freezeShadowCastersBoundingInfo g) (_freezeShadowCastersBoundingInfoObservable g) (_shadowCastersBoundingInfo g) (_debug g) (_cascades g) v (_light g) (_scene g) (_mapSize g) (_usefulFloatFirst g) (_lightMatrices g) (_samplers g) (_cascadeDepths g) (console g).
Definition assign_light (v : IShadowLight) (g : CSMShadowGenerator) : CSMShadowGenerator :=
  mkGenerator (_activeCascade g) (_numCascades g) (_lambda g) (_minDistance g) (_maxDistance g) (_stabilizeCascades g) (_useRightDirectionAsUpForOrthoProj g) (_freezeShadowCastersBoundingInfo g) (_freezeShadowCastersBoundingInfoObservable g) (_shadowCastersBoundingInfo g) (_debug g) (_cascades g) (_renderList g) v (_scene g) (_mapSize g) (_usefulFloatFirst g) (_lightMatrices g) (_samplers g) (_cascadeDepths g) (console g).
Definition assign_scene (v : Scene) (g : CSMShadowGenerator) : CSMShadowGenerator :=
  mkGenerator (_activeCascade g) (_numCascades g) (_lambda g) (_minDistance g) (_maxDistance g) (_stabilizeCascades g) (_useRightDirectionAsUpForOrthoProj g) (_freezeShadowCastersBoundingInfo g) (_freezeShadowCastersBoundingInfoObservable g) (_shadowCastersBoundingInfo g) (_debug g) (_cascades g) (_renderList g) (_light g) v (_mapSize g) (_usefulFloatFirst g) (_lightMatrices g) (_samplers g) (_cascadeDepths g) (console g).
Definition assign_lightMatrices (v : list R) (g : CSMShadowGenerator) : CSMShadowGenerator :=
  mkGenerator (_activeCascade g) (_numCascades g) (_lambda g) (_minDistance g) (_maxDistance g) (_stabilizeCascades g) (_useRightDirectionAsUpForOrthoProj g) (_freezeShadowCastersBoundingInfo g) (_freezeShadowCastersBoundingInfoObservable g) (_shadowCastersBoundingInfo g) (_debug g) (_cascades g) (_renderList g) (_light g) (_scene g) (_mapSize g) (_usefulFloatFirst g) v (_samplers g) (_cascadeDepths g) (console g).
Definition assign_samplers (v : list (option RenderTargetTexture)) (g : CSMShadowGenerator) : CSMShadowGenerator :=
  mkGenerator (_activeCascade g) (_numCascades g) (_lambda g) (_minDistance g) (_maxDistance g) (_stabilizeCascades g) (_useRightDirectionAsUpForOrthoProj g) (_freezeShadowCastersBoundingInfo g) (_freezeShadowCastersBoundingInfoObservable g) (_shadowCastersBoundingInfo g) (_debug g) (_cascades g) (_renderList g) (_light g) (_scene g) (_mapSize g) (_usefulFloatFirst g) (_lightMatrices g) v (_cascadeDepths g) (console g).
Definition assign_cascadeDepths (v : list (option R)) (g : CSMShadowGenerator) : CSMShadowGenerator :=
  mkGenerator (_activeCascade g) (_numCascades g) (_lambda g) (_minDistance g) (_maxDistance g) (_stabilizeCascades g) (_useRightDirectionAsUpForOrthoProj g) (_freezeShadowCastersBoundingInfo g) (_freezeShadowCastersBoundingInfoObservable g) (_shadowCastersBoundingInfo g) (_debug g) (_cascades g) (_renderList g) (_light g) (_scene g) (_mapSize g) (_usefulFloatFirst g) (_lightMatrices g) (_samplers g) v (console g).
Definition assign_console (v : list string) (g : CSMShadowGenerator) : CSMShadowGenerator :=
  mkGenerator (_activeCascade g) (_numCascades g) (_lambda g) (_minDistance g) (_maxDistance g) (_stabilizeCascades g) (_useRightDirectionAsUpForOrthoProj g) (_freezeShadowCastersBoundingInfo g) (_freezeShadowCastersBoundingInfoObservable g) (_shadowCastersBoundingInfo g) (_debug g) (_cascades g) (_renderList g) (_light g) (_scene g) (_mapSize g) (_usefulFloatFirst g) (_lightMatrices g) (_samplers g) (_cascadeDepths g) v.

(** Writes to the scene. *)
Definition set_onBeforeRenderObservable (obs : list Observer) (s : Scene) : Scene :=
  {| shadowsEnabled := shadowsEnabled s; activeCamera := activeCamera s;
     onBeforeRenderObservable := obs; shadowGeneratorComponent := shadowGeneratorComponent s |}.

(** [ShadowGenerator._SceneComponentInitialization(scene)]. *)
Definition _SceneComponentInitialization (s : Scene) : Scene :=
  {| shadowsEnabled := shadowsEnabled s; activeCamera := activeCamera s;
     onBeforeRenderObservable := onBeforeRenderObservable s; shadowGeneratorComponent := true |}.

(** [observable.add(callback)] returns the new observer. *)
Definition observable_add (obs : list Observer) : Observer * list Observer :=
  let o := S (list_max obs) in (o, obs ++ [o]).

(** [observable.remove(observer)]. *)
Definition observable_remove (o : Observer) (obs : list Observer) : list Observer :=
  List.filter (fun o' => negb (Nat.eqb o' o)) obs.

(** ** The methods of the generator *)

Module CSM.

Definition CASCADE_ALL : Z := -1.

Definition activeCascade (g : CSMShadowGenerator) : Z := _activeCascade g.

Definition set_activeCascade (index : Z) (g : CSMShadowGenerator) : CSMShadowGenerator :=
  let index :=
    if negb (index =? CASCADE_ALL) && ((index <? 0) || (index >=? _numCascades g))
    then 0 else index in
  assign_activeCascade index g.

Definition numCascades (g : CSMShadowGenerator) : Z := _numCascades g.

(** One turn of the loop of [setDistanceSplit], in exact arithmetic;
    [Split.splitStep] is the same turn in the arithmetic of the program. *)
Definition splitStep (g : CSMShadowGenerator) (near cameraRange minZ range ratio : R)
    (cascades : list ICascade) (cascadeIndex : nat) : list ICascade :=
  let p := (INR (cascadeIndex + 1) / IZR (_numCascades g))%R in
  let log := (minZ * JS.pow ratio p)%R in
  let uniform := (minZ + range * p)%R in
  let d := (_lambda g * (log - uniform) + uniform)%R in
  let prev :=
    if Nat.eqb cascadeIndex 0 then _minDistance g
    else from_option splitDistance 0%R (cascades !! (cascadeIndex - 1)%nat) in
  alter (fun c => {| generator := generator c;
                     prevSplitDistance := prev;
                     splitDistance := ((d - near) / cameraRange)%R |})
        cascadeIndex cascades.

Definition setDistanceSplit (g : CSMShadowGenerator) : CSMShadowGenerator :=
  match activeCamera (_scene g) with
  | None => g
  | Some camera =>
      let near := minZ camera in
      let far := maxZ camera in
      let cameraRange := (far - near)%R in
      let minZ := (near + _minDistance g * cameraRange)%R in
      let maxZ := (near + _maxDistance g * cameraRange)%R in
      let range := (maxZ - minZ)%R in
      let ratio := (maxZ / minZ)%R in
      assign_cascades
        (fold_left (splitStep g near cameraRange minZ range ratio)
                   (seq 0 (length (_cascades g))) (_cascades g))
        g
  end.

Definition lambda (g : CSMShadowGenerator) : R := _lambda g.

Definition set_lambda (value : R) (g : CSMShadowGenerator) : CSMShadowGenerator :=
  setDistanceSplit (assign_lambda value g).

Definition minDistance (g : CSMShadowGenerator) : R := _minDistance g.

Definition set_minDistance (min : R) (g : CSMShadowGenerator) : CSMShadowGenerator :=
  assign_minDistance min g.

Definition maxDistance (g : CSMShadowGenerator) : R := _maxDistance g.

Definition set_maxDistance (min : R) (g : CSMShadowGenerator) : CSMShadowGenerator :=
  assign_maxDistance min g.

Definition _computeShadowCastersBoundingInfo (g : CSMShadowGenerator) : CSMShadowGenerator :=
  let min := {| vx := JS.Number_MAX_VALUE; vy := JS.Number_MAX_VALUE; vz := JS.Number_MAX_VALUE |} in
  let max := {| vx := JS.Number_MIN_VALUE; vy := JS.Number_MIN_VALUE; vz := JS.Number_MIN_VALUE |} in
  let '(min, max) :=
    fold_left (fun '(min, max) mesh =>
                 (minimizeInPlace min (minimumWorld mesh), maximizeInPlace max (maximumWorld mesh)))
              (_renderList g) (min, max) in
  assign_shadowCastersBoundingInfo {| minimum := min; maximum := max |} g.

Definition freezeShadowCastersBoundingInfo (g : CSMShadowGenerator) : bool :=
  _freezeShadowCastersBoundingInfo g.

Definition set_freezeShadowCastersBoundingInfo (freeze : bool) (g : CSMShadowGenerator)
    : CSMShadowGenerator :=
  let g :=
    match _freezeShadowCastersBoundingInfoObservable g with
    | Some o =>
        if freeze then
          assign_freezeShadowCastersBoundingInfoObservable None
            (assign_scene (set_onBeforeRenderObservable
                          (observable_remove o (onBeforeRenderObservable (_scene g)))
                          (_scene g)) g)
        else g
    | None => g
    end in
  let g :=
    match _freezeShadowCastersBoundingInfoObservable g with
    | None =>
        if negb freeze then
          let '(o, obs) := observable_add (onBeforeRenderObservable (_scene g)) in
          assign_freezeShadowCastersBoundingInfoObservable (Some o)
            (assign_scene (set_onBeforeRenderObservable obs (_scene g)) g)
        else g
    | Some _ => g
    end in
  let g := assign_freezeShadowCastersBoundingInfo freeze g in
  if freeze then _computeShadowCastersBoundingInfo g else g.

Definition debug (g : CSMShadowGenerator) : bool := _debug g.

Definition set_debug (dbg : bool) (g : CSMShadowGenerator) : CSMShadowGenerator :=
  let g := assign_debug dbg g in
  assign_light (_markMeshesAsLightDirty (_light g)) g.

(** The test every getter makes: [_activeCascade >= 0 && _activeCascade <
    _cascades.length], and the cascade it selects. *)
Definition cascade (g : CSMShadowGenerator) : option ICascade :=
  if (_activeCascade g >=? 0) && (_activeCascade g <? Z.of_nat (length (_cascades g)))
  then _cascades g !! Z.to_nat (_activeCascade g)
  else None.

Definition renderList (g : CSMShadowGenerator) : list AbstractMesh := _renderList g.

(** *** Per-cascade properties: the getters *)

Definition getNumber (k : Setting.number) (g : CSMShadowGenerator) : R :=
  from_option (fun c => ShadowMap.number (generator c) k) (-1)%R (cascade g).

Definition getFlag (k : Setting.flag) (g : CSMShadowGenerator) : bool :=
  from_option (fun c => ShadowMap.flag (generator c) k) false (cascade g).

Definition bias := getNumber Setting.bias.
Definition normalBias := getNumber Setting.normalBias.
Definition blurBoxOffset := getNumber Setting.blurBoxOffset.
Definition blurScale := getNumber Setting.blurScale.
Definition blurKernel := getNumber Setting.blurKernel.
Definition useKernelBlur := getFlag Setting.useKernelBlur.
Definition depthScale := getNumber Setting.depthScale.
Definition filter (g : CSMShadowGenerator) : Z :=
  from_option (fun c => ShadowMap.filter (generator c)) (-1) (cascade g).
Definition filteringQuality := getNumber Setting.filteringQuality.
Definition contactHardeningLightSizeUVRatio :=
  getNumber Setting.contactHardeningLightSizeUVRatio.
Definition darkness := getNumber Setting.darkness.
Definition transparencyShadow := getFlag Setting.transparencyShadow.
Definition forceBackFacesOnly := getFlag Setting.forceBackFacesOnly.
Definition depthClamp := getFlag Setting.depthClamp.
Definition viewMatrix (g : CSMShadowGenerator) : option (list R) :=
  (fun c => ShadowMap.viewMatrix (generator c)) <$> cascade g.

(** *** Per-cascade properties: the setters *)

(** [_getActiveCascades(forceAll = true)].  The array it returns holds the
    cascade objects of [_cascades] themselves, so it is the list of their
    positions in [_cascades]. *)
Definition _getActiveCascades (forceAll : bool) (g : CSMShadowGenerator) : list nat :=
  if (_activeCascade g =? CASCADE_ALL) || forceAll then seq 0 (length (_cascades g))
  else if (_activeCascade g >=? 0) && (_activeCascade g <? Z.of_nat (length (_cascades g)))
       then [Z.to_nat (_activeCascade g)]
       else [].

(** [cascades.forEach((cascade) => cascade.generator.<property> = value)]. *)
Definition forEach (selected : list nat) (write : CSMShadowMap -> CSMShadowMap)
    (g : CSMShadowGenerator) : CSMShadowGenerator :=
  assign_cascades
    (fold_left (fun cascades i => alter (with_generator write) i cascades)
               selected (_cascades g))
    g.

Definition setNumber (k : Setting.number) (value : R) (g : CSMShadowGenerator) :=
  forEach (_getActiveCascades true g) (ShadowMap.set_number k value) g.

Definition setFlag (k : Setting.flag) (value : bool) (g : CSMShadowGenerator) :=
  forEach (_getActiveCascades true g) (ShadowMap.set_flag k value) g.

Definition set_bias := setNumber Setting.bias.
Definition set_normalBias := setNumber Setting.normalBias.
Definition set_blurBoxOffset := setNumber Setting.blurBoxOffset.
Definition set_blurScale := setNumber Setting.blurScale.
Definition set_blurKernel := setNumber Setting.blurKernel.
Definition set_useKernelBlur := setFlag Setting.useKernelBlur.
Definition set_depthScale := setNumber Setting.depthScale.
Definition set_filter (value : Z) (g : CSMShadowGenerator) :=
  forEach (_getActiveCascades true g) (ShadowMap.set_filter value) g.
Definition set_filteringQuality := setNumber Setting.filteringQuality.
Definition set_contactHardeningLightSizeUVRatio :=
  setNumber Setting.contactHardeningLightSizeUVRatio.
Definition set_darkness := setNumber Setting.darkness.
Definition set_transparencyShadow := setFlag Setting.transparencyShadow.
Definition set_forceBackFacesOnly := setFlag Setting.forceBackFacesOnly.
Definition set_depthClamp := setFlag Setting.depthClamp.

(** *** The caster list *)

Definition addShadowCaster (mesh : AbstractMesh) (includeDescendants : bool)
    (g : CSMShadowGenerator) : CSMShadowGenerator :=
  let renderList := _renderList g ++ [mesh] in
  let renderList :=
    if includeDescendants then renderList ++ getChildMeshes mesh else renderList in
  assign_renderList renderList g.

(** The caster list after [removeShadowCaster(mesh, includeDescendants)];
    the call on a child is [removeShadowCaster(child)], with the default
    [includeDescendants = true]. *)
Fixpoint removeFrom (mesh : AbstractMesh) (includeDescendants : bool)
    (renderList : list AbstractMesh) {struct mesh} : list AbstractMesh :=
  let index := JS.indexOf same_mesh mesh renderList in
  let renderList :=
    if negb (index =? -1) then JS.splice1 index renderList else renderList in
  if includeDescendants then
    match mesh with
    | Mesh _ _ _ children =>
        (fix each (children : list AbstractMesh) (renderList : list AbstractMesh) :=
           match children with
           | [] => renderList
           | child :: children' => each children' (removeFrom child true renderList)
           end) children renderList
    end
  else renderList.

Definition removeShadowCaster (mesh : AbstractMesh) (includeDescendants : bool)
    (g : CSMShadowGenerator) : CSMShadowGenerator :=
  assign_renderList (removeFrom mesh includeDescendants (_renderList g)) g.

Definition mustRender (g : CSMShadowGenerator) : bool :=
  (0 <? length (renderList g))%nat.

(** *** Construction, shader set-up and disposal *)

Section Babylon.

(** What Babylon.js and [./csmShadowMap] provide. *)
Variable LIGHTTYPEID_DIRECTIONALLIGHT : Z.
Variables FILTER_PCF FILTER_PCSS : Z.
Variable newCSMShadowMap : Z -> IShadowLight -> bool -> CSMShadowMap.
Variable CSMShadowMap_prepareDefines :
  CSMShadowMap -> MaterialDefines -> nat -> MaterialDefines.

Definition _initializeCSM (g : CSMShadowGenerator) : CSMShadowGenerator :=
  let cascades :=
    fold_left
      (fun cascades (cascadeIndex : nat) =>
         let cascade :=
           {| generator :=
                newCSMShadowMap (_mapSize g) (_light g)
                                (default false (_usefulFloatFirst g));
              prevSplitDistance := 0;
              splitDistance := 0 |} in
         cascades ++ [cascade])
      (seq 0 (Z.to_nat (_numCascades g))) (_cascades g) in
  let g := assign_cascades cascades g in
  let g :=
    if negb (_activeCascade g =? CASCADE_ALL) && (_activeCascade g >=? _numCascades g)
    then assign_activeCascade 0 g else g in
  setDistanceSplit g.

Definition _initializeGenerator (g : CSMShadowGenerator) : CSMShadowGenerator :=
  let g := assign_light (_markMeshesAsLightDirty (_light g)) g in
  _initializeCSM g.

(** [new CSMShadowGenerator(mapSize, light, numCascades, usefulFloatFirst)];
    [scene] is [light.getScene()] and [console] the console so far. *)
Definition constructor (mapSize : Z) (light : IShadowLight) (scene : Scene)
    (numCascades : Z) (usefulFloatFirst : option bool) (console : list string)
    : CSMShadowGenerator :=
  let numCascades := if numCascades <? 1 then 1 else numCascades in
  let console :=
    if negb (getTypeID light =? LIGHTTYPEID_DIRECTIONALLIGHT)
    then console ++ ["Invalid light type for CSMShadowGenerator! Only directional lights are allowed."%string]
    else console in
  let zero := {| vx := 0; vy := 0; vz := 0 |} in
  let g :=
    {| _activeCascade := CASCADE_ALL;
       _numCascades := numCascades;
       _lambda := 0.7;
       _minDistance := 0;
       _maxDistance := 1;
       _stabilizeCascades := false;
       _useRightDirectionAsUpForOrthoProj := false;
       _freezeShadowCastersBoundingInfo := false;
       _freezeShadowCastersBoundingInfoObservable := None;
       _shadowCastersBoundingInfo := {| minimum := zero; maximum := zero |};
       _debug := false;
       _cascades := [];
       _renderList := [];
       _light := light;
       _scene := _SceneComponentInitialization scene;
       _mapSize := mapSize;
       _usefulFloatFirst := usefulFloatFirst;
       _lightMatrices := replicate (Z.to_nat (numCascades * 16)) 0%R;
       _samplers := replicate (Z.to_nat numCascades) None;
       _cascadeDepths := replicate (Z.to_nat numCascades) None;
       console := console |} in
  let g := set_freezeShadowCastersBoundingInfo false g in
  _initializeGenerator g.

Definition prepareDefines (defines : MaterialDefines) (lightIndex : nat)
    (g : CSMShadowGenerator) : MaterialDefines :=
  let scene := _scene g in
  let light := _light g in
  if negb (shadowsEnabled scene) || negb (shadowEnabled light)
     || (length (_cascades g) <? 1)%nat
  then defines
  else
    match _cascades g !! 0%nat with
    | None => defines
    | Some cascade0 =>
        let defines := CSMShadowMap_prepareDefines (generator cascade0) defines lightIndex in
        let defines :=
          <[ "SHADOWCSM" +:+ JS.toString lightIndex := DBool true ]> defines in
        let defines :=
          <[ ("SHADOWCSM" +:+ JS.toString lightIndex) +:+ "_NUMCASCADES"
             := DNumber (_numCascades g) ]> defines in
        <[ ("SHADOWCSM" +:+ JS.toString lightIndex) +:+ "_DEBUG" := DBool (_debug g) ]> defines
    end.

(** One turn of the loop of [bindShadowLight], on
    [(_lightMatrices, _samplers, _cascadeDepths, effect)]. *)
Definition bindStep (lightIndex : string) (camera : Camera) (cameraRange : R)
    (masterGenerator : CSMShadowMap) (cascades : list ICascade)
    (st : list R * list (option RenderTargetTexture) * list (option R) * Effect)
    (cascadeIndex : nat)
    : list R * list (option RenderTargetTexture) * list (option R) * Effect :=
  let '(lightMatrices, samplers, cascadeDepths, effect) := st in
  match cascades !! cascadeIndex with
  | None => st
  | Some cascade =>
      let matrix := ShadowMap.getTransformMatrix (generator cascade) in
      let lightMatrices :=
        ShadowMap.copyToArray matrix lightMatrices (cascadeIndex * 16) in
      let '(samplers, effect) :=
        if ShadowMap.filter masterGenerator =? FILTER_PCF then
          (samplers,
           effect ++ [setDepthStencilTexture
                        ((("shadowSampler" +:+ lightIndex) +:+ "_") +:+ JS.toString cascadeIndex)
                        (ShadowMap.getShadowMapForRendering (generator cascade))])
        else
          (JS.array_set cascadeIndex (ShadowMap.getShadowMapForRendering (generator cascade)) samplers,
           effect) in
      let cascadeDepths :=
        JS.array_set cascadeIndex
          (Some (minZ camera + splitDistance cascade * cameraRange)%R) cascadeDepths in
      (lightMatrices, samplers, cascadeDepths, effect)
  end.

(** [bindShadowLight(lightIndex, effect)]: the generator and the
    shader-binding target after the call. *)
Definition bindShadowLight (lightIndex : string) (effect : Effect)
    (g : CSMShadowGenerator) : CSMShadowGenerator * Effect :=
  let light := _light g in
  let scene := _scene g in
  if negb (shadowsEnabled scene) || negb (shadowEnabled light)
     || (length (_cascades g) <? 1)%nat
  then (g, effect)
  else
    match activeCamera scene with
    | None => (g, effect)
    | Some camera =>
        match _cascades g !! 0%nat with
        | None => (g, effect)
        | Some cascade0 =>
            let masterGenerator := generator cascade0 in
            match ShadowMap.getShadowMap masterGenerator with
            | None => (g, effect)
            | Some shadowMap0 =>
                let cameraRange := (maxZ camera - minZ camera)%R in
                let '(lightMatrices, samplers, cascadeDepths, effect) :=
                  fold_left
                    (bindStep lightIndex camera cameraRange masterGenerator (_cascades g))
                    (seq 0 (length (_cascades g)))
                    (_lightMatrices g, _samplers g, _cascadeDepths g, effect) in
                let effect :=
                  if negb (needCube light)
                  then effect ++ [setMatrices ("lightMatrix" +:+ lightIndex) lightMatrices]
                  else effect in
                let effect :=
                  effect ++ [setInt ("numCascades" +:+ lightIndex)
                                    (Z.of_nat (length (_cascades g)))] in
                let effect :=
                  if negb (ShadowMap.filter masterGenerator =? FILTER_PCF)
                  then effect ++ [setTextureArray ("shadowSampler" +:+ lightIndex) samplers]
                  else effect in
                let effect :=
                  effect ++ [setArray ("cascadeSplits" +:+ lightIndex) cascadeDepths] in
                let width := IZR (renderWidth shadowMap0) in
                let shadowsInfo :=
                  if ShadowMap.filter masterGenerator =? FILTER_PCF then
                    updateFloat4 "shadowsInfo" (ShadowMap.getDarkness masterGenerator)
                      width (1 / width)
                      (ShadowMap.number masterGenerator Setting.frustumEdgeFalloff) lightIndex
                  else if ShadowMap.filter masterGenerator =? FILTER_PCSS then
                    updateFloat4 "shadowsInfo" (ShadowMap.getDarkness masterGenerator)
                      (1 / width)
                      (ShadowMap.number masterGenerator Setting.contactHardeningLightSizeUVRatio * width)
                      (ShadowMap.number masterGenerator Setting.frustumEdgeFalloff) lightIndex
                  else
                    updateFloat4 "shadowsInfo" (ShadowMap.getDarkness masterGenerator)
                      (ShadowMap.number masterGenerator Setting.blurScale / width)
                      (ShadowMap.number masterGenerator Setting.depthScale)
                      (ShadowMap.number masterGenerator Setting.frustumEdgeFalloff) lightIndex in
                let light := uniformBuffer_push shadowsInfo light in
                let light :=
                  uniformBuffer_push
                    (updateFloat2 "depthValues" (getDepthMinZ light camera)
                       (getDepthMinZ light camera + getDepthMaxZ light camera) lightIndex)
                    light in
                (assign_light light
                   (assign_cascadeDepths cascadeDepths
                      (assign_samplers samplers
                         (assign_lightMatrices lightMatrices g))),
                 effect)
            end
        end
    end.

(** [generator.isReady(subMesh, useInstances, false)] of a renderer: the
    answer, and the renderer afterwards (it may prepare its effect). *)
Variable CSMShadowMap_isReady :
  CSMShadowMap -> SubMesh -> bool -> bool -> bool * CSMShadowMap.

(** [generator.recreate()] of a renderer. *)
Variable CSMShadowMap_recreate : CSMShadowMap -> CSMShadowMap.

(** One turn of the loop of [isReady], on [(ready, _cascades)]; the loop
    goes on while [ready] holds. *)
Definition isReadyStep (subMesh : SubMesh) (useInstances : bool)
    (st : bool * list ICascade) (cascadeIndex : nat) : bool * list ICascade :=
  let '(ready, cascades) := st in
  if ready then
    match cascades !! cascadeIndex with
    | None => st
    | Some cascade =>
        let '(answer, renderer) :=
          CSMShadowMap_isReady (generator cascade) subMesh useInstances false in
        (ready && answer,
         <[cascadeIndex := with_generator (fun _ => renderer) cascade]> cascades)
    end
  else st.

Definition isReady (subMesh : SubMesh) (useInstances : bool) (g : CSMShadowGenerator)
    : bool * CSMShadowGenerator :=
  let '(ready, cascades) :=
    fold_left (isReadyStep subMesh useInstances) (seq 0 (length (_cascades g)))
              (true, _cascades g) in
  (ready, assign_cascades cascades g).

Definition recreate (g : CSMShadowGenerator) : CSMShadowGenerator :=
  forEach (seq 0 (length (_cascades g))) CSMShadowMap_recreate g.

End Babylon.

Definition getShadowMaps (g : CSMShadowGenerator) : list RenderTargetTexture :=
  fold_left
    (fun rttList cascadeIndex =>
       match _cascades g !! cascadeIndex with
       | None => rttList
       | Some cascade =>
           match ShadowMap.getShadowMap (generator cascade) with
           | Some rtt => rttList ++ [rtt]
           | None => rttList
           end
       end)
    (seq 0 (length (_cascades g))) [].

Definition getLight (g : CSMShadowGenerator) : IShadowLight := _light g.

Definition dispose (g : CSMShadowGenerator) : CSMShadowGenerator :=
  let g := forEach (seq 0 (length (_cascades g))) ShadowMap.dispose g in
  let g := assign_cascades [] g in
  let g := assign_numCascades 0 g in
  match _freezeShadowCastersBoundingInfoObservable g with
  | Some o =>
      assign_freezeShadowCastersBoundingInfoObservable None
        (assign_scene (set_onBeforeRenderObservable
                         (observable_remove o (onBeforeRenderObservable (_scene g)))
                         (_scene g)) g)
  | None => g
  end.

End CSM.

(** ** The split scheme in the arithmetic of the program

    [setDistanceSplit] is the one method of the generator whose result
    depends on how a [number] is rounded.  It is given here once more, over
    an arithmetic that is a parameter: at [Numbers.binary64] it computes as
    the program does, in IEEE 754 double precision, and at [Numbers.exact]
    it computes in the real numbers, which is the reading that
    [CSM.setDistanceSplit] takes. *)

Module Numbers.

(** The operations on a [number] that [setDistanceSplit] uses. *)
Record Arithmetic (num : Type) := {
  zero : num;
  one : num;
  add : num -> num -> num;
  sub : num -> num -> num;
  mul : num -> num -> num;
  div : num -> num -> num;
  pow : num -> num -> num
}.

Arguments zero {num} _.
Arguments one {num} _.
Arguments add {num} _ _ _.
Arguments sub {num} _ _ _.
Arguments mul {num} _ _ _.
Arguments div {num} _ _ _.
Arguments pow {num} _ _ _.

(** Arithmetic without rounding. *)
Definition exact : Arithmetic R :=
  {| zero := 0%R; one := 1%R; add := Rplus; sub := Rminus; mul := Rmult; div := Rdiv;
     pow := JS.pow |}.


End Numbers.

Module Split.

Record Camera (num : Type) := { minZ : num; maxZ : num }.

Arguments minZ {num} _.
Arguments maxZ {num} _.

Record ICascade (num : Type) := {
  generator : CSMShadowMap;
  prevSplitDistance : num;
  splitDistance : num
}.

Arguments generator {num} _.
Arguments prevSplitDistance {num} _.
Arguments splitDistance {num} _.

(** The fields of the generator that [setDistanceSplit] reads and writes,
    with [activeCamera] for [this._scene.activeCamera]. *)
Record CSMShadowGenerator (num : Type) := {
  activeCamera : option (Camera num);
  _numCascades : num;
  _lambda : num;
  _minDistance : num;
  _maxDistance : num;
  _cascades : list (ICascade num)
}.

Arguments activeCamera {num} _.
Arguments _numCascades {num} _.
Arguments _lambda {num} _.
Arguments _minDistance {num} _.
Arguments _maxDistance {num} _.
Arguments _cascades {num} _.

Section Scheme.

Context {num : Type} (A : Numbers.Arithmetic num).

Local Infix "+" := (Numbers.add A) : num_scope.
Local Infix "-" := (Numbers.sub A) : num_scope.
Local Infix "*" := (Numbers.mul A) : num_scope.
Local Infix "/" := (Numbers.div A) : num_scope.

(** The loop variable [cascadeIndex] after [i] turns: it starts at 0 and
    every turn ends with [++cascadeIndex]. *)
Fixpoint counter (i : nat) : num :=
  match i with
  | O => Numbers.zero A
  | S i => (counter i + Numbers.one A)%num
  end.

(** One turn of the loop of [setDistanceSplit]. *)
Definition splitStep (g : CSMShadowGenerator num) (near cameraRange minZ range ratio : num)
    (cascades : list (ICascade num)) (cascadeIndex : nat) : list (ICascade num) :=
  let p := ((counter cascadeIndex + Numbers.one A) / _numCascades g)%num in
  let log := (minZ * Numbers.pow A ratio p)%num in
  let uniform := (minZ + range * p)%num in
  let d := (_lambda g * (log - uniform) + uniform)%num in
  let prev :=
    if Nat.eqb cascadeIndex 0 then _minDistance g
    else from_option splitDistance (Numbers.zero A) (cascades !! (cascadeIndex - 1)%nat) in
  alter (fun c => {| generator := generator c;
                     prevSplitDistance := prev;
                     splitDistance := ((d - near) / cameraRange)%num |})
        cascadeIndex cascades.

Definition setDistanceSplit (g : CSMShadowGenerator num) : CSMShadowGenerator num :=
  match activeCamera g with
  | None => g
  | Some camera =>
      let near := minZ camera in
      let far := maxZ camera in
      let cameraRange := (far - near)%num in
      let minZ := (near + _minDistance g * cameraRange)%num in
      let maxZ := (near + _maxDistance g * cameraRange)%num in
      let range := (maxZ - minZ)%num in
      let ratio := (maxZ / minZ)%num in
      {| activeCamera := activeCamera g;
         _numCascades := _numCascades g;
         _lambda := _lambda g;
         _minDistance := _minDistance g;
         _maxDistance := _maxDistance g;
         _cascades :=
           fold_left (splitStep g near cameraRange minZ range ratio)
                     (seq 0 (length (_cascades g))) (_cascades g) |}
  end.

End Scheme.

End Split.

(** ** The min/max reducer *)

Module MinMax.

(** The [options] of a post process: a ratio of the screen size, or a
    size in pixels. *)
Inductive Options :=
| Ratio (ratio : Q)
| Size (width height : Z).

(** A call that an [onApply] callback makes on the effect. *)
Inductive ApplyCall :=
| setTexture (name : string) (texture : option RenderTargetTexture)
| setFloatArray2 (name : string) (x y : Z)
| setIntArray2 (name : string) (x y : Z).

(** What [new PostProcess(...)] and the assignments after it fix.
    [onApply] receives [this._sourceTexture] as it is when the callback
    runs; [readsBack] holds the size given to the observer of
    [onAfterRenderObservable] that reads the result back, if there is
    one. *)
Record PostProcess := {
  name : string;
  fragmentUrl : string;
  parameters : list string;
  samplers : option (list string);
  options : Options;
  defines : string;
  textureType : Z;
  autoClear : bool;
  forceFullscreenViewport : bool;
  onApply : option RenderTargetTexture -> list ApplyCall;
  readsBack : option (Z * Z);
  isDisposed : bool
}.

Definition PostProcess_dispose (p : PostProcess) : PostProcess :=
  {| name := name p; fragmentUrl := fragmentUrl p; parameters := parameters p;
     samplers := samplers p; options := options p; defines := defines p;
     textureType := textureType p; autoClear := autoClear p;
     forceFullscreenViewport := forceFullscreenViewport p; onApply := onApply p;
     readsBack := readsBack p; isDisposed := true |}.

(** The fields of [MinMaxReducer]; [observers] counts the observers of
    [onAfterReductionPerformed], [managerDisposed] tells whether
    [_postProcessManager.dispose()] ran, [disposedSteps] keeps the post
    processes that were disposed. *)
Record MinMaxReducer := {
  observers : nat;
  _sourceTexture : option RenderTargetTexture;
  _reductionSteps : option (list PostProcess);
  _onAfterUnbindObserver : option Observer;
  _forceFullscreenViewport : bool;
  _activated : bool;
  managerDisposed : bool;
  disposedSteps : list PostProcess
}.

(** [new MinMaxReducer(camera)]. *)
Definition constructor : MinMaxReducer :=
  {| observers := 0; _sourceTexture := None; _reductionSteps := None;
     _onAfterUnbindObserver := None; _forceFullscreenViewport := true;
     _activated := false; managerDisposed := false; disposedSteps := [] |}.

(** [a === b] on textures is identity of objects. *)
Definition same_texture (a : RenderTargetTexture) (b : option RenderTargetTexture) : bool :=
  match b with
  | Some b => Nat.eqb (textureId a) (textureId b)
  | None => false
  end.

Definition deactivate (r : MinMaxReducer) : MinMaxReducer :=
  match _onAfterUnbindObserver r, _sourceTexture r with
  | Some _, Some _ =>
      {| observers := observers r; _sourceTexture := _sourceTexture r;
         _reductionSteps := _reductionSteps r; _onAfterUnbindObserver := None;
         _forceFullscreenViewport := _forceFullscreenViewport r; _activated := false;
         managerDisposed := managerDisposed r; disposedSteps := disposedSteps r |}
  | _, _ => r
  end.

Definition dispose (disposeAll : bool) (r : MinMaxReducer) : MinMaxReducer :=
  let observers := if disposeAll then 0%nat else observers r in
  let r := deactivate r in
  let disposed :=
    match _reductionSteps r with
    | Some steps => disposedSteps r ++ map PostProcess_dispose steps
    | None => disposedSteps r
    end in
  {| observers := observers; _sourceTexture := None;
     _reductionSteps := None; _onAfterUnbindObserver := _onAfterUnbindObserver r;
     _forceFullscreenViewport := _forceFullscreenViewport r; _activated := _activated r;
     managerDisposed := managerDisposed r || disposeAll; disposedSteps := disposed |}.

(** [activate()]; [observer] is the observer that
    [_sourceTexture.onAfterUnbindObservable.add(...)] returns. *)
Definition activate (observer : Observer) (r : MinMaxReducer) : MinMaxReducer :=
  match _onAfterUnbindObserver r, _sourceTexture r with
  | None, Some _ =>
      {| observers := observers r; _sourceTexture := _sourceTexture r;
         _reductionSteps := _reductionSteps r; _onAfterUnbindObserver := Some observer;
         _forceFullscreenViewport := _forceFullscreenViewport r; _activated := true;
         managerDisposed := managerDisposed r; disposedSteps := disposedSteps r |}
  | _, _ => r
  end.

Definition activated (r : MinMaxReducer) : bool := _activated r.

Definition sourceTexture (r : MinMaxReducer) : option RenderTargetTexture :=
  _sourceTexture r.

(** [Math.max(Math.round(x / 2), 1)]. *)
Definition halve (x : Z) : Z := Z.max (JS.Math_round (inject_Z x / 2)%Q) 1.

(** The [defines] of a reduction pass of size [w] x [h]. *)
Definition phase (w h : Z) : string :=
  if (w =? 1) && (h =? 1) then "LAST"
  else if (w =? 1) || (h =? 1) then "ONEBEFORELAST"
  else "MAIN".

(** [new PostProcess('Reduction phase ' + index, ...)] with what the body
    of the loop sets on it. *)
Definition reduction (index : nat) (w h : Z) (type : Z) (forceFullscreenViewport : bool)
    : PostProcess :=
  {| name := "Reduction phase " +:+ JS.toString index;
     fragmentUrl := "minmaxReducer";
     parameters := ["texSize"%string];
     samplers := None;
     options := Size w h;
     defines := "#define " +:+ phase w h;
     textureType := type;
     autoClear := false;
     forceFullscreenViewport := forceFullscreenViewport;
     onApply := fun _ =>
       if (w =? 1) || (h =? 1) then [setIntArray2 "texSize" w h]
       else [setFloatArray2 "texSize" w h];
     readsBack := if (w =? 1) && (h =? 1) then Some (w, h) else None;
     isDisposed := false |}.

(** The loop [while (w > 1 || h > 1) { ... }] of [setSourceTexture]; it
    returns [_reductionSteps] as the loop leaves it.  The loop is defined
    by well-founded recursion: every turn makes [max(w,1) + max(h,1)]
    smaller. *)
Equations? reductionLoop (type : Z) (forceFullscreenViewport : bool)
    (w h : Z) (index : nat) (steps : list PostProcess) : list PostProcess
  by wf (Z.to_nat (Z.max w 1 + Z.max h 1)) lt :=
  reductionLoop type forceFullscreenViewport w h index steps with inspect ((w >? 1) || (h >? 1)) => {
    | exist _ true _ =>
        reductionLoop type forceFullscreenViewport (halve w) (halve h) (S index)
          (steps ++ [reduction index (halve w) (halve h) type forceFullscreenViewport]);
    | exist _ false _ => steps }.
Proof.
  assert (Hhalve : forall x, halve x = Z.max ((x + 1) / 2) 1).
  { intros x. unfold halve, JS.Math_round. f_equal.
    rewrite Zdiv_Qdiv. apply Qfloor_comp.
    unfold Qeq, Qdiv, Qplus, Qmult, Qinv, inject_Z; simpl. lia. }
  assert (Hlt : forall x, 1 < x -> Z.max (halve x) 1 < Z.max x 1).
  { intros x Hx. rewrite Hhalve.
    assert ((x + 1) / 2 < x) by (apply Z.div_lt_upper_bound; lia). lia. }
  assert (Hle : forall x, x <= 1 -> Z.max (halve x) 1 = Z.max x 1).
  { intros x Hx. rewrite Hhalve.
    assert ((x + 1) / 2 <= 1) by (apply Z.div_le_upper_bound; lia). lia. }
  match goal with H : _ || _ = true |- _ => apply orb_true_iff in H; rename H into Hc end.
  destruct (Z_lt_le_dec 1 w) as [Hw|Hw]; destruct (Z_lt_le_dec 1 h) as [Hh|Hh].
  - pose proof (Hlt _ Hw). pose proof (Hlt _ Hh). lia.
  - pose proof (Hlt _ Hw). pose proof (Hle _ Hh). lia.
  - pose proof (Hle _ Hw). pose proof (Hlt _ Hh). lia.
  - destruct Hc; lia.
Qed.

(** [setSourceTexture(sourceTexture, depthRedux, type, forceFullscreenViewport)]. *)
Definition setSourceTexture (sourceTexture : RenderTargetTexture) (depthRedux : bool)
    (type : Z) (forceFullscreenViewport : bool) (r : MinMaxReducer) : MinMaxReducer :=
  if same_texture sourceTexture (_sourceTexture r) then r
  else
    let r := dispose false r in
    let w := renderWidth sourceTexture in
    let h := renderHeight sourceTexture in
    let reductionInitial :=
      {| name := "Initial reduction phase";
         fragmentUrl := "minmaxReducer";
         parameters := ["texSize"%string];
         samplers := Some ["sourceTexture"%string];
         options := Ratio 1;
         defines := "#define INITIAL" +:+
                    (if depthRedux
                     then String (Ascii.ascii_of_nat 10) "#define DEPTH_REDUX"
                     else "");
         textureType := type;
         autoClear := false;
         forceFullscreenViewport := forceFullscreenViewport;
         onApply := fun source =>
           [setTexture "sourceTexture" source; setFloatArray2 "texSize" w h];
         readsBack := None;
         isDisposed := false |} in
    {| observers := observers r;
       _sourceTexture := Some sourceTexture;
       _reductionSteps :=
         Some (reductionLoop type forceFullscreenViewport w h 1 [reductionInitial]);
       _onAfterUnbindObserver := _onAfterUnbindObserver r;
       _forceFullscreenViewport := forceFullscreenViewport;
       _activated := _activated r;
       managerDisposed := managerDisposed r;
       disposedSteps := disposedSteps r |}.

End MinMax.

(** ** Sample objects

    A directional light, a scene with a camera between 1 and 101, and the
    generators [new CSMShadowGenerator(1024, light, numCascades)] built on
    them. *)

Definition sampleTexture : RenderTargetTexture :=
  {| textureId := 1; renderWidth := 1024; renderHeight := 1024 |}.

Definition sampleMap : CSMShadowMap :=
  {| ShadowMap.number := fun _ => 0%R;
     ShadowMap.filter := 0;
     ShadowMap.flag := fun _ => false;
     ShadowMap.getShadowMap := Some sampleTexture;
     ShadowMap.getShadowMapForRendering := Some sampleTexture;
     ShadowMap.getTransformMatrix := replicate 16 0%R;
     ShadowMap.viewMatrix := replicate 16 0%R;
     ShadowMap.isDisposed := false |}.

Definition sampleLight : IShadowLight :=
  {| getTypeID := 1; shadowEnabled := true; needCube := false;
     getDepthMinZ := minZ; getDepthMaxZ := maxZ;
     meshesMarkedDirty := 0; _uniformBuffer := [] |}.

Definition sampleCamera : Camera := {| minZ := 1; maxZ := 101 |}.

Definition sampleScene : Scene :=
  {| shadowsEnabled := true; activeCamera := Some sampleCamera;
     onBeforeRenderObservable := []; shadowGeneratorComponent := false |}.

Definition sampleGenerator (numCascades : Z) : CSMShadowGenerator :=
  CSM.constructor 1 (fun _ _ _ => sampleMap) 1024 sampleLight sampleScene numCascades None [].

Definition sampleMesh : AbstractMesh :=
  let zero := {| vx := 0; vy := 0; vz := 0 |} in
  Mesh 7 zero zero [].


(** A mesh with one child, neither of them [sampleMesh]. *)
Definition sampleParent : AbstractMesh :=
  let zero := {| vx := 0; vy := 0; vz := 0 |} in
  Mesh 8 zero zero [Mesh 9 zero zero []].

Definition sampleSceneDisabled : Scene :=
  {| shadowsEnabled := false; activeCamera := Some sampleCamera;
     onBeforeRenderObservable := []; shadowGeneratorComponent := false |}.

Definition sampleGeneratorDisabled : CSMShadowGenerator :=
  CSM.constructor 1 (fun _ _ _ => sampleMap) 1024 sampleLight sampleSceneDisabled 3 None [].

(** A stand-in for [CSMShadowMap.prepareDefines]: it sets [SHADOW<lightIndex>]. *)
Definition sampleMapDefines (r : CSMShadowMap) (defines : MaterialDefines) (lightIndex : nat)
    : MaterialDefines :=
  <[ "SHADOW" +:+ JS.toString lightIndex := DBool true ]> defines.

Definition sampleTexture1x1 : RenderTargetTexture :=
  {| textureId := 2; renderWidth := 1; renderHeight := 1 |}.

Definition sampleTexture8x1 : RenderTargetTexture :=
  {| textureId := 3; renderWidth := 8; renderHeight := 1 |}.

(** ** Statements

    [broadcasts setter write read]: whatever the active cascade [a] is,
    after the setter the renderer of every cascade is the renderer it was
    with [write v] done to it, the split distances of the cascades are as
    before, and [read] returns [v] on the renderer of every cascade. *)
Definition broadcasts {V : Type} (setter : V -> CSMShadowGenerator -> CSMShadowGenerator)
    (write : V -> CSMShadowMap -> CSMShadowMap) (read : CSMShadowMap -> V) : Prop :=
  forall (v : V) (a : Z) (g : CSMShadowGenerator),
    let cascades' := _cascades (setter v (assign_activeCascade a g)) in
    generator <$> cascades' = write v <$> (generator <$> _cascades g) /\
    prevSplitDistance <$> cascades' = prevSplitDistance <$> _cascades g /\
    splitDistance <$> cascades' = splitDistance <$> _cascades g /\
    Forall (fun c => read (generator c) = v) cascades'.


(** What [setDistanceSplit] reads and writes of a generator of [CSM], whose
    numbers are real numbers. *)
Definition exactView (g : CSMShadowGenerator) : Split.CSMShadowGenerator R :=
  {| Split.activeCamera :=
       (fun camera => {| Split.minZ := minZ camera; Split.maxZ := maxZ camera |})
         <$> activeCamera (_scene g);
     Split._numCascades := IZR (_numCascades g);
     Split._lambda := _lambda g;
     Split._minDistance := _minDistance g;
     Split._maxDistance := _maxDistance g;
     Split._cascades :=
       (fun c => {| Split.generator := generator c;
                    Split.prevSplitDistance := prevSplitDistance c;
                    Split.splitDistance := splitDistance c |}) <$> _cascades g |}.

(** The split fraction of cascade [i] in the words of the specification. *)
Definition splitFraction (lambda minDistance maxDistance : R) (numCascades : Z)
    (cameraNear cameraFar : R) (i : nat) : R :=
  let cameraRange := (cameraFar - cameraNear)%R in
  let minZ := (cameraNear + minDistance * cameraRange)%R in
  let maxZ := (cameraNear + maxDistance * cameraRange)%R in
  let range := (maxZ - minZ)%R in
  let ratio := (maxZ / minZ)%R in
  let p := (INR (i + 1) / IZR numCascades)%R in
  let logSplit := (minZ * Rpower ratio p)%R in
  let uniformSplit := (minZ + range * p)%R in
  (((lambda * (logSplit - uniformSplit) + uniformSplit) - cameraNear) / cameraRange)%R.


(** What the loop of [setDistanceSplit] stores in cascade [i]. *)
Definition storedSplit (g : CSMShadowGenerator) (near cameraRange minZ range ratio : R)
    (i : nat) : R :=
  let p := (INR (i + 1) / IZR (_numCascades g))%R in
  let log := (minZ * JS.pow ratio p)%R in
  let uniform := (minZ + range * p)%R in
  ((_lambda g * (log - uniform) + uniform - near) / cameraRange)%R.

Definition storedPrev (g : CSMShadowGenerator) (near cameraRange minZ range ratio : R)
    (i : nat) : R :=
  match i with
  | O => _minDistance g
  | S i' => storedSplit g near cameraRange minZ range ratio i'
  end.

Definition stored (g : CSMShadowGenerator) (near cameraRange minZ range ratio : R)
    (i : nat) (c : ICascade) : ICascade :=
  {| generator := generator c;
     prevSplitDistance := storedPrev g near cameraRange minZ range ratio i;
     splitDistance := storedSplit g near cameraRange minZ range ratio i |}.

(** [HalvingChain w h sizes]: [sizes] are the sizes that the loop of
    [setSourceTexture] goes through from [w] x [h]: each is the half of the
    one before, and the chain stops when neither dimension exceeds 1. *)
Inductive HalvingChain : Z -> Z -> list (Z * Z) -> Prop :=
| chain_stop (w h : Z) :
    w <= 1 -> h <= 1 -> HalvingChain w h []
| chain_step (w h : Z) (sizes : list (Z * Z)) :
    1 < w \/ 1 < h ->
    HalvingChain (MinMax.halve w) (MinMax.halve h) sizes ->
    HalvingChain w h ((MinMax.halve w, MinMax.halve h) :: sizes).

(** The reduction passes of the given sizes, numbered from [index]. *)
Definition reductions (type : Z) (forceFullscreenViewport : bool) (index : nat)
    (sizes : list (Z * Z)) : list MinMax.PostProcess :=
  imap (fun k '(w, h) => MinMax.reduction (index + k) w h type forceFullscreenViewport) sizes.

(** [v3_le a b]: [a] is below [b] in every coordinate. *)
Definition v3_le (a b : Vector3) : Prop :=
  (vx a <= vx b)%R /\ (vy a <= vy b)%R /\ (vz a <= vz b)%R.

(** The bounding volume that [_computeShadowCastersBoundingInfo] builds
    from a caster list. *)
Definition castersBoundingInfo (renderList : list AbstractMesh) : BoundingInfo :=
  let min := {| vx := JS.Number_MAX_VALUE; vy := JS.Number_MAX_VALUE; vz := JS.Number_MAX_VALUE |} in
  let max := {| vx := JS.Number_MIN_VALUE; vy := JS.Number_MIN_VALUE; vz := JS.Number_MIN_VALUE |} in
  let '(min, max) :=
    fold_left (fun '(min, max) mesh =>
                 (minimizeInPlace min (minimumWorld mesh), maximizeInPlace max (maximumWorld mesh)))
              renderList (min, max) in
  {| minimum := min; maximum := max |}.

(** The answer of the renderer of a cascade to [isReady], and the cascade
    after its renderer was asked. *)
Definition answers
    (CSMShadowMap_isReady : CSMShadowMap -> SubMesh -> bool -> bool -> bool * CSMShadowMap)
    (subMesh : SubMesh) (useInstances : bool) (c : ICascade) : bool :=
  fst (CSMShadowMap_isReady (generator c) subMesh useInstances false).

Definition asked
    (CSMShadowMap_isReady : CSMShadowMap -> SubMesh -> bool -> bool -> bool * CSMShadowMap)
    (subMesh : SubMesh) (useInstances : bool) (c : ICascade) : ICascade :=
  with_generator
    (fun _ => snd (CSMShadowMap_isReady (generator c) subMesh useInstances false)) c.



(** The public calls on a [MinMaxReducer], and a sequence of them run on a
    reducer; [call_activate] carries the observer that the source texture
    hands out. *)
Inductive ReducerCall :=
| call_setSourceTexture (sourceTexture : RenderTargetTexture) (depthRedux : bool)
    (type : Z) (forceFullscreenViewport : bool)
| call_activate (observer : Observer)
| call_deactivate
| call_dispose (disposeAll : bool).

Definition reducerCall (r : MinMax.MinMaxReducer) (c : ReducerCall) : MinMax.MinMaxReducer :=
  match c with
  | call_setSourceTexture sourceTexture depthRedux type forceFullscreenViewport =>
      MinMax.setSourceTexture sourceTexture depthRedux type forceFullscreenViewport r
  | call_activate observer => MinMax.activate observer r
  | call_deactivate => MinMax.deactivate r
  | call_dispose disposeAll => MinMax.dispose disposeAll r
  end.

Definition reducerCalls (cs : list ReducerCall) (r : MinMax.MinMaxReducer)
    : MinMax.MinMaxReducer :=
  fold_left reducerCall cs r.

(** What holds of a reducer between calls: it is activated exactly when it
    observes its source texture, which it then has; it has reduction passes
    exactly when it has a source texture; a pass it holds is not disposed,
    a pass it let go of is. *)
Definition reducerInvariant (r : MinMax.MinMaxReducer) : Prop :=
  (MinMax._activated r = true <-> is_Some (MinMax._onAfterUnbindObserver r)) /\
  (is_Some (MinMax._onAfterUnbindObserver r) -> is_Some (MinMax._sourceTexture r)) /\
  (is_Some (MinMax._sourceTexture r) <-> is_Some (MinMax._reductionSteps r)) /\
  (forall steps, MinMax._reductionSteps r = Some steps ->
     Forall (fun p => MinMax.isDisposed p = false) steps) /\
  Forall (fun p => MinMax.isDisposed p = true) (MinMax.disposedSteps r).

(** * Properties *)

(** ** The split scheme *)

Section SplitScheme.

Local Open Scope R_scope.










(** The split of the last cascade is [maxDistance]. *)
Lemma splitFraction_last lambda minDistance maxDistance numCascades near far i :
  0 < near < far -> 0 <= minDistance <= maxDistance ->
  Z.of_nat (i + 1) = numCascades ->
  splitFraction lambda minDistance maxDistance numCascades near far i = maxDistance.
Proof.
  intros Hnf Hd Hi. unfold splitFraction.
  assert (Hp : INR (i + 1) / IZR numCascades = 1).
  { rewrite <- Hi, <- INR_IZR_INZ. apply Rdiv_diag.
    apply not_0_INR. lia. }
  rewrite Hp.
  assert (Hmin : 0 < near + minDistance * (far - near)) by nra.
  assert (Hmax : 0 < near + maxDistance * (far - near)) by nra.
  rewrite Rpower_1 by (apply Rdiv_lt_0_compat; assumption).
  field. lra.
Qed.

End SplitScheme.

Section SetDistanceSplit.

Variable g : CSMShadowGenerator.
Variables near cameraRange minZ range ratio : R.

(** After [n] turns the first [n] cascades hold their splits, the others
    are as before. *)
Lemma splitStep_fold (cascades : list ICascade) (n : nat) :
  (n <= length cascades)%nat ->
  let cascades' :=
    fold_left (CSM.splitStep g near cameraRange minZ range ratio) (seq 0 n) cascades in
  length cascades' = length cascades /\
  (forall i, (i < n)%nat ->
     cascades' !! i = stored g near cameraRange minZ range ratio i <$> cascades !! i) /\
  (forall i, (n <= i)%nat -> cascades' !! i = cascades !! i).
Proof.
  induction n as [|n IH]; intros Hn.
  - simpl. split; [reflexivity|]. split; [intros; lia | reflexivity].
  - assert (Hn' : (n <= length cascades)%nat) by lia.
    destruct (IH Hn') as (Hlen & Hlow & Hhigh).
    rewrite seq_S, fold_left_app. simpl.
    set (cs := fold_left _ (seq 0 n) cascades) in *.
    unfold CSM.splitStep.
    split; [|split].
    + rewrite length_alter. exact Hlen.
    + intros i Hi. rewrite list_lookup_alter.
      destruct (decide (n = i)) as [->|Hne].
      * rewrite (Hhigh i) by lia.
        destruct (cascades !! i) as [c|] eqn:Hc; [|reflexivity].
        simpl. f_equal. unfold stored. f_equal.
        destruct i as [|i']; [reflexivity|].
        simpl. replace (i' - 0)%nat with i' by lia.
        rewrite Hlow by lia.
        destruct (lookup_lt_is_Some_2 cascades i') as [c' Hc']; [lia|].
        rewrite Hc'. reflexivity.
      * apply Hlow. lia.
    + intros i Hi. rewrite list_lookup_alter_ne by lia. apply Hhigh. lia.
Qed.

End SetDistanceSplit.

(** The cascades after [setDistanceSplit], when there is an active camera. *)
Lemma setDistanceSplit_cascades (g : CSMShadowGenerator) (camera : Camera) (i : nat) :
  activeCamera (_scene g) = Some camera ->
  _cascades (CSM.setDistanceSplit g) !! i =
  stored g (minZ camera) (maxZ camera - minZ camera)
         (minZ camera + _minDistance g * (maxZ camera - minZ camera))
         (minZ camera + _maxDistance g * (maxZ camera - minZ camera)
          - (minZ camera + _minDistance g * (maxZ camera - minZ camera)))
         ((minZ camera + _maxDistance g * (maxZ camera - minZ camera))
          / (minZ camera + _minDistance g * (maxZ camera - minZ camera))) i
    <$> _cascades g !! i.
Proof.
  intros Hcam. unfold CSM.setDistanceSplit. rewrite Hcam. simpl.
  destruct (decide (i < length (_cascades g))%nat) as [Hi|Hi].
  - now apply splitStep_fold.
  - rewrite (proj2 (proj2 (splitStep_fold g _ _ _ _ _ (_cascades g) (length (_cascades g)) (le_n _)))) by lia.
    rewrite (lookup_ge_None_2 (_cascades g) i) by lia. reflexivity.
Qed.

Lemma setDistanceSplit_length (g : CSMShadowGenerator) :
  length (_cascades (CSM.setDistanceSplit g)) = length (_cascades g).
Proof.
  unfold CSM.setDistanceSplit. destruct (activeCamera (_scene g)); [|reflexivity].
  simpl. now apply splitStep_fold.
Qed.

Lemma storedSplit_splitFraction (g : CSMShadowGenerator) (camera : Camera) (i : nat) :
  storedSplit g (minZ camera) (maxZ camera - minZ camera)
         (minZ camera + _minDistance g * (maxZ camera - minZ camera))
         (minZ camera + _maxDistance g * (maxZ camera - minZ camera)
          - (minZ camera + _minDistance g * (maxZ camera - minZ camera)))
         ((minZ camera + _maxDistance g * (maxZ camera - minZ camera))
          / (minZ camera + _minDistance g * (maxZ camera - minZ camera))) i
  = splitFraction (_lambda g) (_minDistance g) (_maxDistance g) (_numCascades g)
                  (minZ camera) (maxZ camera) i.
Proof. reflexivity. Qed.

(** *** The scheme over an arithmetic *)

Section SplitArithmetic.

Context {num : Type} (A : Numbers.Arithmetic num).

Variable g : Split.CSMShadowGenerator num.
Variables near far : num.


End SplitArithmetic.


(** In exact arithmetic the loop variable is the number of turns, and the
    formula is the split fraction of the specification. *)
Lemma counter_exact (i : nat) : Split.counter Numbers.exact i = INR i.
Proof.
  induction i as [|i IH]; [reflexivity|].
  cbn [Split.counter]. rewrite IH, S_INR. reflexivity.
Qed.


(** [CSM.setDistanceSplit], which computes in the real numbers, is the
    scheme in exact arithmetic. *)
Lemma setDistanceSplit_exactView (g : CSMShadowGenerator) :
  exactView (CSM.setDistanceSplit g) = Split.setDistanceSplit Numbers.exact (exactView g).
Proof.
  unfold CSM.setDistanceSplit, Split.setDistanceSplit.
  cbn [exactView Split.activeCamera].
  destruct (activeCamera (_scene g)) as [camera|] eqn:Hcam; cbn [fmap option_fmap option_map];
    [|unfold exactView; rewrite Hcam; reflexivity].
  unfold exactView at 1. cbn. rewrite Hcam. cbn [fmap option_fmap option_map].
  f_equal. rewrite length_fmap.
  generalize (seq 0 (length (_cascades g))). intros l.
  generalize (_cascades g). induction l as [|i l IH]; intros cascades; [reflexivity|].
  cbn [fold_left]. rewrite IH. f_equal.
  unfold CSM.splitStep, Split.splitStep.
  cbn [Numbers.add Numbers.sub Numbers.mul Numbers.div Numbers.pow Numbers.one Numbers.zero
       Numbers.exact exactView Split._numCascades Split._lambda Split._minDistance
       Split._maxDistance Split.minZ Split.maxZ].
  rewrite counter_exact.
  replace (INR i + 1)%R with (INR (i + 1)) by (rewrite Nat.add_1_r, S_INR; reflexivity).
  rewrite list_lookup_fmap.
  apply list_eq. intros k. rewrite list_lookup_fmap, !list_lookup_alter.
  destruct (decide (i = k)) as [->|Hne].
  - rewrite list_lookup_fmap.
    destruct (cascades !! k) as [c|]; [|reflexivity]. cbn.
    destruct (cascades !! (k - 1)%nat) as [c'|]; reflexivity.
  - rewrite list_lookup_fmap. reflexivity.
Qed.




(** ** Disposal *)

Lemma forEach_renderList (selected : list nat) (write : CSMShadowMap -> CSMShadowMap)
    (g : CSMShadowGenerator) :
  _renderList (CSM.forEach selected write g) = _renderList g.
Proof. reflexivity. Qed.

Lemma dispose_renderList (g : CSMShadowGenerator) :
  _renderList (CSM.dispose g) = _renderList g.
Proof.
  unfold CSM.dispose. simpl.
  destruct (_freezeShadowCastersBoundingInfoObservable g); reflexivity.
Qed.

Lemma dispose_numCascades (g : CSMShadowGenerator) :
  CSM.numCascades (CSM.dispose g) = 0 /\ _cascades (CSM.dispose g) = [].
Proof.
  unfold CSM.dispose, CSM.numCascades. simpl.
  destruct (_freezeShadowCastersBoundingInfoObservable g); split; reflexivity.
Qed.

(** C2, as amended.  After [dispose()] the cascade list is empty and
    [numCascades] reads 0; [dispose()] does not touch the caster list, so
    [mustRender] answers after it what it answered before it: [false] exactly
    when the caster list is empty. *)
Theorem dispose_numCascades_mustRender (g : CSMShadowGenerator) :
  CSM.numCascades (CSM.dispose g) = 0 /\
  _cascades (CSM.dispose g) = [] /\
  CSM.renderList (CSM.dispose g) = CSM.renderList g /\
  CSM.mustRender (CSM.dispose g) = CSM.mustRender g /\
  (CSM.mustRender (CSM.dispose g) = false <-> CSM.renderList g = []).
Proof.
  destruct (dispose_numCascades g) as [Hn Hc].
  pose proof (dispose_renderList g) as Hr.
  unfold CSM.mustRender, CSM.renderList. rewrite Hr.
  repeat split; auto.
  - intros H. destruct (_renderList g); [reflexivity | discriminate].
  - intros ->. reflexivity.
Qed.

(** C2, as stated, fails on a generator to which a caster was added and
    never removed: after [dispose()], [mustRender] is still [true]. *)
Lemma dispose_mustRender_counterexample :
  let g := CSM.addShadowCaster sampleMesh false (sampleGenerator 4) in
  ~ (CSM.mustRender (CSM.dispose g) = false /\ CSM.numCascades (CSM.dispose g) = 0).
Proof.
  intros g [H _].
  assert (Ht : CSM.mustRender (CSM.dispose g) = true).
  { unfold CSM.mustRender, CSM.renderList. rewrite dispose_renderList. reflexivity. }
  rewrite Ht in H. discriminate.
Qed.

(** ** The setters of the split parameters *)

Lemma set_lambda_recomputes (value : R) (g : CSMShadowGenerator) :
  CSM.set_lambda value g = CSM.setDistanceSplit (assign_lambda value g).
Proof. reflexivity. Qed.

Lemma set_minDistance_cascades (min : R) (g : CSMShadowGenerator) :
  _cascades (CSM.set_minDistance min g) = _cascades g.
Proof. reflexivity. Qed.

Lemma set_maxDistance_cascades (max : R) (g : CSMShadowGenerator) :
  _cascades (CSM.set_maxDistance max g) = _cascades g.
Proof. reflexivity. Qed.

(** The sample generator with one cascade, before the call of
    [setDistanceSplit] that ends its construction. *)
Lemma sampleGenerator_setDistanceSplit :
  exists g0,
    sampleGenerator 1 = CSM.setDistanceSplit g0 /\
    _scene g0 = _SceneComponentInitialization
                  (set_onBeforeRenderObservable [1%nat] sampleScene) /\
    _lambda g0 = 0.7%R /\ _minDistance g0 = 0%R /\ _maxDistance g0 = 1%R /\
    _numCascades g0 = 1 /\ length (_cascades g0) = 1%nat.
Proof. eexists. split; [reflexivity|]. repeat split. Qed.

Lemma sampleGenerator_splits :
  exists c0,
    _cascades (sampleGenerator 1) = [c0] /\
    prevSplitDistance c0 = 0%R /\ splitDistance c0 = 1%R.
Proof.
  destruct sampleGenerator_setDistanceSplit
    as (g0 & -> & Hscene & Hl & Hmin & Hmax & Hn & Hlen).
  assert (Hcam : activeCamera (_scene g0) = Some sampleCamera) by now rewrite Hscene.
  pose proof (setDistanceSplit_cascades g0 sampleCamera 0 Hcam) as H0.
  pose proof (setDistanceSplit_length g0) as Hlen'. rewrite Hlen in Hlen'.
  destruct (_cascades (CSM.setDistanceSplit g0)) as [|c0 [|c1 cs]]; try discriminate.
  exists c0. split; [reflexivity|].
  destruct (_cascades g0) as [|c [|c' cs]]; try discriminate.
  injection H0 as ->. split; [exact Hmin|].
  etransitivity; [apply (storedSplit_splitFraction g0 sampleCamera 0)|].
  rewrite Hl, Hmin, Hmax, Hn.
  apply splitFraction_last; simpl; (lra || lia).
Qed.

(** C3 at the failing input: on the generator with one cascade and the
    camera between 1 and 101, [minDistance = 0.5] leaves cascade 0 with
    [prevSplitDistance = 0], where the split algorithm yields 0.5 for the new
    value, and [maxDistance = 0.5] leaves it with [splitDistance = 1], where
    the algorithm yields 0.5; [setDistanceSplit], which the setter of
    [lambda] calls, stores these values. *)
Theorem set_minDistance_stale_splits :
  (let g := CSM.set_minDistance (1 / 2) (sampleGenerator 1) in
   prevSplitDistance <$> _cascades g !! 0%nat = Some 0%R /\
   prevSplitDistance <$> _cascades (CSM.setDistanceSplit g) !! 0%nat = Some (1 / 2)%R) /\
  (let g := CSM.set_maxDistance (1 / 2) (sampleGenerator 1) in
   splitDistance <$> _cascades g !! 0%nat = Some 1%R /\
   splitDistance <$> _cascades (CSM.setDistanceSplit g) !! 0%nat = Some (1 / 2)%R) /\
  (forall value g, CSM.set_lambda value g = CSM.setDistanceSplit (assign_lambda value g)).
Proof.
  destruct sampleGenerator_splits as (c0 & Hc & Hprev & Hsplit).
  split; [|split; [|reflexivity]].
  - intros g. split.
    + unfold g. rewrite set_minDistance_cascades, Hc. simpl. now rewrite Hprev.
    + reflexivity.
  - intros g.
    assert (Hcs : _cascades g = [c0]) by (unfold g; now rewrite set_maxDistance_cascades).
    split.
    + rewrite Hcs. simpl. now rewrite Hsplit.
    + assert (Hcam : activeCamera (_scene g) = Some sampleCamera) by reflexivity.
      rewrite (setDistanceSplit_cascades g sampleCamera 0 Hcam), Hcs.
      change (Some (storedSplit g (minZ sampleCamera) (maxZ sampleCamera - minZ sampleCamera)
         (minZ sampleCamera + _minDistance g * (maxZ sampleCamera - minZ sampleCamera))
         (minZ sampleCamera + _maxDistance g * (maxZ sampleCamera - minZ sampleCamera)
          - (minZ sampleCamera + _minDistance g * (maxZ sampleCamera - minZ sampleCamera)))
         ((minZ sampleCamera + _maxDistance g * (maxZ sampleCamera - minZ sampleCamera))
          / (minZ sampleCamera + _minDistance g * (maxZ sampleCamera - minZ sampleCamera))) 0)
              = Some (1 / 2)%R).
      f_equal. rewrite storedSplit_splitFraction.
      assert (Hmax : _maxDistance g = (1 / 2)%R) by reflexivity.
      assert (Hmin : _minDistance g = 0%R) by reflexivity.
      assert (Hn : _numCascades g = 1) by reflexivity.
      rewrite Hmax, Hmin, Hn.
      apply splitFraction_last; simpl; (lra || lia).
Qed.

(** ** The active cascade *)

(** C4, as amended.  After [activeCascade = index] the number of cascades is
    as before; a value other than [CASCADE_ALL] that is negative or
    [>= numCascades] reads back as 0, [CASCADE_ALL] and the index of a
    cascade read back as written.  What is stored is [CASCADE_ALL] or the index of a cascade
    exactly when [CASCADE_ALL] was written or there is at least one cascade:
    on a generator without cascades, which is what [dispose] leaves, any
    other value is stored as 0, and 0 is not below [numCascades] there. *)
Theorem set_activeCascade_in_range (g : CSMShadowGenerator) (index : Z) :
  let g' := CSM.set_activeCascade index g in
  CSM.numCascades g' = CSM.numCascades g /\
  (index <> CSM.CASCADE_ALL /\ (index < 0 \/ index >= CSM.numCascades g) ->
   CSM.activeCascade g' = 0) /\
  (index = CSM.CASCADE_ALL \/ 0 <= index < CSM.numCascades g ->
   CSM.activeCascade g' = index) /\
  ((CSM.activeCascade g' = CSM.CASCADE_ALL \/
    0 <= CSM.activeCascade g' < CSM.numCascades g') <->
   (index = CSM.CASCADE_ALL \/ 1 <= CSM.numCascades g)).
Proof.
  unfold CSM.numCascades, CSM.activeCascade, CSM.set_activeCascade, CSM.CASCADE_ALL.
  simpl.
  destruct (index =? -1) eqn:Hall; simpl.
  - apply Z.eqb_eq in Hall. subst index. repeat split; auto; lia.
  - apply Z.eqb_neq in Hall.
    destruct (index <? 0) eqn:Hneg; simpl.
    + apply Z.ltb_lt in Hneg. repeat split; auto; lia.
    + apply Z.ltb_ge in Hneg.
      destruct (index >=? _numCascades g) eqn:Hbig; simpl.
      * rewrite Z.geb_le in Hbig. repeat split; auto; lia.
      * assert (index < _numCascades g).
        { destruct (Z_lt_le_dec index (_numCascades g)) as [|Hle]; [assumption|].
          apply Z.geb_le in Hle. congruence. }
        repeat split; auto; lia.
Qed.

(** On a disposed generator there is no cascade to select: a value other
    than [CASCADE_ALL] is stored as 0 all the same. *)
Lemma set_activeCascade_disposed (g : CSMShadowGenerator) (index : Z) :
  index <> CSM.CASCADE_ALL ->
  CSM.activeCascade (CSM.set_activeCascade index (CSM.dispose g)) = 0 /\
  CSM.cascade (CSM.set_activeCascade index (CSM.dispose g)) = None.
Proof.
  intros Hall. destruct (dispose_numCascades g) as [Hn Hc].
  unfold CSM.numCascades in Hn.
  unfold CSM.activeCascade, CSM.set_activeCascade, CSM.cascade. simpl.
  rewrite Hn, Hc.
  apply Z.eqb_neq in Hall. rewrite Hall. simpl.
  destruct (index <? 0) eqn:Hneg; simpl; [split; reflexivity|].
  apply Z.ltb_ge in Hneg.
  assert (Hge : (index >=? 0) = true) by (apply Z.geb_le; lia).
  rewrite Hge. split; reflexivity.
Qed.

(** The claim fails after [dispose]: writing 2 to [activeCascade] of a
    disposed generator stores 0 while [numCascades] is 0, so the stored
    value is neither [CASCADE_ALL] nor below [numCascades]. *)
Lemma set_activeCascade_disposed_counterexample :
  let g' := CSM.set_activeCascade 2 (CSM.dispose (sampleGenerator 4)) in
  CSM.activeCascade g' = 0 /\ CSM.numCascades g' = 0 /\
  ~ (CSM.activeCascade g' = CSM.CASCADE_ALL \/
     0 <= CSM.activeCascade g' < CSM.numCascades g').
Proof.
  assert (Ha : CSM.activeCascade (CSM.set_activeCascade 2 (CSM.dispose (sampleGenerator 4)))
               = 0).
  { apply set_activeCascade_disposed. discriminate. }
  assert (Hn : CSM.numCascades (CSM.set_activeCascade 2 (CSM.dispose (sampleGenerator 4)))
               = 0).
  { exact (proj1 (dispose_numCascades (sampleGenerator 4))). }
  cbv zeta. rewrite Ha, Hn. unfold CSM.CASCADE_ALL. split; [reflexivity|].
  split; [reflexivity|]. lia.
Qed.

(** ** Per-cascade properties *)

(** Every position of [cascades] is written once by a [forEach] over all
    positions. *)
Lemma alter_all {A} (f : A -> A) (l : list A) (n : nat) :
  (n <= length l)%nat ->
  fold_left (fun l i => alter f i l) (seq 0 n) l = map f (take n l) ++ drop n l.
Proof.
  induction n as [|n IH]; intros Hn.
  - simpl. now rewrite drop_0.
  - rewrite seq_S, fold_left_app, IH by lia. simpl.
    destruct (lookup_lt_is_Some_2 l n) as [x Hx]; [lia|].
    rewrite (take_S_r l n x Hx), (drop_S l x n Hx), map_app. simpl.
    rewrite <- app_assoc. simpl.
    assert (Hlen : length (map f (take n l)) = n).
    { rewrite length_map, length_take. lia. }
    rewrite <- (Nat.add_0_r n) at 1. rewrite <- Hlen at 1.
    rewrite alter_app_r. reflexivity.
Qed.

Lemma getActiveCascades_forceAll (g : CSMShadowGenerator) :
  CSM._getActiveCascades true g = seq 0 (length (_cascades g)).
Proof.
  unfold CSM._getActiveCascades. now rewrite orb_true_r.
Qed.

(** Asked not to force all, [_getActiveCascades] selects the active cascade
    alone. *)
Lemma getActiveCascades_single (g : CSMShadowGenerator) :
  0 <= _activeCascade g < Z.of_nat (length (_cascades g)) ->
  CSM._getActiveCascades false g = [Z.to_nat (_activeCascade g)].
Proof.
  intros [H0 H1]. unfold CSM._getActiveCascades, CSM.CASCADE_ALL.
  destruct (_activeCascade g =? -1) eqn:Hall; [apply Z.eqb_eq in Hall; lia|].
  simpl.
  assert (Hge : (_activeCascade g >=? 0) = true) by (apply Z.geb_le; lia).
  assert (Hlt : (_activeCascade g <? Z.of_nat (length (_cascades g))) = true)
    by (apply Z.ltb_lt; lia).
  now rewrite Hge, Hlt.
Qed.

Lemma forEach_all (write : CSMShadowMap -> CSMShadowMap) (g : CSMShadowGenerator) :
  _cascades (CSM.forEach (CSM._getActiveCascades true g) write g)
  = map (with_generator write) (_cascades g).
Proof.
  rewrite getActiveCascades_forceAll. unfold CSM.forEach. simpl.
  rewrite alter_all by lia. now rewrite firstn_all, drop_all, app_nil_r.
Qed.

Lemma set_number_read (k : Setting.number) (v : R) (r : CSMShadowMap) :
  ShadowMap.number (ShadowMap.set_number k v r) k = v.
Proof. simpl. destruct (decide (k = k)); [reflexivity | contradiction]. Qed.

Lemma set_flag_read (k : Setting.flag) (v : bool) (r : CSMShadowMap) :
  ShadowMap.flag (ShadowMap.set_flag k v r) k = v.
Proof. simpl. destruct (decide (k = k)); [reflexivity | contradiction]. Qed.

Lemma set_filter_read (v : Z) (r : CSMShadowMap) :
  ShadowMap.filter (ShadowMap.set_filter v r) = v.
Proof. reflexivity. Qed.

(** A list of cascades whose renderers were all written. *)
Lemma written_cascades {V : Type} (write : CSMShadowMap -> CSMShadowMap)
    (read : CSMShadowMap -> V) (v : V) (cascades : list ICascade) :
  (forall r, read (write r) = v) ->
  let cascades' := map (with_generator write) cascades in
  generator <$> cascades' = write <$> (generator <$> cascades) /\
  prevSplitDistance <$> cascades' = prevSplitDistance <$> cascades /\
  splitDistance <$> cascades' = splitDistance <$> cascades /\
  Forall (fun c => read (generator c) = v) cascades'.
Proof.
  intros Hread. induction cascades as [|c cascades IH]; cbn.
  - repeat split. apply Forall_nil_2.
  - destruct IH as (Hg & Hp & Hs & Hall). cbn in Hg, Hp, Hs, Hall.
    rewrite Hg, Hp, Hs. repeat split.
    apply Forall_cons. split; [apply Hread | exact Hall].
Qed.

Lemma broadcasts_number (k : Setting.number) :
  broadcasts (CSM.setNumber k) (ShadowMap.set_number k) (fun r => ShadowMap.number r k).
Proof.
  intros v a g cascades'. unfold cascades', CSM.setNumber. rewrite forEach_all.
  apply (written_cascades (ShadowMap.set_number k v) (fun r => ShadowMap.number r k) v).
  apply set_number_read.
Qed.

Lemma broadcasts_flag (k : Setting.flag) :
  broadcasts (CSM.setFlag k) (ShadowMap.set_flag k) (fun r => ShadowMap.flag r k).
Proof.
  intros v a g cascades'. unfold cascades', CSM.setFlag. rewrite forEach_all.
  apply (written_cascades (ShadowMap.set_flag k v) (fun r => ShadowMap.flag r k) v).
  apply set_flag_read.
Qed.

Lemma broadcasts_filter :
  broadcasts CSM.set_filter ShadowMap.set_filter ShadowMap.filter.
Proof.
  intros v a g cascades'. unfold cascades', CSM.set_filter. rewrite forEach_all.
  apply (written_cascades (ShadowMap.set_filter v) ShadowMap.filter v).
  apply set_filter_read.
Qed.

(** C5.  [_getActiveCascades()] with its default argument selects every
    cascade, and each of the fourteen setters writes the value to the
    renderer of every cascade, whatever [activeCascade] is: afterwards the
    property reads as the value on every renderer, every renderer is the
    one before with that property assigned, and the split distances of the
    cascades are untouched. *)
Theorem setters_write_every_cascade :
  (forall g, CSM._getActiveCascades true g = seq 0 (length (_cascades g))) /\
  broadcasts CSM.set_bias (ShadowMap.set_number Setting.bias)
             (fun r => ShadowMap.number r Setting.bias) /\
  broadcasts CSM.set_normalBias (ShadowMap.set_number Setting.normalBias)
             (fun r => ShadowMap.number r Setting.normalBias) /\
  broadcasts CSM.set_blurBoxOffset (ShadowMap.set_number Setting.blurBoxOffset)
             (fun r => ShadowMap.number r Setting.blurBoxOffset) /\
  broadcasts CSM.set_blurScale (ShadowMap.set_number Setting.blurScale)
             (fun r => ShadowMap.number r Setting.blurScale) /\
  broadcasts CSM.set_blurKernel (ShadowMap.set_number Setting.blurKernel)
             (fun r => ShadowMap.number r Setting.blurKernel) /\
  broadcasts CSM.set_useKernelBlur (ShadowMap.set_flag Setting.useKernelBlur)
             (fun r => ShadowMap.flag r Setting.useKernelBlur) /\
  broadcasts CSM.set_depthScale (ShadowMap.set_number Setting.depthScale)
             (fun r => ShadowMap.number r Setting.depthScale) /\
  broadcasts CSM.set_filter ShadowMap.set_filter ShadowMap.filter /\
  broadcasts CSM.set_filteringQuality (ShadowMap.set_number Setting.filteringQuality)
             (fun r => ShadowMap.number r Setting.filteringQuality) /\
  broadcasts CSM.set_contactHardeningLightSizeUVRatio
             (ShadowMap.set_number Setting.contactHardeningLightSizeUVRatio)
             (fun r => ShadowMap.number r Setting.contactHardeningLightSizeUVRatio) /\
  broadcasts CSM.set_darkness (ShadowMap.set_number Setting.darkness)
             (fun r => ShadowMap.number r Setting.darkness) /\
  broadcasts CSM.set_transparencyShadow (ShadowMap.set_flag Setting.transparencyShadow)
             (fun r => ShadowMap.flag r Setting.transparencyShadow) /\
  broadcasts CSM.set_forceBackFacesOnly (ShadowMap.set_flag Setting.forceBackFacesOnly)
             (fun r => ShadowMap.flag r Setting.forceBackFacesOnly) /\
  broadcasts CSM.set_depthClamp (ShadowMap.set_flag Setting.depthClamp)
             (fun r => ShadowMap.flag r Setting.depthClamp).
Proof.
  split; [exact getActiveCascades_forceAll|].
  repeat split;
    first [ apply broadcasts_number | apply broadcasts_flag | apply broadcasts_filter ].
Qed.

(** ** Construction *)

Lemma push_cascades_length (c : ICascade) (n : nat) (cascades : list ICascade) :
  length (fold_left (fun cascades (_ : nat) => cascades ++ [c]) (seq 0 n) cascades)
  = (length cascades + n)%nat.
Proof.
  induction n as [|n IH].
  - simpl. lia.
  - rewrite seq_S, fold_left_app. simpl. rewrite length_app, IH. simpl. lia.
Qed.

Lemma setDistanceSplit_fields (g : CSMShadowGenerator) :
  _activeCascade (CSM.setDistanceSplit g) = _activeCascade g /\
  _numCascades (CSM.setDistanceSplit g) = _numCascades g /\
  _renderList (CSM.setDistanceSplit g) = _renderList g.
Proof.
  unfold CSM.setDistanceSplit. destruct (activeCamera (_scene g)); repeat split.
Qed.

(** Right after construction the active cascade is [CASCADE_ALL], there is
    at least one cascade and [_cascades] holds [numCascades] of them. *)
Lemma constructor_state (LIGHTTYPEID_DIRECTIONALLIGHT : Z)
    (newCSMShadowMap : Z -> IShadowLight -> bool -> CSMShadowMap)
    (mapSize : Z) (light : IShadowLight) (scene : Scene) (numCascades : Z)
    (usefulFloatFirst : option bool) (console : list string) :
  let g := CSM.constructor LIGHTTYPEID_DIRECTIONALLIGHT newCSMShadowMap mapSize light scene
                           numCascades usefulFloatFirst console in
  CSM.activeCascade g = CSM.CASCADE_ALL /\
  1 <= CSM.numCascades g /\
  CSM.numCascades g = Z.max numCascades 1 /\
  Z.of_nat (length (_cascades g)) = CSM.numCascades g /\
  CSM.renderList g = [].
Proof.
  intros g. unfold CSM.activeCascade, CSM.numCascades, CSM.renderList.
  subst g. unfold CSM.constructor, CSM._initializeGenerator, CSM._initializeCSM.
  set (n := if numCascades <? 1 then 1 else numCascades).
  assert (Hn : n = Z.max numCascades 1).
  { unfold n. destruct (numCascades <? 1) eqn:H; [apply Z.ltb_lt in H | apply Z.ltb_ge in H]; lia. }
  match goal with |- context [CSM.setDistanceSplit ?x] => set (g0 := x) end.
  destruct (setDistanceSplit_fields g0) as (-> & -> & ->).
  rewrite setDistanceSplit_length.
  subst g0. cbn.
  rewrite push_cascades_length. cbn. repeat split; lia.
Qed.

(** ** The getters under [CASCADE_ALL] *)

(** C10.  While [activeCascade] is [CASCADE_ALL], every per-cascade getter
    returns its sentinel: [-1] for a number, [false] for a boolean, [null]
    for [cascade] and [viewMatrix]; this is the state right after
    construction, in which [numCascades >= 1] cascades exist. *)
Theorem getters_unset_when_all :
  (forall g : CSMShadowGenerator,
     CSM.activeCascade g = CSM.CASCADE_ALL ->
     CSM.cascade g = None /\
     CSM.bias g = (-1)%R /\
     CSM.normalBias g = (-1)%R /\
     CSM.blurBoxOffset g = (-1)%R /\
     CSM.blurScale g = (-1)%R /\
     CSM.blurKernel g = (-1)%R /\
     CSM.useKernelBlur g = false /\
     CSM.depthScale g = (-1)%R /\
     CSM.filter g = -1 /\
     CSM.filteringQuality g = (-1)%R /\
     CSM.contactHardeningLightSizeUVRatio g = (-1)%R /\
     CSM.darkness g = (-1)%R /\
     CSM.transparencyShadow g = false /\
     CSM.forceBackFacesOnly g = false /\
     CSM.depthClamp g = false /\
     CSM.viewMatrix g = None) /\
  (forall LIGHTTYPEID_DIRECTIONALLIGHT newCSMShadowMap mapSize light scene numCascades
          usefulFloatFirst console,
     let g := CSM.constructor LIGHTTYPEID_DIRECTIONALLIGHT newCSMShadowMap mapSize light
                              scene numCascades usefulFloatFirst console in
     CSM.activeCascade g = CSM.CASCADE_ALL /\
     (1 <= length (_cascades g))%nat).
Proof.
  split.
  - intros g Hall.
    assert (Hc : CSM.cascade g = None).
    { unfold CSM.cascade. unfold CSM.activeCascade, CSM.CASCADE_ALL in Hall.
      rewrite Hall. reflexivity. }
    unfold CSM.bias, CSM.normalBias, CSM.blurBoxOffset, CSM.blurScale, CSM.blurKernel,
      CSM.useKernelBlur, CSM.depthScale, CSM.filter, CSM.filteringQuality,
      CSM.contactHardeningLightSizeUVRatio, CSM.darkness, CSM.transparencyShadow,
      CSM.forceBackFacesOnly, CSM.depthClamp, CSM.viewMatrix, CSM.getNumber, CSM.getFlag.
    rewrite Hc. repeat split.
  - intros LT newMap mapSize light scene n useful console g.
    destruct (constructor_state LT newMap mapSize light scene n useful console)
      as (Hall & Hn & _ & Hlen & _).
    fold g in Hall, Hn, Hlen. split; [exact Hall | lia].
Qed.

Lemma getters_unset_when_all_witness :
  CSM.bias (sampleGenerator 4) = (-1)%R /\ CSM.viewMatrix (sampleGenerator 4) = None.
Proof.
  destruct getters_unset_when_all as [H _].
  destruct (H (sampleGenerator 4)) as (_ & Hb & _ & _ & _ & _ & _ & _ & _ & _ & _ & _ & _ & _ & _ & Hv).
  - reflexivity.
  - split; [exact Hb | exact Hv].
Defined.

(** ** Binding to a shader *)

(** The three tests that guard [prepareDefines] and [bindShadowLight]. *)
Lemma disabled_guard (g : CSMShadowGenerator) :
  shadowsEnabled (_scene g) = false \/ shadowEnabled (_light g) = false \/
  length (_cascades g) = 0%nat ->
  negb (shadowsEnabled (_scene g)) || negb (shadowEnabled (_light g))
  || (length (_cascades g) <? 1)%nat = true.
Proof.
  intros [-> | [-> | ->]]; simpl.
  - reflexivity.
  - now rewrite orb_true_r.
  - now rewrite orb_true_r.
Qed.

Lemma enabled_guard (g : CSMShadowGenerator) :
  shadowsEnabled (_scene g) = true -> shadowEnabled (_light g) = true ->
  (1 <= length (_cascades g))%nat ->
  negb (shadowsEnabled (_scene g)) || negb (shadowEnabled (_light g))
  || (length (_cascades g) <? 1)%nat = false.
Proof.
  intros -> -> Hlen. simpl. apply Nat.ltb_ge. exact Hlen.
Qed.

(** C6.  [bindShadowLight] returns the generator (with its light, its
    [_lightMatrices], [_samplers] and [_cascadeDepths]) and the
    shader-binding target as they were when the shadows of the scene are
    disabled, the shadow flag of the light is off, there is no cascade, there
    is no active camera, or cascade 0 has no shadow map. *)
Theorem bindShadowLight_noop (FILTER_PCF FILTER_PCSS : Z) (lightIndex : string)
    (effect : Effect) (g : CSMShadowGenerator) :
  shadowsEnabled (_scene g) = false \/
  shadowEnabled (_light g) = false \/
  length (_cascades g) = 0%nat \/
  activeCamera (_scene g) = None \/
  (exists cascade0, _cascades g !! 0%nat = Some cascade0 /\
                    ShadowMap.getShadowMap (generator cascade0) = None) ->
  let '(g', effect') := CSM.bindShadowLight FILTER_PCF FILTER_PCSS lightIndex effect g in
  effect' = effect /\
  g' = g /\
  _uniformBuffer (_light g') = _uniformBuffer (_light g) /\
  _lightMatrices g' = _lightMatrices g /\
  _samplers g' = _samplers g /\
  _cascadeDepths g' = _cascadeDepths g.
Proof.
  intros H.
  assert (Heq : CSM.bindShadowLight FILTER_PCF FILTER_PCSS lightIndex effect g = (g, effect)).
  { unfold CSM.bindShadowLight.
    destruct (negb (shadowsEnabled (_scene g)) || negb (shadowEnabled (_light g))
              || (length (_cascades g) <? 1)%nat) eqn:Hguard; [reflexivity|].
    destruct H as [H | [H | [H | H]]];
      try (rewrite disabled_guard in Hguard by tauto; discriminate).
    destruct (activeCamera (_scene g)) as [camera|]; [|reflexivity].
    destruct H as [H | (cascade0 & Hc0 & Hmap)]; [discriminate|].
    rewrite Hc0, Hmap. reflexivity. }
  rewrite Heq. repeat split.
Qed.

Lemma bindShadowLight_noop_witness :
  CSM.bindShadowLight 6 7 "0" [] sampleGeneratorDisabled = (sampleGeneratorDisabled, []).
Proof.
  pose proof (bindShadowLight_noop 6 7 "0" [] sampleGeneratorDisabled) as H.
  destruct (CSM.bindShadowLight 6 7 "0" [] sampleGeneratorDisabled) as [g' effect'].
  destruct H as (-> & -> & _).
  - left. reflexivity.
  - reflexivity.
Defined.

(** With everything enabled the same call does write: on the sample
    generator it makes four calls on the shader-binding target and two
    updates of the uniform buffer. *)
Lemma bindShadowLight_writes_when_enabled :
  let '(g', effect') := CSM.bindShadowLight 6 7 "0" [] (sampleGenerator 2) in
  length effect' = 4%nat /\ length (_uniformBuffer (_light g')) = 2%nat /\
  length (_cascadeDepths g') = 2%nat.
Proof. cbv - [Rplus Rmult Rminus Rdiv Rinv Ropp IZR INR Rpower]. repeat split. Qed.

(** ** Shader defines *)

Lemma append_nil_r (s : string) : s +:+ "" = s.
Proof.
  induction s as [|c s IH]; [reflexivity|].
  change (String c (s +:+ "") = String c s). now f_equal.
Qed.

Lemma append_inj_l (s a b : string) : s +:+ a = s +:+ b -> a = b.
Proof. apply (inj (String.app s)). Qed.

Lemma append_ne_self (s : string) (c : Ascii.ascii) (t : string) : s <> s +:+ String c t.
Proof.
  intros H.
  assert (H' : s +:+ "" = s +:+ String c t) by (rewrite append_nil_r; exact H).
  apply append_inj_l in H'. discriminate.
Qed.

(** C7.  With the shadows of the scene enabled, the shadow flag of the
    light on and at least one cascade, [prepareDefines] lets the renderer of
    cascade 0 compute the base defines and then sets
    [SHADOWCSM<lightIndex>] to [true], [SHADOWCSM<lightIndex>_NUMCASCADES] to
    [numCascades] and [SHADOWCSM<lightIndex>_DEBUG] to the debug flag (so
    [SHADOWCSM0_NUMCASCADES] is 3 for light 0 and three cascades); otherwise
    it leaves the define table as it is. *)
Theorem prepareDefines_sets_csm_defines
    (CSMShadowMap_prepareDefines : CSMShadowMap -> MaterialDefines -> nat -> MaterialDefines)
    (defines : MaterialDefines) (lightIndex : nat) (g : CSMShadowGenerator) :
  let defines' := CSM.prepareDefines CSMShadowMap_prepareDefines defines lightIndex g in
  let key := "SHADOWCSM" +:+ JS.toString lightIndex in
  (shadowsEnabled (_scene g) = true -> shadowEnabled (_light g) = true ->
   (1 <= length (_cascades g))%nat ->
   defines' !! key = Some (DBool true) /\
   defines' !! (key +:+ "_NUMCASCADES") = Some (DNumber (CSM.numCascades g)) /\
   defines' !! (key +:+ "_DEBUG") = Some (DBool (CSM.debug g)) /\
   (exists cascade0, _cascades g !! 0%nat = Some cascade0 /\
      forall k, k <> key -> k <> key +:+ "_NUMCASCADES" -> k <> key +:+ "_DEBUG" ->
        defines' !! k
        = CSMShadowMap_prepareDefines (generator cascade0) defines lightIndex !! k) /\
   (lightIndex = 0%nat -> CSM.numCascades g = 3 ->
    defines' !! "SHADOWCSM0_NUMCASCADES" = Some (DNumber 3))) /\
  (shadowsEnabled (_scene g) = false \/ shadowEnabled (_light g) = false \/
   length (_cascades g) = 0%nat ->
   defines' = defines).
Proof.
  intros defines' key. split.
  - intros Hs Hl Hlen.
    assert (Hkeys : key <> key +:+ "_NUMCASCADES" /\ key <> key +:+ "_DEBUG" /\
                    key +:+ "_NUMCASCADES" <> key +:+ "_DEBUG").
    { repeat split; try apply append_ne_self.
      intros H. apply append_inj_l in H. discriminate. }
    destruct Hkeys as (Hk1 & Hk2 & Hk3).
    destruct (lookup_lt_is_Some_2 (_cascades g) 0%nat) as [cascade0 Hc0]; [lia|].
    assert (Heq : defines' =
              <[ key +:+ "_DEBUG" := DBool (_debug g) ]>
                (<[ key +:+ "_NUMCASCADES" := DNumber (_numCascades g) ]>
                   (<[ key := DBool true ]>
                      (CSMShadowMap_prepareDefines (generator cascade0) defines lightIndex)))).
    { unfold defines', CSM.prepareDefines.
      rewrite enabled_guard by assumption. rewrite Hc0. reflexivity. }
    assert (Hnum : defines' !! (key +:+ "_NUMCASCADES") = Some (DNumber (CSM.numCascades g))).
    { rewrite Heq. rewrite lookup_insert_ne by congruence. now rewrite lookup_insert_eq. }
    split; [|split; [|split; [|split]]].
    + rewrite Heq. rewrite !lookup_insert_ne by congruence. now rewrite lookup_insert_eq.
    + exact Hnum.
    + rewrite Heq. now rewrite lookup_insert_eq.
    + exists cascade0. split; [exact Hc0|]. intros k H1 H2 H3.
      rewrite Heq. now rewrite !lookup_insert_ne by congruence.
    + intros Hi H3. rewrite <- H3, <- Hnum. unfold key. rewrite Hi. reflexivity.
  - intros H. unfold defines', CSM.prepareDefines.
    now rewrite disabled_guard.
Qed.

Lemma prepareDefines_sets_csm_defines_witness :
  CSM.prepareDefines sampleMapDefines ∅ 0 (sampleGenerator 3) !! "SHADOWCSM0_NUMCASCADES"
  = Some (DNumber 3).
Proof.
  destruct (prepareDefines_sets_csm_defines sampleMapDefines ∅ 0 (sampleGenerator 3))
    as [H _].
  destruct H as (_ & _ & _ & _ & H).
  - reflexivity.
  - reflexivity.
  - simpl. lia.
  - apply H; reflexivity.
Defined.

(** ** The caster list *)

Lemma indexOf_found {A} (eqb : A -> A -> bool) (x : A) (a : list A) :
  (exists y, y ∈ a /\ eqb y x = true) ->
  exists l1 y l2,
    a = l1 ++ y :: l2 /\ eqb y x = true /\
    Forall (fun z => eqb z x = false) l1 /\
    JS.indexOf eqb x a = Z.of_nat (length l1).
Proof.
  induction a as [|z a IH]; intros (y & Hy & Heq).
  - inversion Hy.
  - simpl. destruct (eqb z x) eqn:Hz.
    + exists [], z, a. repeat split; auto.
    + assert (Hin : exists y, y ∈ a /\ eqb y x = true).
      { exists y. split; [|exact Heq]. apply elem_of_cons in Hy as [->|Hy]; [congruence|exact Hy]. }
      destruct (IH Hin) as (l1 & y' & l2 & -> & Hy' & Hall & Hidx).
      exists (z :: l1), y', l2. rewrite Hidx.
      repeat split; auto.
      destruct (Z.of_nat (length l1) =? -1) eqn:Hneg.
      * apply Z.eqb_eq in Hneg. lia.
      * simpl length. lia.
Qed.

Lemma splice1_middle {A} (l1 l2 : list A) (y : A) :
  JS.splice1 (Z.of_nat (length l1)) (l1 ++ y :: l2) = l1 ++ l2.
Proof.
  unfold JS.splice1. rewrite Nat2Z.id.
  rewrite take_app_length.
  change (S (length l1)) with (1 + length l1)%nat.
  rewrite Nat.add_comm, <- drop_drop, drop_app_length. reflexivity.
Qed.

Lemma same_mesh_refl (m : AbstractMesh) : same_mesh m m = true.
Proof. apply Nat.eqb_refl. Qed.

(** Removing a mesh that is in the list takes out the first entry that is
    this mesh. *)
Lemma removeFrom_found (mesh : AbstractMesh) (renderList : list AbstractMesh) :
  (exists y, y ∈ renderList /\ same_mesh y mesh = true) ->
  exists l1 y l2,
    renderList = l1 ++ y :: l2 /\ uniqueId y = uniqueId mesh /\
    Forall (fun z => uniqueId z <> uniqueId mesh) l1 /\
    CSM.removeFrom mesh false renderList = l1 ++ l2.
Proof.
  intros Hin.
  destruct (indexOf_found same_mesh mesh renderList Hin) as (l1 & y & l2 & -> & Hy & Hall & Hidx).
  exists l1, y, l2. repeat split.
  - now apply Nat.eqb_eq.
  - eapply Forall_impl; [exact Hall|]. intros z Hz. now apply Nat.eqb_neq.
  - destruct mesh as [i lo hi cs]. simpl. rewrite Hidx.
    destruct (Z.of_nat (length l1) =? -1) eqn:Hneg; [apply Z.eqb_eq in Hneg; lia|].
    simpl. apply splice1_middle.
Qed.

(** C8.  [addShadowCaster(mesh, false)] followed by
    [removeShadowCaster(mesh, false)] leaves a caster list with the same
    meshes, each as often as before but not always in the same order: the
    lists of the identities of the meshes are permutations of one another,
    and so are the lists themselves when the entries that are [mesh] all hold
    the same [mesh]. *)
Theorem add_remove_caster_restores (mesh : AbstractMesh) (g : CSMShadowGenerator) :
  let g' := CSM.removeShadowCaster mesh false (CSM.addShadowCaster mesh false g) in
  uniqueId <$> CSM.renderList g' ≡ₚ uniqueId <$> CSM.renderList g /\
  ((forall m, m ∈ CSM.renderList g -> uniqueId m = uniqueId mesh -> m = mesh) ->
   CSM.renderList g' ≡ₚ CSM.renderList g).
Proof.
  intros g'. unfold CSM.renderList.
  assert (Hin : exists y, y ∈ _renderList g ++ [mesh] /\ same_mesh y mesh = true).
  { exists mesh. split; [|apply same_mesh_refl]. apply elem_of_app. right. apply list_elem_of_singleton. reflexivity. }
  destruct (removeFrom_found mesh _ Hin) as (l1 & y & l2 & Hsplit & Hy & _ & Hrem).
  assert (Hg' : _renderList g' = l1 ++ l2) by exact Hrem.
  rewrite Hg'. split.
  - apply (Permutation_cons_inv (a := uniqueId mesh)).
    rewrite (Permutation_cons_append (uniqueId <$> _renderList g)).
    change [uniqueId mesh] with (uniqueId <$> [mesh]).
    rewrite <- fmap_app, Hsplit, !fmap_app, fmap_cons, Hy.
    now rewrite Permutation_middle.
  - intros Hwf.
    assert (y = mesh) as ->.
    { assert (Hyin : y ∈ _renderList g ++ [mesh]).
      { rewrite Hsplit. apply elem_of_app. right. apply elem_of_cons. now left. }
      apply elem_of_app in Hyin as [Hyin|Hyin].
      - now apply Hwf.
      - now apply list_elem_of_singleton in Hyin. }
    apply (Permutation_cons_inv (a := mesh)).
    rewrite (Permutation_cons_append (_renderList g)), Hsplit.
    now rewrite Permutation_middle.
Qed.

Lemma add_remove_caster_restores_witness :
  let g := CSM.addShadowCaster sampleMesh false (sampleGenerator 4) in
  CSM.renderList (CSM.removeShadowCaster sampleMesh false (CSM.addShadowCaster sampleMesh false g))
  ≡ₚ CSM.renderList g.
Proof.
  intros g.
  destruct (add_remove_caster_restores sampleMesh g) as [_ H].
  apply H. intros m Hm _.
  apply list_elem_of_singleton in Hm. exact Hm.
Defined.

(** ** The chain of reduction passes *)

Lemma Math_round_half (x : Z) : JS.Math_round (inject_Z x / 2)%Q = (x + 1) / 2.
Proof.
  unfold JS.Math_round. rewrite Zdiv_Qdiv. apply Qfloor_comp.
  unfold Qeq, Qdiv, Qplus, Qmult, Qinv, inject_Z; simpl. lia.
Qed.

Lemma halve_spec (x : Z) : MinMax.halve x = Z.max ((x + 1) / 2) 1.
Proof. unfold MinMax.halve. now rewrite Math_round_half. Qed.

Lemma halve_ge_1 (x : Z) : 1 <= MinMax.halve x.
Proof. rewrite halve_spec. lia. Qed.

Lemma halve_lt (x : Z) : 1 < x -> MinMax.halve x < x.
Proof.
  intros Hx. rewrite halve_spec.
  assert ((x + 1) / 2 < x) by (apply Z.div_lt_upper_bound; lia). lia.
Qed.

Lemma halve_1 (x : Z) : x <= 1 -> MinMax.halve x = 1.
Proof.
  intros Hx. rewrite halve_spec.
  assert ((x + 1) / 2 <= 1) by (apply Z.div_le_upper_bound; lia). lia.
Qed.

(** The loop appends to [steps] the reduction passes of a halving chain that
    starts at [w] x [h]. *)
Lemma reductionLoop_chain (type : Z) (forceFullscreenViewport : bool) (w h : Z)
    (index : nat) (steps : list MinMax.PostProcess) :
  exists sizes,
    HalvingChain w h sizes /\
    MinMax.reductionLoop type forceFullscreenViewport w h index steps
    = steps ++ reductions type forceFullscreenViewport index sizes.
Proof.
  funelim (MinMax.reductionLoop type forceFullscreenViewport w h index steps).
  - destruct H as (sizes & Hchain & Heq).
    exists ((MinMax.halve w, MinMax.halve h) :: sizes). split.
    + apply chain_step; [|exact Hchain].
      destruct (proj1 (orb_true_iff _ _) e) as [e'|e']; [left|right];
        apply Z.gtb_lt in e'; lia.
    + rewrite Heq, <- app_assoc. f_equal. unfold reductions.
      rewrite imap_cons, Nat.add_0_r. simpl. f_equal.
      apply imap_ext. intros k [w' h'] _. simpl. f_equal. lia.
  - exists []. split.
    + destruct (proj1 (orb_false_iff _ _) e) as [e1 e2].
      apply chain_stop; [destruct (Z.gtb_spec w 1) | destruct (Z.gtb_spec h 1)];
        (lia || discriminate).
    + unfold reductions. simpl. now rewrite app_nil_r.
Qed.

(** A chain that starts at a size of at least 1 x 1 and is not empty ends
    with 1 x 1, and no size before the last is 1 x 1. *)
Lemma HalvingChain_last (w h : Z) (sizes : list (Z * Z)) :
  HalvingChain w h sizes -> sizes <> [] ->
  exists sizes', sizes = sizes' ++ [(1, 1)] /\
                 Forall (fun '(a, b) => 1 <= a /\ 1 <= b /\ (1 < a \/ 1 < b)) sizes'.
Proof.
  induction 1 as [w h Hw Hh | w h sizes Hgt Hchain IH]; intros Hne; [contradiction|].
  destruct sizes as [|s sizes].
  - inversion Hchain; subst.
    exists []. split; [|constructor].
    pose proof (halve_ge_1 w). pose proof (halve_ge_1 h).
    simpl. repeat f_equal; lia.
  - destruct IH as (sizes' & Heq & Hall); [discriminate|].
    exists ((MinMax.halve w, MinMax.halve h) :: sizes'). split.
    + simpl. now rewrite Heq.
    + constructor; [|exact Hall].
      inversion Hchain; subst.
      pose proof (halve_ge_1 w). pose proof (halve_ge_1 h). tauto.
Qed.

Lemma HalvingChain_nonempty (w h : Z) (sizes : list (Z * Z)) :
  HalvingChain w h sizes -> 1 < w \/ 1 < h -> sizes <> [].
Proof. intros Hchain Hgt. inversion Hchain; subst; [lia | discriminate]. Qed.

Lemma phase_last : MinMax.phase 1 1 = "LAST"%string.
Proof. reflexivity. Qed.

Lemma phase_not_last (w h : Z) : 1 < w \/ 1 < h -> MinMax.phase w h <> "LAST"%string.
Proof.
  intros Hgt. unfold MinMax.phase.
  destruct (w =? 1) eqn:Hw; destruct (h =? 1) eqn:Hh; simpl; try discriminate.
  apply Z.eqb_eq in Hw, Hh. lia.
Qed.

Lemma phase_one_before_last (w h : Z) :
  (w = 1 /\ h <> 1) \/ (w <> 1 /\ h = 1) -> MinMax.phase w h = "ONEBEFORELAST"%string.
Proof.
  intros H. unfold MinMax.phase.
  destruct (w =? 1) eqn:Hw; destruct (h =? 1) eqn:Hh; simpl; try reflexivity;
    [apply Z.eqb_eq in Hw, Hh | apply Z.eqb_neq in Hw, Hh]; lia.
Qed.

Lemma reductions_snoc (type : Z) (forceFullscreenViewport : bool) (index : nat)
    (sizes : list (Z * Z)) (w h : Z) :
  reductions type forceFullscreenViewport index (sizes ++ [(w, h)])
  = reductions type forceFullscreenViewport index sizes
    ++ [MinMax.reduction (index + length sizes) w h type forceFullscreenViewport].
Proof.
  unfold reductions. rewrite imap_app. simpl. now rewrite Nat.add_0_r.
Qed.

Lemma elem_of_reductions (type : Z) (forceFullscreenViewport : bool) (index : nat)
    (sizes : list (Z * Z)) (p : MinMax.PostProcess) :
  p ∈ reductions type forceFullscreenViewport index sizes ->
  exists k w h, (w, h) ∈ sizes /\
                p = MinMax.reduction (index + k) w h type forceFullscreenViewport.
Proof.
  unfold reductions. intros Hp.
  apply elem_of_lookup_imap in Hp as (k & [w h] & -> & Hk).
  exists k, w, h. split; [|reflexivity].
  apply list_elem_of_lookup. now exists k.
Qed.

(** For a source larger than 1 x 1 the steps are the initial pass and the
    reduction passes of a halving chain that ends with 1 x 1. *)
Lemma setSourceTexture_reduction (sourceTexture : RenderTargetTexture)
    (depthRedux : bool) (type : Z) (forceFullscreenViewport : bool)
    (r : MinMax.MinMaxReducer) :
  1 <= renderWidth sourceTexture -> 1 <= renderHeight sourceTexture ->
  1 < renderWidth sourceTexture \/ 1 < renderHeight sourceTexture ->
  MinMax.same_texture sourceTexture (MinMax._sourceTexture r) = false ->
  exists initial sizes final,
    MinMax._reductionSteps
      (MinMax.setSourceTexture sourceTexture depthRedux type forceFullscreenViewport r)
    = Some (initial :: reductions type forceFullscreenViewport 1 sizes ++ [final]) /\
    MinMax.options initial = MinMax.Ratio 1 /\
    HalvingChain (renderWidth sourceTexture) (renderHeight sourceTexture)
                 (sizes ++ [(1, 1)]) /\
    final = MinMax.reduction (1 + length sizes) 1 1 type forceFullscreenViewport /\
    MinMax.options final = MinMax.Size 1 1 /\
    MinMax.defines final = "#define LAST"%string /\
    (forall p, p ∈ initial :: reductions type forceFullscreenViewport 1 sizes ->
       MinMax.defines p <> "#define LAST"%string /\ MinMax.options p <> MinMax.Size 1 1) /\
    (forall p w h,
       p ∈ reductions type forceFullscreenViewport 1 sizes ++ [final] ->
       MinMax.options p = MinMax.Size w h ->
       (w = 1 /\ h <> 1) \/ (w <> 1 /\ h = 1) ->
       MinMax.defines p = "#define ONEBEFORELAST"%string).
Proof.
  intros Hw Hh Hgt Hnew.
  unfold MinMax.setSourceTexture. rewrite Hnew. simpl.
  match goal with
  | |- context [MinMax.reductionLoop _ _ _ _ _ [?i]] => set (initial := i)
  end.
  destruct (reductionLoop_chain type forceFullscreenViewport (renderWidth sourceTexture)
              (renderHeight sourceTexture) 1 [initial]) as (sizes0 & Hchain & Heq).
  destruct (HalvingChain_last _ _ _ Hchain (HalvingChain_nonempty _ _ _ Hchain Hgt))
    as (sizes & -> & Hall).
  rewrite Heq, reductions_snoc.
  exists initial, sizes, (MinMax.reduction (1 + length sizes) 1 1 type forceFullscreenViewport).
  split; [reflexivity|]. split; [reflexivity|]. split; [exact Hchain|].
  split; [reflexivity|]. split; [reflexivity|]. split; [reflexivity|]. split.
  - intros p Hp. apply elem_of_cons in Hp as [->|Hp].
    + split; [|discriminate]. unfold initial. destruct depthRedux; discriminate.
    + apply elem_of_reductions in Hp as (k & w & h & Hin & ->).
      rewrite Forall_forall in Hall. specialize (Hall _ Hin). simpl in Hall.
      split.
      * simpl. intros Hd.
        change ("#define " +:+ MinMax.phase w h = "#define " +:+ "LAST") in Hd.
        apply append_inj_l in Hd.
        revert Hd. apply phase_not_last. tauto.
      * simpl. intros Hd. injection Hd as -> ->. lia.
  - intros p w h Hp Hopt Hone.
    assert (Hd : exists k, p = MinMax.reduction k w h type forceFullscreenViewport).
    { apply elem_of_app in Hp as [Hp|Hp].
      - apply elem_of_reductions in Hp as (k & w' & h' & _ & ->).
        simpl in Hopt. injection Hopt as -> ->. now exists (1 + k)%nat.
      - apply list_elem_of_singleton in Hp as ->.
        simpl in Hopt. injection Hopt as <- <-. lia. }
    destruct Hd as [k ->]. simpl. now rewrite phase_one_before_last.
Qed.

(** For a source of 1 x 1 the loop is not entered: the initial pass is the
    only one. *)
Lemma setSourceTexture_no_reduction (sourceTexture : RenderTargetTexture)
    (depthRedux : bool) (type : Z) (forceFullscreenViewport : bool)
    (r : MinMax.MinMaxReducer) :
  renderWidth sourceTexture <= 1 -> renderHeight sourceTexture <= 1 ->
  MinMax.same_texture sourceTexture (MinMax._sourceTexture r) = false ->
  exists initial,
    MinMax._reductionSteps
      (MinMax.setSourceTexture sourceTexture depthRedux type forceFullscreenViewport r)
    = Some [initial] /\
    MinMax.options initial = MinMax.Ratio 1 /\
    MinMax.defines initial <> "#define LAST"%string.
Proof.
  intros Hw Hh Hnew.
  unfold MinMax.setSourceTexture. rewrite Hnew. simpl.
  match goal with
  | |- context [MinMax.reductionLoop _ _ _ _ _ [?i]] => set (initial := i)
  end.
  destruct (reductionLoop_chain type forceFullscreenViewport (renderWidth sourceTexture)
              (renderHeight sourceTexture) 1 [initial]) as (sizes & Hchain & Heq).
  inversion Hchain; subst; [|lia].
  exists initial. rewrite Heq. split; [reflexivity|]. split; [reflexivity|].
  unfold initial. destruct depthRedux; discriminate.
Qed.

(** C9, as amended.  For a source texture of width [w >= 1] and height
    [h >= 1] the loop of [setSourceTexture] ends.  For a source of 1 x 1 it
    leaves the initial pass alone, and no pass is tagged [LAST].  For a
    larger source it leaves after the initial pass a chain of reduction
    passes whose sizes are a halving chain from [w] x [h]; the final pass is
    1 x 1 and tagged [LAST], no pass before it is tagged [LAST], and a pass
    of which exactly one dimension is 1 is tagged [ONEBEFORELAST]. *)
Theorem setSourceTexture_builds_chain (sourceTexture : RenderTargetTexture)
    (depthRedux : bool) (type : Z) (forceFullscreenViewport : bool)
    (r : MinMax.MinMaxReducer) :
  1 <= renderWidth sourceTexture -> 1 <= renderHeight sourceTexture ->
  MinMax.same_texture sourceTexture (MinMax._sourceTexture r) = false ->
  exists initial passes,
    MinMax._reductionSteps
      (MinMax.setSourceTexture sourceTexture depthRedux type forceFullscreenViewport r)
    = Some (initial :: passes) /\
    MinMax.options initial = MinMax.Ratio 1 /\
    MinMax.defines initial <> "#define LAST"%string /\
    (renderWidth sourceTexture = 1 /\ renderHeight sourceTexture = 1 -> passes = []) /\
    (1 < renderWidth sourceTexture \/ 1 < renderHeight sourceTexture ->
     exists sizes final,
       passes = reductions type forceFullscreenViewport 1 sizes ++ [final] /\
       HalvingChain (renderWidth sourceTexture) (renderHeight sourceTexture)
                    (sizes ++ [(1, 1)]) /\
       final = MinMax.reduction (1 + length sizes) 1 1 type forceFullscreenViewport /\
       MinMax.options final = MinMax.Size 1 1 /\
       MinMax.defines final = "#define LAST"%string /\
       (forall p, p ∈ reductions type forceFullscreenViewport 1 sizes ->
          MinMax.defines p <> "#define LAST"%string /\
          MinMax.options p <> MinMax.Size 1 1) /\
       (forall p w h,
          p ∈ passes -> MinMax.options p = MinMax.Size w h ->
          (w = 1 /\ h <> 1) \/ (w <> 1 /\ h = 1) ->
          MinMax.defines p = "#define ONEBEFORELAST"%string)).
Proof.
  intros Hw Hh Hnew.
  destruct (decide (1 < renderWidth sourceTexture \/ 1 < renderHeight sourceTexture))
    as [Hgt|Hle].
  - destruct (setSourceTexture_reduction sourceTexture depthRedux type
                forceFullscreenViewport r Hw Hh Hgt Hnew)
      as (initial & sizes & final & Hs & Ho & Hchain & Hf & Hfo & Hfd & Hbefore & Hone).
    exists initial, (reductions type forceFullscreenViewport 1 sizes ++ [final]).
    split; [exact Hs|]. split; [exact Ho|].
    split; [apply Hbefore; apply elem_of_cons; now left|].
    split; [intros [? ?]; lia|].
    intros _. exists sizes, final.
    split; [reflexivity|]. split; [exact Hchain|]. split; [exact Hf|].
    split; [exact Hfo|]. split; [exact Hfd|]. split; [|exact Hone].
    intros p Hp. apply Hbefore. apply elem_of_cons. now right.
  - destruct (setSourceTexture_no_reduction sourceTexture depthRedux type
                forceFullscreenViewport r) as (initial & Hs & Ho & Hd); [lia | lia | exact Hnew |].
    exists initial, []. split; [exact Hs|]. split; [exact Ho|]. split; [exact Hd|].
    split; [reflexivity|]. intros Hgt. contradiction.
Qed.

Lemma setSourceTexture_builds_chain_witness :
  exists initial passes final,
    MinMax._reductionSteps (MinMax.setSourceTexture sampleTexture8x1 false 2 true MinMax.constructor)
    = Some (initial :: passes) /\
    last passes = Some final /\
    MinMax.defines final = "#define LAST"%string.
Proof.
  destruct (setSourceTexture_builds_chain sampleTexture8x1 false 2 true MinMax.constructor)
    as (initial & passes & H1 & _ & _ & _ & H2).
  - simpl. lia.
  - simpl. lia.
  - reflexivity.
  - destruct H2 as (sizes & final & -> & _ & _ & _ & Hd & _); [left; simpl; lia|].
    exists initial, (reductions 2 true 1 sizes ++ [final]), final.
    split; [exact H1|]. split; [apply last_snoc | exact Hd].
Defined.

(** The passes for a source of 8 x 1: 4 x 1 and 2 x 1 are tagged
    [ONEBEFORELAST], 1 x 1 is tagged [LAST]. *)
Lemma setSourceTexture_8x1 :
  (fun p => (MinMax.name p, MinMax.options p, MinMax.defines p)) <$>
    default [] (MinMax._reductionSteps
                  (MinMax.setSourceTexture sampleTexture8x1 false 2 true MinMax.constructor))
  = [("Initial reduction phase", MinMax.Ratio 1, "#define INITIAL");
     ("Reduction phase 1", MinMax.Size 4 1, "#define ONEBEFORELAST");
     ("Reduction phase 2", MinMax.Size 2 1, "#define ONEBEFORELAST");
     ("Reduction phase 3", MinMax.Size 1 1, "#define LAST")]%string.
Proof. vm_compute. reflexivity. Qed.

(** C9, as stated, fails for a source of 1 x 1: the loop is not entered,
    the only pass is the initial one and no pass is tagged [LAST]. *)
Lemma setSourceTexture_1x1_counterexample :
  1 <= renderWidth sampleTexture1x1 /\ 1 <= renderHeight sampleTexture1x1 /\
  ~ (exists steps final,
       MinMax._reductionSteps
         (MinMax.setSourceTexture sampleTexture1x1 false 2 true MinMax.constructor)
       = Some steps /\
       last steps = Some final /\
       MinMax.options final = MinMax.Size 1 1 /\
       MinMax.defines final = "#define LAST"%string).
Proof.
  split; [simpl; lia|]. split; [simpl; lia|].
  intros (steps & final & Hsteps & Hlast & _ & Hdef).
  vm_compute in Hsteps. injection Hsteps as <-.
  simpl in Hlast. injection Hlast as <-.
  vm_compute in Hdef. discriminate.
Qed.

(** * Further properties *)

(** ** The split scheme, continued *)

(** What [setDistanceSplit] leaves in cascade [i] when there is a camera. *)
Lemma setDistanceSplit_lookup (g : CSMShadowGenerator) (camera : Camera) (i : nat)
    (c : ICascade) :
  activeCamera (_scene g) = Some camera ->
  _cascades (CSM.setDistanceSplit g) !! i = Some c ->
  exists c0,
    _cascades g !! i = Some c0 /\
    generator c = generator c0 /\
    splitDistance c = splitFraction (_lambda g) (_minDistance g) (_maxDistance g)
                        (_numCascades g) (minZ camera) (maxZ camera) i /\
    prevSplitDistance c =
      match i with
      | O => _minDistance g
      | S i' => splitFraction (_lambda g) (_minDistance g) (_maxDistance g)
                  (_numCascades g) (minZ camera) (maxZ camera) i'
      end.
Proof.
  intros Hcam Hc. rewrite (setDistanceSplit_cascades g camera i Hcam) in Hc.
  destruct (_cascades g !! i) as [c0|] eqn:Hc0; [|discriminate].
  injection Hc as <-. exists c0. split; [reflexivity|]. split; [reflexivity|]. split.
  - apply storedSplit_splitFraction.
  - destruct i as [|i']; [reflexivity|]. apply storedSplit_splitFraction.
Qed.

(** X1.  After [setDistanceSplit] with an active camera every cascade begins
    where the one before it ends: [prevSplitDistance] of cascade [i + 1] is
    [splitDistance] of cascade [i]; the renderers of the cascades and the
    number of cascades are as before. *)
Theorem setDistanceSplit_contiguous (g : CSMShadowGenerator) (camera : Camera) :
  activeCamera (_scene g) = Some camera ->
  let cascades := _cascades (CSM.setDistanceSplit g) in
  (forall i c c', cascades !! i = Some c -> cascades !! S i = Some c' ->
     prevSplitDistance c' = splitDistance c) /\
  generator <$> cascades = generator <$> _cascades g.
Proof.
  intros Hcam cascades. split.
  - intros i c c' Hc Hc'.
    destruct (setDistanceSplit_lookup g camera i c Hcam Hc) as (_ & _ & _ & -> & _).
    destruct (setDistanceSplit_lookup g camera (S i) c' Hcam Hc') as (_ & _ & _ & _ & ->).
    reflexivity.
  - apply list_eq. intros i. rewrite !list_lookup_fmap.
    unfold cascades. rewrite (setDistanceSplit_cascades g camera i Hcam).
    destruct (_cascades g !! i); reflexivity.
Qed.

Lemma setDistanceSplit_contiguous_witness :
  generator <$> _cascades (CSM.setDistanceSplit (sampleGenerator 4))
  = generator <$> _cascades (sampleGenerator 4).
Proof.
  apply (setDistanceSplit_contiguous (sampleGenerator 4) sampleCamera). reflexivity.
Defined.

Lemma stored_stored (g g' : CSMShadowGenerator) (near cameraRange minZ range ratio : R)
    (i : nat) (c : ICascade) :
  _numCascades g' = _numCascades g -> _lambda g' = _lambda g ->
  _minDistance g' = _minDistance g ->
  stored g' near cameraRange minZ range ratio i
         (stored g near cameraRange minZ range ratio i c)
  = stored g near cameraRange minZ range ratio i c.
Proof.
  intros Hn Hl Hm. unfold stored. simpl. f_equal.
  - destruct i as [|i']; simpl; [exact Hm|]. unfold storedSplit. now rewrite Hn, Hl.
  - unfold storedSplit. now rewrite Hn, Hl.
Qed.

Lemma setDistanceSplit_assign (g : CSMShadowGenerator) :
  CSM.setDistanceSplit g = assign_cascades (_cascades (CSM.setDistanceSplit g)) g.
Proof.
  destruct g. unfold CSM.setDistanceSplit. simpl.
  match goal with |- context [activeCamera ?s] => destruct (activeCamera s) end; reflexivity.
Qed.

(** X2.  [setDistanceSplit] is idempotent: a second call, with the
    parameters and the camera unchanged, changes nothing. *)
Theorem setDistanceSplit_idempotent (g : CSMShadowGenerator) :
  CSM.setDistanceSplit (CSM.setDistanceSplit g) = CSM.setDistanceSplit g.
Proof.
  assert (Hcs : _cascades (CSM.setDistanceSplit (CSM.setDistanceSplit g))
                = _cascades (CSM.setDistanceSplit g)).
  { destruct (activeCamera (_scene g)) as [camera|] eqn:Hcam.
    - assert (Hcam' : activeCamera (_scene (CSM.setDistanceSplit g)) = Some camera).
      { unfold CSM.setDistanceSplit. now rewrite Hcam. }
      apply list_eq. intros i.
      rewrite (setDistanceSplit_cascades _ camera i Hcam').
      rewrite (setDistanceSplit_cascades g camera i Hcam).
      assert (Hf : _minDistance (CSM.setDistanceSplit g) = _minDistance g /\
                   _maxDistance (CSM.setDistanceSplit g) = _maxDistance g).
      { unfold CSM.setDistanceSplit. rewrite Hcam. split; reflexivity. }
      destruct Hf as [-> ->].
      destruct (_cascades g !! i) as [c|]; [|reflexivity].
      simpl. f_equal. apply stored_stored.
      all: unfold CSM.setDistanceSplit; rewrite Hcam; reflexivity.
    - unfold CSM.setDistanceSplit. rewrite Hcam. now rewrite Hcam. }
  rewrite (setDistanceSplit_assign (CSM.setDistanceSplit g)), Hcs.
  set (cs := _cascades (CSM.setDistanceSplit g)).
  rewrite (setDistanceSplit_assign g). reflexivity.
Qed.

(** ** Construction, continued *)

(** The constructor ends with [setDistanceSplit]; this is the generator on
    which it is called. *)
Lemma constructor_setDistanceSplit (LIGHTTYPEID_DIRECTIONALLIGHT : Z)
    (newCSMShadowMap : Z -> IShadowLight -> bool -> CSMShadowMap)
    (mapSize : Z) (light : IShadowLight) (scene : Scene) (numCascades : Z)
    (usefulFloatFirst : option bool) (console : list string) :
  exists g0,
    CSM.constructor LIGHTTYPEID_DIRECTIONALLIGHT newCSMShadowMap mapSize light scene
                    numCascades usefulFloatFirst console
    = CSM.setDistanceSplit g0 /\
    activeCamera (_scene g0) = activeCamera scene /\
    _lambda g0 = 0.7%R /\ _minDistance g0 = 0%R /\ _maxDistance g0 = 1%R /\
    _numCascades g0 = Z.max numCascades 1 /\
    Z.of_nat (length (_cascades g0)) = Z.max numCascades 1.
Proof.
  eexists. split; [reflexivity|]. cbn.
  assert (Hn : (if numCascades <? 1 then 1 else numCascades) = Z.max numCascades 1).
  { destruct (numCascades <? 1) eqn:H; [apply Z.ltb_lt in H | apply Z.ltb_ge in H]; lia. }
  rewrite push_cascades_length, Hn. cbn. repeat split. lia.
Qed.

Lemma constructor_sizes_aux (LIGHTTYPEID_DIRECTIONALLIGHT : Z)
    (newCSMShadowMap : Z -> IShadowLight -> bool -> CSMShadowMap)
    (mapSize : Z) (light : IShadowLight) (scene : Scene) (numCascades : Z)
    (usefulFloatFirst : option bool) (console : list string) :
  let g := CSM.constructor LIGHTTYPEID_DIRECTIONALLIGHT newCSMShadowMap mapSize light scene
                           numCascades usefulFloatFirst console in
  CSM.numCascades g = Z.max numCascades 1 /\
  Z.of_nat (length (_cascades g)) = CSM.numCascades g /\
  Z.of_nat (length (_lightMatrices g)) = 16 * CSM.numCascades g /\
  Z.of_nat (length (_samplers g)) = CSM.numCascades g /\
  Z.of_nat (length (_cascadeDepths g)) = CSM.numCascades g /\
  (forall c, c ∈ _cascades g ->
     generator c = newCSMShadowMap mapSize (_markMeshesAsLightDirty light)
                                   (default false usefulFloatFirst)).
Proof.
  intros g.
  destruct (constructor_state LIGHTTYPEID_DIRECTIONALLIGHT newCSMShadowMap mapSize light
              scene numCascades usefulFloatFirst console) as (_ & Hn1 & Hn & Hlen & _).
  fold g in Hn1, Hn, Hlen.
  destruct (constructor_setDistanceSplit LIGHTTYPEID_DIRECTIONALLIGHT newCSMShadowMap
              mapSize light scene numCascades usefulFloatFirst console)
    as (g0 & Hg & _).
  assert (Hbuf : _lightMatrices g = replicate (Z.to_nat (Z.max numCascades 1 * 16)) 0%R /\
                 _samplers g = replicate (Z.to_nat (Z.max numCascades 1)) None /\
                 _cascadeDepths g = replicate (Z.to_nat (Z.max numCascades 1)) None).
  { assert (Hm : (if numCascades <? 1 then 1 else numCascades) = Z.max numCascades 1).
    { destruct (numCascades <? 1) eqn:H; [apply Z.ltb_lt in H | apply Z.ltb_ge in H]; lia. }
    rewrite <- Hm. unfold g, CSM.constructor, CSM._initializeGenerator, CSM._initializeCSM.
    match goal with |- context [CSM.setDistanceSplit ?x] => set (g1 := x) end.
    unfold CSM.setDistanceSplit. destruct (activeCamera (_scene g1)); repeat split. }
  destruct Hbuf as (Hm & Hs & Hd).
  split; [exact Hn|]. split; [exact Hlen|].
  rewrite Hm, Hs, Hd, !length_replicate, Hn.
  split; [lia|]. split; [lia|]. split; [lia|].
  intros c Hc.
  assert (Hgen : Forall (fun c => generator c
                   = newCSMShadowMap mapSize (_markMeshesAsLightDirty light)
                                     (default false usefulFloatFirst)) (_cascades g)).
  { unfold g, CSM.constructor, CSM._initializeGenerator, CSM._initializeCSM.
    match goal with |- context [CSM.setDistanceSplit ?x] => set (g1 := x) end.
    assert (H1 : Forall (fun c => generator c
                   = newCSMShadowMap mapSize (_markMeshesAsLightDirty light)
                                     (default false usefulFloatFirst)) (_cascades g1)).
    { unfold g1. cbn.
      generalize (Z.to_nat (if numCascades <? 1 then 1 else numCascades)). intros n.
      induction n as [|n IH]; [constructor|].
      rewrite seq_S, fold_left_app. simpl. apply Forall_app. split; [exact IH|].
      constructor; [reflexivity | constructor]. }
    apply Forall_forall. intros c' Hc'.
    apply list_elem_of_lookup in Hc' as [i Hi].
    destruct (activeCamera (_scene g1)) as [camera|] eqn:Hcam.
    - destruct (setDistanceSplit_lookup g1 camera i c' Hcam Hi) as (c0 & Hc0 & -> & _).
      rewrite Forall_forall in H1. apply H1. apply list_elem_of_lookup. now exists i.
    - unfold CSM.setDistanceSplit in Hi. rewrite Hcam in Hi.
      rewrite Forall_forall in H1. apply H1. apply list_elem_of_lookup. now exists i. }
  rewrite Forall_forall in Hgen. now apply Hgen.
Qed.

(** X6.  The constructor coerces a cascade count below 1 to 1, builds that
    many cascades, each on a renderer made by
    [new CSMShadowMap(mapSize, light, !!usefulFloatFirst, this)], and sizes
    [_lightMatrices] (16 numbers per cascade), [_samplers] and
    [_cascadeDepths] by the same count. *)
Theorem constructor_sizes (LIGHTTYPEID_DIRECTIONALLIGHT : Z)
    (newCSMShadowMap : Z -> IShadowLight -> bool -> CSMShadowMap)
    (mapSize : Z) (light : IShadowLight) (scene : Scene) (numCascades : Z)
    (usefulFloatFirst : option bool) (console : list string) :
  let g := CSM.constructor LIGHTTYPEID_DIRECTIONALLIGHT newCSMShadowMap mapSize light scene
                           numCascades usefulFloatFirst console in
  CSM.numCascades g = Z.max numCascades 1 /\
  Z.of_nat (length (_cascades g)) = CSM.numCascades g /\
  Z.of_nat (length (_lightMatrices g)) = 16 * CSM.numCascades g /\
  Z.of_nat (length (_samplers g)) = CSM.numCascades g /\
  Z.of_nat (length (_cascadeDepths g)) = CSM.numCascades g /\
  (forall c, c ∈ _cascades g ->
     generator c = newCSMShadowMap mapSize (_markMeshesAsLightDirty light)
                                   (default false usefulFloatFirst)).
Proof.
  exact (constructor_sizes_aux LIGHTTYPEID_DIRECTIONALLIGHT newCSMShadowMap mapSize light
           scene numCascades usefulFloatFirst console).
Qed.

(** X7.  A light that is not directional is reported on the console and
    nothing else changes: the generator is the one built when the type is
    accepted, with one more line on the console. *)
Theorem constructor_wrong_light (LIGHTTYPEID_DIRECTIONALLIGHT : Z)
    (newCSMShadowMap : Z -> IShadowLight -> bool -> CSMShadowMap)
    (mapSize : Z) (light : IShadowLight) (scene : Scene) (numCascades : Z)
    (usefulFloatFirst : option bool) (console : list string) :
  getTypeID light <> LIGHTTYPEID_DIRECTIONALLIGHT ->
  CSM.constructor LIGHTTYPEID_DIRECTIONALLIGHT newCSMShadowMap mapSize light scene
                  numCascades usefulFloatFirst console
  = assign_console
      (console ++ ["Invalid light type for CSMShadowGenerator! Only directional lights are allowed."%string])
      (CSM.constructor (getTypeID light) newCSMShadowMap mapSize light scene
                       numCascades usefulFloatFirst console).
Proof.
  intros Hne. apply Z.eqb_neq in Hne.
  unfold CSM.constructor. rewrite Hne, Z.eqb_refl. simpl negb. cbv iota.
  unfold CSM._initializeGenerator, CSM._initializeCSM, CSM.setDistanceSplit. cbn.
  destruct (activeCamera scene); reflexivity.
Qed.

Lemma constructor_wrong_light_witness :
  console (CSM.constructor 0 (fun _ _ _ => sampleMap) 1024 sampleLight sampleScene 2 None [])
  = ["Invalid light type for CSMShadowGenerator! Only directional lights are allowed."%string].
Proof.
  assert (Hne : getTypeID sampleLight <> 0) by (simpl; lia).
  rewrite (constructor_wrong_light 0 (fun _ _ _ => sampleMap) 1024 sampleLight sampleScene 2
             None [] Hne).
  reflexivity.
Defined.

(** ** The bounding volume of the casters *)

Lemma observable_remove_fresh (obs : list Observer) :
  observable_remove (S (list_max obs)) (obs ++ [S (list_max obs)]) = obs.
Proof.
  unfold observable_remove. rewrite List.filter_app. simpl.
  rewrite Nat.eqb_refl. simpl. rewrite app_nil_r.
  assert (H : forall o, o ∈ obs -> negb (Nat.eqb o (S (list_max obs))) = true).
  { intros o Ho. apply negb_true_iff, Nat.eqb_neq.
    pose proof (proj1 (list_max_le obs (list_max obs)) (le_n _)) as Hall.
    rewrite List.Forall_forall in Hall. apply list_elem_of_In in Ho.
    specialize (Hall o Ho). lia. }
  revert H. generalize (S (list_max obs)). intros k H.
  induction obs as [|o obs IH]; [reflexivity|]. simpl.
  rewrite H by apply list_elem_of_here. f_equal. apply IH.
  intros o' Ho'. apply H. now apply list_elem_of_further.
Qed.

Lemma observable_remove_not_in (o : Observer) (obs : list Observer) :
  o ∉ observable_remove o obs.
Proof.
  unfold observable_remove. intros Hin. apply list_elem_of_In in Hin.
  apply List.filter_In in Hin as [_ Hin].
  apply negb_true_iff, Nat.eqb_neq in Hin. contradiction.
Qed.

Lemma observable_add_fresh (obs : list Observer) : S (list_max obs) ∉ obs.
Proof.
  intros Hin. apply list_elem_of_In in Hin.
  pose proof (proj1 (list_max_le obs (list_max obs)) (le_n _)) as Hall.
  rewrite List.Forall_forall in Hall. specialize (Hall _ Hin). lia.
Qed.

Lemma computeShadowCastersBoundingInfo_assign (g : CSMShadowGenerator) :
  CSM._computeShadowCastersBoundingInfo g
  = assign_shadowCastersBoundingInfo (castersBoundingInfo (_renderList g)) g.
Proof.
  unfold CSM._computeShadowCastersBoundingInfo, castersBoundingInfo.
  destruct (fold_left _ _ _). reflexivity.
Qed.

(** X8.  After [freezeShadowCastersBoundingInfo = freeze] the flag reads
    [freeze] and the generator observes [onBeforeRenderObservable] exactly
    when it is not frozen: freezing removes its observer from the scene,
    unfreezing adds one new observer at the end unless there is one already. *)
Theorem set_freeze_observer (freeze : bool) (g : CSMShadowGenerator) :
  let g' := CSM.set_freezeShadowCastersBoundingInfo freeze g in
  CSM.freezeShadowCastersBoundingInfo g' = freeze /\
  (is_Some (_freezeShadowCastersBoundingInfoObservable g') <-> freeze = false) /\
  (forall o, freeze = true -> _freezeShadowCastersBoundingInfoObservable g = Some o ->
     o ∉ onBeforeRenderObservable (_scene g')) /\
  (freeze = false -> _freezeShadowCastersBoundingInfoObservable g = None ->
   exists o, _freezeShadowCastersBoundingInfoObservable g' = Some o /\
             (o ∉ onBeforeRenderObservable (_scene g)) /\
             onBeforeRenderObservable (_scene g')
             = onBeforeRenderObservable (_scene g) ++ [o]) /\
  (forall o, freeze = false -> _freezeShadowCastersBoundingInfoObservable g = Some o ->
     _freezeShadowCastersBoundingInfoObservable g' = Some o /\ _scene g' = _scene g).
Proof.
  intros g'. unfold g', CSM.set_freezeShadowCastersBoundingInfo,
    CSM.freezeShadowCastersBoundingInfo, CSM._computeShadowCastersBoundingInfo.
  destruct g as [ac nc la mi ma st ur fr obs info dbg cs rl li sc ms uf lm sa cd co].
  destruct freeze, obs as [o|]; cbn;
    repeat match goal with
           | |- context [fold_left ?f ?l ?a] => destruct (fold_left f l a)
           end; cbn.
  - split; [reflexivity|]. split; [split; [intros [? ?]|]; discriminate|].
    split; [|split; [discriminate | intros ? ?; discriminate]].
    intros o' _ [= <-]. apply observable_remove_not_in.
  - split; [reflexivity|]. split; [split; [intros [? ?]|]; discriminate|].
    split; [intros ? _ ?; discriminate|]. split; [discriminate | intros ? ?; discriminate].
  - split; [reflexivity|]. split; [split; [reflexivity | intros _; now exists o]|].
    split; [intros ? ?; discriminate|]. split; [intros _ ?; discriminate|].
    intros o' _ [= <-]. split; reflexivity.
  - split; [reflexivity|]. split; [split; [reflexivity | intros _; eexists; reflexivity]|].
    split; [intros ? ?; discriminate|]. split; [|intros ? _ ?; discriminate].
    intros _ _. eexists. split; [reflexivity|]. split; [apply observable_add_fresh | reflexivity].
Qed.

(** X9.  Assigning [freezeShadowCastersBoundingInfo] the value it has
    changes nothing, so the hook is never registered twice; and on a
    generator without a hook, unfreezing and freezing again leaves the
    observers of the scene as they were. *)
Theorem set_freeze_twice (freeze : bool) (g : CSMShadowGenerator) :
  CSM.set_freezeShadowCastersBoundingInfo freeze
    (CSM.set_freezeShadowCastersBoundingInfo freeze g)
  = CSM.set_freezeShadowCastersBoundingInfo freeze g /\
  (_freezeShadowCastersBoundingInfoObservable g = None ->
   onBeforeRenderObservable
     (_scene (CSM.set_freezeShadowCastersBoundingInfo true
                (CSM.set_freezeShadowCastersBoundingInfo false g)))
   = onBeforeRenderObservable (_scene g)).
Proof.
  destruct g as [ac nc la mi ma st ur fr obs info dbg cs rl li sc ms uf lm sa cd co].
  split.
  - unfold CSM.set_freezeShadowCastersBoundingInfo.
    destruct freeze, obs as [o|]; cbn - [castersBoundingInfo];
      rewrite ?computeShadowCastersBoundingInfo_assign; reflexivity.
  - cbn. intros ->.
    unfold CSM.set_freezeShadowCastersBoundingInfo. cbn.
    rewrite computeShadowCastersBoundingInfo_assign. cbn.
    apply observable_remove_fresh.
Qed.

Lemma set_freeze_twice_witness :
  let g := CSM.set_freezeShadowCastersBoundingInfo true (sampleGenerator 1) in
  onBeforeRenderObservable
    (_scene (CSM.set_freezeShadowCastersBoundingInfo true
               (CSM.set_freezeShadowCastersBoundingInfo false g)))
  = onBeforeRenderObservable (_scene g).
Proof.
  intros g.
  assert (Hnone : _freezeShadowCastersBoundingInfoObservable g = None) by reflexivity.
  exact (proj2 (set_freeze_twice true g) Hnone).
Defined.

Lemma v3_le_refl (a : Vector3) : v3_le a a.
Proof. unfold v3_le. lra. Qed.

Lemma v3_le_trans (a b c : Vector3) : v3_le a b -> v3_le b c -> v3_le a c.
Proof. unfold v3_le. lra. Qed.

Lemma minimizeInPlace_le (v other : Vector3) :
  v3_le (minimizeInPlace v other) v /\ v3_le (minimizeInPlace v other) other.
Proof.
  unfold v3_le, minimizeInPlace. simpl.
  pose proof (Rmin_l (vx v) (vx other)). pose proof (Rmin_r (vx v) (vx other)).
  pose proof (Rmin_l (vy v) (vy other)). pose proof (Rmin_r (vy v) (vy other)).
  pose proof (Rmin_l (vz v) (vz other)). pose proof (Rmin_r (vz v) (vz other)).
  lra.
Qed.

Lemma maximizeInPlace_ge (v other : Vector3) :
  v3_le v (maximizeInPlace v other) /\ v3_le other (maximizeInPlace v other).
Proof.
  unfold v3_le, maximizeInPlace. simpl.
  pose proof (Rmax_l (vx v) (vx other)). pose proof (Rmax_r (vx v) (vx other)).
  pose proof (Rmax_l (vy v) (vy other)). pose proof (Rmax_r (vy v) (vy other)).
  pose proof (Rmax_l (vz v) (vz other)). pose proof (Rmax_r (vz v) (vz other)).
  lra.
Qed.

(** The loop of [_computeShadowCastersBoundingInfo] only widens the box,
    and the box it ends with holds every mesh it went through. *)
Lemma bounding_fold (renderList : list AbstractMesh) (min max : Vector3) :
  let '(min', max') :=
    fold_left (fun '(min, max) mesh =>
                 (minimizeInPlace min (minimumWorld mesh), maximizeInPlace max (maximumWorld mesh)))
              renderList (min, max) in
  v3_le min' min /\ v3_le max max' /\
  (forall mesh, mesh ∈ renderList ->
     v3_le min' (minimumWorld mesh) /\ v3_le (maximumWorld mesh) max').
Proof.
  revert min max. induction renderList as [|m l IH]; intros min max; simpl.
  - split; [apply v3_le_refl|]. split; [apply v3_le_refl|]. intros mesh Hin. inversion Hin.
  - specialize (IH (minimizeInPlace min (minimumWorld m)) (maximizeInPlace max (maximumWorld m))).
    destruct (fold_left _ l _) as [min' max'].
    destruct IH as (Hmin & Hmax & Hall).
    destruct (minimizeInPlace_le min (minimumWorld m)) as [Hm1 Hm2].
    destruct (maximizeInPlace_ge max (maximumWorld m)) as [HM1 HM2].
    split; [eapply v3_le_trans; eauto|]. split; [eapply v3_le_trans; eauto|].
    intros mesh Hin. apply elem_of_cons in Hin as [->|Hin]; [|now apply Hall].
    split; eapply v3_le_trans; eauto.
Qed.

(** X10.  The volume that [_computeShadowCastersBoundingInfo] stores holds
    the world bounding box of every caster.  Its maximum starts from
    [Number.MIN_VALUE], the smallest positive number, so no coordinate of the
    maximum is ever negative or zero; without casters the volume is
    [Number.MAX_VALUE] .. [Number.MIN_VALUE]. *)
Theorem computeShadowCastersBoundingInfo_holds_casters (g : CSMShadowGenerator) :
  let info := _shadowCastersBoundingInfo (CSM._computeShadowCastersBoundingInfo g) in
  (forall mesh, mesh ∈ CSM.renderList g ->
     v3_le (minimum info) (minimumWorld mesh) /\
     v3_le (maximumWorld mesh) (maximum info)) /\
  (0 < vx (maximum info) /\ 0 < vy (maximum info) /\ 0 < vz (maximum info))%R /\
  (CSM.renderList g = [] ->
   info = {| minimum := {| vx := JS.Number_MAX_VALUE; vy := JS.Number_MAX_VALUE;
                           vz := JS.Number_MAX_VALUE |};
             maximum := {| vx := JS.Number_MIN_VALUE; vy := JS.Number_MIN_VALUE;
                           vz := JS.Number_MIN_VALUE |} |}) /\
  _renderList (CSM._computeShadowCastersBoundingInfo g) = _renderList g.
Proof.
  intros info. unfold info, CSM.renderList.
  rewrite computeShadowCastersBoundingInfo_assign. cbn - [castersBoundingInfo].
  assert (Hempty : _renderList g = [] ->
            castersBoundingInfo (_renderList g)
            = {| minimum := {| vx := JS.Number_MAX_VALUE; vy := JS.Number_MAX_VALUE;
                               vz := JS.Number_MAX_VALUE |};
                 maximum := {| vx := JS.Number_MIN_VALUE; vy := JS.Number_MIN_VALUE;
                               vz := JS.Number_MIN_VALUE |} |}).
  { intros ->. reflexivity. }
  revert Hempty. unfold castersBoundingInfo.
  match goal with
  | |- context [fold_left ?f ?l (?a, ?b)] => pose proof (bounding_fold l a b) as H
  end.
  destruct (fold_left _ _ _) as [min' max']. destruct H as (_ & Hmax & Hall).
  intros Hempty.
  split; [exact Hall|]. split; [|split; [exact Hempty | reflexivity]].
  assert (Hpos : (0 < JS.Number_MIN_VALUE)%R).
  { unfold JS.Number_MIN_VALUE. apply Rinv_0_lt_compat. apply pow_lt. lra. }
  destruct Hmax as (Hx & Hy & Hz). simpl in Hx, Hy, Hz. simpl. lra.
Qed.

(** ** The caster list, continued *)

(** Induction on a mesh with its children. *)
Lemma AbstractMesh_tree_ind (P : AbstractMesh -> Prop) :
  (forall i lo hi children, Forall P children -> P (Mesh i lo hi children)) ->
  forall mesh, P mesh.
Proof.
  intros H. fix IH 1. intros [i lo hi children]. apply H.
  induction children as [|c cs IHcs]; constructor; [apply IH | exact IHcs].
Qed.

Lemma removeFrom_unfold (mesh : AbstractMesh) (includeDescendants : bool)
    (renderList : list AbstractMesh) :
  CSM.removeFrom mesh includeDescendants renderList
  = if includeDescendants
    then fold_left (fun l child => CSM.removeFrom child true l) (getChildren mesh)
                   (CSM.removeFrom mesh false renderList)
    else CSM.removeFrom mesh false renderList.
Proof.
  destruct mesh as [i lo hi children]. destruct includeDescendants; [|reflexivity].
  simpl.
  generalize (if negb (JS.indexOf same_mesh (Mesh i lo hi children) renderList =? -1)
              then JS.splice1 (JS.indexOf same_mesh (Mesh i lo hi children) renderList)
                              renderList
              else renderList).
  induction children as [|c cs IH]; intros l; [reflexivity|]. simpl. apply IH.
Qed.

Lemma getChildMeshes_ids (i : nat) (lo hi : Vector3) (children : list AbstractMesh) :
  uniqueId <$> getChildMeshes (Mesh i lo hi children)
  = flat_map (fun c => uniqueId c :: (uniqueId <$> getChildMeshes c)) children.
Proof.
  simpl. induction children as [|c cs IH]; [reflexivity|].
  simpl. rewrite fmap_app. do 2 f_equal. exact IH.
Qed.

Lemma indexOf_absent {A} (eqb : A -> A -> bool) (x : A) (a : list A) :
  Forall (fun z => eqb z x = false) a -> JS.indexOf eqb x a = -1.
Proof.
  induction 1 as [|z a Hz _ IH]; [reflexivity|]. simpl. now rewrite Hz, IH.
Qed.

Lemma removeFrom_absent (mesh : AbstractMesh) (renderList : list AbstractMesh) :
  (forall y, y ∈ renderList -> uniqueId y <> uniqueId mesh) ->
  CSM.removeFrom mesh false renderList = renderList.
Proof.
  intros Habs.
  assert (Hidx : JS.indexOf same_mesh mesh renderList = -1).
  { apply indexOf_absent, Forall_forall. intros y Hy. apply Nat.eqb_neq. now apply Habs. }
  destruct mesh as [i lo hi cs]. simpl. now rewrite Hidx.
Qed.

(** Taking one [mesh] out of a list that holds one. *)
Lemma removeFrom_perm (mesh : AbstractMesh) (renderList : list AbstractMesh)
    (rest : list nat) :
  uniqueId <$> renderList ≡ₚ uniqueId mesh :: rest ->
  uniqueId <$> CSM.removeFrom mesh false renderList ≡ₚ rest.
Proof.
  intros Hperm.
  assert (Hin : exists y, y ∈ renderList /\ same_mesh y mesh = true).
  { assert (Hid : uniqueId mesh ∈ uniqueId <$> renderList).
    { rewrite Hperm. apply list_elem_of_here. }
    apply list_elem_of_fmap in Hid as (y & Hy & Hin).
    exists y. split; [exact Hin|]. apply Nat.eqb_eq. congruence. }
  destruct (removeFrom_found mesh renderList Hin) as (l1 & y & l2 & -> & Hy & _ & ->).
  apply (Permutation_cons_inv (a := uniqueId mesh)).
  rewrite <- Hperm, !fmap_app, fmap_cons, Hy. now rewrite Permutation_middle.
Qed.

(** Taking a mesh and its descendants out of a list that holds them all. *)
Lemma removeFrom_tree_perm (mesh : AbstractMesh) :
  forall (renderList : list AbstractMesh) (rest : list nat),
    uniqueId <$> renderList
      ≡ₚ (uniqueId mesh :: (uniqueId <$> getChildMeshes mesh)) ++ rest ->
    uniqueId <$> CSM.removeFrom mesh true renderList ≡ₚ rest.
Proof.
  induction mesh as [i lo hi children IH] using AbstractMesh_tree_ind.
  intros renderList rest Hperm.
  rewrite removeFrom_unfold. rewrite getChildMeshes_ids in Hperm.
  simpl in Hperm. apply (removeFrom_perm (Mesh i lo hi children)) in Hperm.
  simpl getChildren.
  revert Hperm. generalize (CSM.removeFrom (Mesh i lo hi children) false renderList).
  induction IH as [|c cs Hc _ IHcs]; intros l Hperm; simpl.
  - exact Hperm.
  - apply IHcs. apply Hc. simpl in Hperm. now rewrite <- app_assoc in Hperm.
Qed.

(** X11.  [addShadowCaster(mesh)] followed by [removeShadowCaster(mesh)],
    both with the descendants, leaves a caster list with the same meshes as
    before, each as often as before. *)
Theorem add_remove_caster_with_descendants (mesh : AbstractMesh) (g : CSMShadowGenerator) :
  uniqueId <$> CSM.renderList (CSM.removeShadowCaster mesh true
                                 (CSM.addShadowCaster mesh true g))
  ≡ₚ uniqueId <$> CSM.renderList g.
Proof.
  change (uniqueId <$> CSM.removeFrom mesh true
                         ((_renderList g ++ [mesh]) ++ getChildMeshes mesh)
          ≡ₚ uniqueId <$> _renderList g).
  apply removeFrom_tree_perm.
  rewrite !fmap_app, <- app_assoc. apply Permutation_app_comm.
Qed.

(** X12.  Removing a mesh that is not in the caster list (nor, with the
    descendants, any of its descendants) leaves the list as it is. *)
Theorem removeShadowCaster_absent (mesh : AbstractMesh) (includeDescendants : bool)
    (g : CSMShadowGenerator) :
  (forall y, y ∈ CSM.renderList g ->
     uniqueId y <> uniqueId mesh /\
     (includeDescendants = true -> uniqueId y ∉ uniqueId <$> getChildMeshes mesh)) ->
  CSM.renderList (CSM.removeShadowCaster mesh includeDescendants g) = CSM.renderList g.
Proof.
  unfold CSM.renderList, CSM.removeShadowCaster. simpl.
  generalize (_renderList g). clear g. intros l.
  destruct includeDescendants.
  - revert l. induction mesh as [i lo hi children IH] using AbstractMesh_tree_ind.
    intros l Habs. rewrite removeFrom_unfold.
    rewrite removeFrom_absent by (intros y Hy; now apply Habs).
    simpl getChildren.
    assert (Hdesc : forall y, y ∈ l ->
              uniqueId y ∉ flat_map (fun c => uniqueId c :: (uniqueId <$> getChildMeshes c))
                                    children).
    { intros y Hy. rewrite <- (getChildMeshes_ids i lo hi children). now apply Habs. }
    clear Habs. induction IH as [|c cs Hc _ IHcs]; simpl; [reflexivity|].
    rewrite Hc.
    + apply IHcs. intros y Hy Hin. apply (Hdesc y Hy). simpl.
      apply elem_of_cons. right. apply elem_of_app. now right.
    + intros y Hy. split.
      * intros Heq. apply (Hdesc y Hy). simpl. rewrite Heq. apply list_elem_of_here.
      * intros _ Hin. apply (Hdesc y Hy). simpl.
        apply elem_of_cons. right. apply elem_of_app. now left.
  - intros Habs. apply removeFrom_absent. intros y Hy. now apply Habs.
Qed.

Lemma removeShadowCaster_absent_witness :
  let g := CSM.addShadowCaster sampleMesh false (sampleGenerator 1) in
  CSM.renderList (CSM.removeShadowCaster sampleParent true g) = CSM.renderList g.
Proof.
  assert (Hlist : CSM.renderList (CSM.addShadowCaster sampleMesh false (sampleGenerator 1))
                  = [sampleMesh]) by reflexivity.
  apply (removeShadowCaster_absent sampleParent true
           (CSM.addShadowCaster sampleMesh false (sampleGenerator 1))).
  intros y Hy. rewrite Hlist in Hy. apply list_elem_of_singleton in Hy. subst y.
  split; [discriminate|]. intros _ Hin.
  cbn in Hin. apply list_elem_of_singleton in Hin. discriminate.
Defined.

(** X13.  [removeShadowCaster(mesh, false)] on a list that holds the mesh
    takes out the first entry that is the mesh and nothing else: the entries
    before it and after it stay, in their order, also further entries that
    are the same mesh. *)
Theorem removeShadowCaster_first_entry (mesh : AbstractMesh) (g : CSMShadowGenerator) :
  (exists y, y ∈ CSM.renderList g /\ uniqueId y = uniqueId mesh) ->
  exists before entry after,
    CSM.renderList g = before ++ entry :: after /\
    uniqueId entry = uniqueId mesh /\
    Forall (fun z => uniqueId z <> uniqueId mesh) before /\
    CSM.renderList (CSM.removeShadowCaster mesh false g) = before ++ after.
Proof.
  intros (y & Hy & Hid). apply removeFrom_found.
  exists y. split; [exact Hy|]. now apply Nat.eqb_eq.
Qed.

Lemma removeShadowCaster_first_entry_witness :
  let g := CSM.addShadowCaster sampleMesh false
             (CSM.addShadowCaster sampleMesh false (sampleGenerator 1)) in
  exists before entry after,
    CSM.renderList g = before ++ entry :: after /\
    uniqueId entry = uniqueId sampleMesh /\
    Forall (fun z => uniqueId z <> uniqueId sampleMesh) before /\
    CSM.renderList (CSM.removeShadowCaster sampleMesh false g) = before ++ after.
Proof.
  intros g. apply (removeShadowCaster_first_entry sampleMesh g).
  exists sampleMesh. split; [apply list_elem_of_here | reflexivity].
Defined.

(** ** Per-cascade properties, continued *)

Lemma forEach_all_fields (write : CSMShadowMap -> CSMShadowMap) (g : CSMShadowGenerator) :
  _activeCascade (CSM.forEach (CSM._getActiveCascades true g) write g) = _activeCascade g /\
  _numCascades (CSM.forEach (CSM._getActiveCascades true g) write g) = _numCascades g /\
  _renderList (CSM.forEach (CSM._getActiveCascades true g) write g) = _renderList g.
Proof. repeat split. Qed.

(** The active cascade after a setter that writes every cascade. *)
Lemma cascade_forEach_all (write : CSMShadowMap -> CSMShadowMap) (g : CSMShadowGenerator) :
  CSM.cascade (CSM.forEach (CSM._getActiveCascades true g) write g)
  = with_generator write <$> CSM.cascade g.
Proof.
  unfold CSM.cascade.
  destruct (forEach_all_fields write g) as (-> & _ & _).
  rewrite forEach_all, length_map.
  destruct ((_activeCascade g >=? 0)
            && (_activeCascade g <? Z.of_nat (length (_cascades g)))); [|reflexivity].
  apply list_lookup_fmap.
Qed.

Lemma cascade_in_range (g : CSMShadowGenerator) :
  0 <= CSM.activeCascade g < Z.of_nat (length (_cascades g)) ->
  exists c, CSM.cascade g = Some c /\ _cascades g !! Z.to_nat (_activeCascade g) = Some c.
Proof.
  unfold CSM.activeCascade, CSM.cascade. intros [H0 H1].
  assert (Hge : (_activeCascade g >=? 0) = true) by (apply Z.geb_le; lia).
  assert (Hlt : (_activeCascade g <? Z.of_nat (length (_cascades g))) = true)
    by (apply Z.ltb_lt; lia).
  rewrite Hge, Hlt. simpl.
  destruct (lookup_lt_is_Some_2 (_cascades g) (Z.to_nat (_activeCascade g))) as [c Hc]; [lia|].
  exists c. now rewrite Hc.
Qed.

(** X14.  With a cascade selected, a per-cascade getter returns what the
    setter of the same property was given, and the setter leaves the other
    properties as they read before; with [CASCADE_ALL] selected the value
    that was set cannot be read back: the getter still returns its sentinel. *)
Theorem setters_getters_round_trip (g : CSMShadowGenerator) :
  (0 <= CSM.activeCascade g < Z.of_nat (length (_cascades g)) ->
   (forall k v, CSM.getNumber k (CSM.setNumber k v g) = v) /\
   (forall k b, CSM.getFlag k (CSM.setFlag k b g) = b) /\
   (forall z, CSM.filter (CSM.set_filter z g) = z) /\
   (forall k k' v, k' <> k -> CSM.getNumber k' (CSM.setNumber k v g) = CSM.getNumber k' g) /\
   (forall k k' b, k' <> k -> CSM.getFlag k' (CSM.setFlag k b g) = CSM.getFlag k' g) /\
   (forall k k' v, CSM.getFlag k' (CSM.setNumber k v g) = CSM.getFlag k' g) /\
   (forall k v, CSM.filter (CSM.setNumber k v g) = CSM.filter g) /\
   (forall v, CSM.bias (CSM.set_bias v g) = v /\
              CSM.normalBias (CSM.set_bias v g) = CSM.normalBias g /\
              CSM.darkness (CSM.set_darkness v g) = v)) /\
  (CSM.activeCascade g = CSM.CASCADE_ALL ->
   forall k v, CSM.getNumber k (CSM.setNumber k v g) = (-1)%R).
Proof.
  split.
  - intros Hin. destruct (cascade_in_range g Hin) as (c & Hc & _).
    assert (Hnum : forall k k' v,
              CSM.getNumber k' (CSM.setNumber k v g)
              = if decide (k' = k) then v else CSM.getNumber k' g).
    { intros k k' v. unfold CSM.getNumber, CSM.setNumber.
      rewrite cascade_forEach_all, Hc. reflexivity. }
    assert (Hflag : forall k k' b,
              CSM.getFlag k' (CSM.setFlag k b g)
              = if decide (k' = k) then b else CSM.getFlag k' g).
    { intros k k' b. unfold CSM.getFlag, CSM.setFlag.
      rewrite cascade_forEach_all, Hc. reflexivity. }
    split; [|split; [|split; [|split; [|split; [|split; [|split]]]]]].
    + intros k v. rewrite Hnum. now destruct (decide (k = k)).
    + intros k b. rewrite Hflag. now destruct (decide (k = k)).
    + intros z. unfold CSM.filter, CSM.set_filter. rewrite cascade_forEach_all, Hc. reflexivity.
    + intros k k' v Hne. rewrite Hnum. now destruct (decide (k' = k)).
    + intros k k' b Hne. rewrite Hflag. now destruct (decide (k' = k)).
    + intros k k' v. unfold CSM.getFlag, CSM.setNumber.
      rewrite cascade_forEach_all, Hc. reflexivity.
    + intros k v. unfold CSM.filter, CSM.setNumber.
      rewrite cascade_forEach_all, Hc. reflexivity.
    + intros v. unfold CSM.bias, CSM.normalBias, CSM.darkness, CSM.set_bias, CSM.set_darkness.
      rewrite !Hnum. repeat split.
  - intros Hall k v. unfold CSM.getNumber, CSM.setNumber.
    rewrite cascade_forEach_all.
    unfold CSM.cascade. unfold CSM.activeCascade, CSM.CASCADE_ALL in Hall. rewrite Hall.
    reflexivity.
Qed.

Lemma setters_getters_round_trip_witness :
  CSM.bias (CSM.set_bias 3 (CSM.set_activeCascade 1 (sampleGenerator 4))) = 3%R.
Proof.
  assert (Ha : CSM.activeCascade (CSM.set_activeCascade 1 (sampleGenerator 4)) = 1)
    by reflexivity.
  assert (Hl : length (_cascades (CSM.set_activeCascade 1 (sampleGenerator 4))) = 4%nat)
    by reflexivity.
  assert (Hin : 0 <= CSM.activeCascade (CSM.set_activeCascade 1 (sampleGenerator 4))
                < Z.of_nat (length (_cascades (CSM.set_activeCascade 1 (sampleGenerator 4)))))
    by (rewrite Ha, Hl; lia).
  destruct (proj1 (setters_getters_round_trip _) Hin) as (_ & _ & _ & _ & _ & _ & _ & H).
  exact (proj1 (H 3%R)).
Defined.

(** X15.  The getter [cascade] returns the cascade whose index was written
    to [activeCascade], the first cascade when the index written was out of
    range, and [null] when [CASCADE_ALL] was written. *)
Theorem cascade_after_set_activeCascade (g : CSMShadowGenerator) (index : Z) :
  1 <= CSM.numCascades g ->
  Z.of_nat (length (_cascades g)) = CSM.numCascades g ->
  CSM.cascade (CSM.set_activeCascade index g)
  = if decide (index = CSM.CASCADE_ALL) then None
    else if decide (0 <= index < CSM.numCascades g) then _cascades g !! Z.to_nat index
    else _cascades g !! 0%nat.
Proof.
  unfold CSM.numCascades, CSM.cascade, CSM.set_activeCascade, CSM.CASCADE_ALL.
  intros Hn Hlen. simpl. rewrite Hlen.
  destruct (decide (index = -1)) as [->|Hall]; [reflexivity|].
  apply Z.eqb_neq in Hall. rewrite Hall. simpl.
  destruct (decide (0 <= index < _numCascades g)) as [[H0 H1]|Hout].
  - assert (Hneg : (index <? 0) = false) by (apply Z.ltb_ge; lia).
    assert (Hbig : (index >=? _numCascades g) = false).
    { destruct (index >=? _numCascades g) eqn:H; [|reflexivity].
      rewrite Z.geb_le in H. lia. }
    rewrite Hneg, Hbig. simpl.
    assert (Hge : (index >=? 0) = true) by (apply Z.geb_le; lia).
    assert (Hlt : (index <? _numCascades g) = true) by (apply Z.ltb_lt; lia).
    now rewrite Hge, Hlt.
  - assert (Hclamp : (index <? 0) || (index >=? _numCascades g) = true).
    { apply orb_true_iff. destruct (Z_lt_le_dec index 0) as [Hlt|Hge].
      - left. now apply Z.ltb_lt.
      - right. rewrite Z.geb_le. lia. }
    rewrite Hclamp.
    assert (Hlt : (0 <? _numCascades g) = true) by (apply Z.ltb_lt; lia).
    simpl. now rewrite Hlt.
Qed.

Lemma cascade_after_set_activeCascade_witness :
  CSM.cascade (CSM.set_activeCascade 9 (sampleGenerator 4))
  = _cascades (sampleGenerator 4) !! 0%nat.
Proof.
  assert (Hn : 1 <= CSM.numCascades (sampleGenerator 4)) by (simpl; lia).
  assert (Hlen : Z.of_nat (length (_cascades (sampleGenerator 4)))
                 = CSM.numCascades (sampleGenerator 4)) by reflexivity.
  rewrite (cascade_after_set_activeCascade (sampleGenerator 4) 9 Hn Hlen).
  reflexivity.
Defined.

(** ** Readiness, shadow maps and re-creation *)

Section Readiness.

Variable CSMShadowMap_isReady : CSMShadowMap -> SubMesh -> bool -> bool -> bool * CSMShadowMap.
Variable subMesh : SubMesh.
Variable useInstances : bool.

(** After [n] turns of the loop of [isReady]: [ready] tells whether the
    first [n] renderers all answered yes, and a renderer among them was
    asked (and replaced by its state after the question) exactly when all
    the renderers before it had answered yes. *)
Lemma isReady_fold (cascades : list ICascade) (n : nat) :
  (n <= length cascades)%nat ->
  let '(ready, cascades') :=
    fold_left (CSM.isReadyStep CSMShadowMap_isReady subMesh useInstances) (seq 0 n)
              (true, cascades) in
  ready = forallb (answers CSMShadowMap_isReady subMesh useInstances) (take n cascades) /\
  length cascades' = length cascades /\
  (forall i, (n <= i)%nat -> cascades' !! i = cascades !! i) /\
  (forall i c, (i < n)%nat -> cascades !! i = Some c ->
     cascades' !! i
     = Some (if forallb (answers CSMShadowMap_isReady subMesh useInstances) (take i cascades)
             then asked CSMShadowMap_isReady subMesh useInstances c else c)).
Proof.
  induction n as [|n IH]; intros Hn.
  - simpl. split; [reflexivity|]. split; [reflexivity|]. split; [reflexivity|]. intros; lia.
  - rewrite seq_S, fold_left_app. simpl.
    specialize (IH ltac:(lia)).
    destruct (fold_left _ (seq 0 n) _) as [ready cs].
    destruct IH as (Hready & Hlen & Hhigh & Hlow).
    destruct (lookup_lt_is_Some_2 cascades n) as [c Hc]; [lia|].
    rewrite (take_S_r _ _ _ Hc), forallb_app. simpl. rewrite andb_true_r.
    unfold CSM.isReadyStep. destruct ready.
    + rewrite (Hhigh n) by lia. rewrite Hc.
      unfold answers at 2.
      destruct (CSMShadowMap_isReady (generator c) subMesh useInstances false)
        as [answer renderer] eqn:Hask.
      rewrite <- Hready. simpl.
      split; [reflexivity|]. split; [now rewrite length_insert|]. split.
      * intros i Hi. rewrite list_lookup_insert_ne by lia. apply Hhigh. lia.
      * intros i c' Hi Hc'. destruct (decide (i = n)) as [->|Hne].
        -- rewrite list_lookup_insert_eq by lia.
           rewrite Hc in Hc'. injection Hc' as <-. rewrite <- Hready.
           unfold asked. now rewrite Hask.
        -- rewrite list_lookup_insert_ne by lia. apply Hlow; [lia | exact Hc'].
    + rewrite <- Hready. simpl.
      split; [reflexivity|]. split; [exact Hlen|]. split.
      * intros i Hi. apply Hhigh. lia.
      * intros i c' Hi Hc'. destruct (decide (i = n)) as [->|Hne].
        -- rewrite (Hhigh n) by lia. rewrite <- Hready. exact Hc'.
        -- apply Hlow; [lia | exact Hc'].
Qed.

(** X16.  [isReady] answers yes exactly when every renderer does, so always
    for a generator without cascades; it asks the renderers in order and
    stops at the first that is not ready: a renderer is asked exactly when
    all the renderers before it answered yes, and the cascades keep their
    split distances. *)
Theorem isReady_all_cascades (g : CSMShadowGenerator) :
  let '(ready, g') := CSM.isReady CSMShadowMap_isReady subMesh useInstances g in
  ready = forallb (answers CSMShadowMap_isReady subMesh useInstances) (_cascades g) /\
  length (_cascades g') = length (_cascades g) /\
  (forall i c, _cascades g !! i = Some c ->
     _cascades g' !! i
     = Some (if forallb (answers CSMShadowMap_isReady subMesh useInstances)
                        (take i (_cascades g))
             then asked CSMShadowMap_isReady subMesh useInstances c else c)) /\
  splitDistance <$> _cascades g' = splitDistance <$> _cascades g.
Proof.
  unfold CSM.isReady.
  pose proof (isReady_fold (_cascades g) (length (_cascades g)) (le_n _)) as H.
  destruct (fold_left _ _ _) as [ready cs].
  destruct H as (Hready & Hlen & _ & Hlow).
  rewrite firstn_all in Hready. simpl.
  split; [exact Hready|]. split; [exact Hlen|].
  assert (Hall : forall i c, _cascades g !! i = Some c ->
            cs !! i
            = Some (if forallb (answers CSMShadowMap_isReady subMesh useInstances)
                               (take i (_cascades g))
                    then asked CSMShadowMap_isReady subMesh useInstances c else c)).
  { intros i c Hc. apply Hlow; [|exact Hc]. now apply lookup_lt_Some in Hc. }
  split; [exact Hall|].
  apply list_eq. intros i. rewrite !list_lookup_fmap.
  destruct (_cascades g !! i) as [c|] eqn:Hc.
  - rewrite (Hall i c Hc). simpl. f_equal.
    match goal with |- context [if ?b then _ else _] => destruct b end; reflexivity.
  - rewrite (lookup_ge_None_2 cs i); [reflexivity|].
    apply lookup_ge_None_1 in Hc. lia.
Qed.

End Readiness.

Lemma getShadowMaps_fold (cascades : list ICascade) (n : nat) :
  (n <= length cascades)%nat ->
  fold_left
    (fun rttList cascadeIndex =>
       match cascades !! cascadeIndex with
       | None => rttList
       | Some cascade =>
           match ShadowMap.getShadowMap (generator cascade) with
           | Some rtt => rttList ++ [rtt]
           | None => rttList
           end
       end) (seq 0 n) []
  = omap (fun c => ShadowMap.getShadowMap (generator c)) (take n cascades).
Proof.
  induction n as [|n IH]; intros Hn; [reflexivity|].
  rewrite seq_S, fold_left_app, IH by lia. simpl.
  destruct (lookup_lt_is_Some_2 cascades n) as [c Hc]; [lia|].
  rewrite Hc, (take_S_r _ _ _ Hc), omap_app. simpl.
  destruct (ShadowMap.getShadowMap (generator c)); simpl; [reflexivity|].
  now rewrite app_nil_r.
Qed.

(** X17.  [getShadowMaps] returns the shadow maps of the cascades that have
    one, in the order of the cascades: one map per cascade when every
    renderer has its map, fewer otherwise. *)
Theorem getShadowMaps_of_cascades (g : CSMShadowGenerator) :
  CSM.getShadowMaps g = omap (fun c => ShadowMap.getShadowMap (generator c)) (_cascades g) /\
  (length (CSM.getShadowMaps g) <= length (_cascades g))%nat /\
  (Forall (fun c => is_Some (ShadowMap.getShadowMap (generator c))) (_cascades g) ->
   Some <$> CSM.getShadowMaps g
   = (fun c => ShadowMap.getShadowMap (generator c)) <$> _cascades g).
Proof.
  assert (Heq : CSM.getShadowMaps g
                = omap (fun c => ShadowMap.getShadowMap (generator c)) (_cascades g)).
  { unfold CSM.getShadowMaps.
    rewrite (getShadowMaps_fold (_cascades g) (length (_cascades g)) (le_n _)).
    now rewrite firstn_all. }
  rewrite Heq. split; [reflexivity|]. split.
  - generalize (_cascades g). intros l. induction l as [|c l IH]; cbn; [lia|].
    destruct (ShadowMap.getShadowMap (generator c)); cbn in *; lia.
  - generalize (_cascades g). intros l Hall.
    induction Hall as [|c l [rtt Hc] _ IH]; [reflexivity|].
    cbn. rewrite Hc. cbn. f_equal. exact IH.
Qed.

(** X18.  [recreate] re-creates the renderer of every cascade, once, and
    touches nothing else: afterwards the renderer of cascade [i] is what
    [recreate()] makes of the renderer that cascade [i] had, and the split
    distances, the number of cascades, the active cascade and the caster
    list are as before. *)
Theorem recreate_every_renderer (CSMShadowMap_recreate : CSMShadowMap -> CSMShadowMap)
    (g : CSMShadowGenerator) :
  let g' := CSM.recreate CSMShadowMap_recreate g in
  generator <$> _cascades g' = CSMShadowMap_recreate <$> (generator <$> _cascades g) /\
  prevSplitDistance <$> _cascades g' = prevSplitDistance <$> _cascades g /\
  splitDistance <$> _cascades g' = splitDistance <$> _cascades g /\
  g' = assign_cascades (_cascades g') g.
Proof.
  intros g'.
  assert (Hcs : _cascades g' = map (with_generator CSMShadowMap_recreate) (_cascades g)).
  { unfold g', CSM.recreate, CSM.forEach. simpl.
    rewrite alter_all by lia. now rewrite firstn_all, drop_all, app_nil_r. }
  rewrite Hcs.
  destruct (written_cascades CSMShadowMap_recreate (fun _ => tt) tt (_cascades g))
    as (Hg & Hp & Hs & _); [reflexivity|].
  split; [exact Hg|]. split; [exact Hp|]. split; [exact Hs|].
  rewrite <- Hcs. reflexivity.
Qed.

(** ** Disposal, continued *)

(** X19.  [dispose] is idempotent, and after it the generator no longer
    observes the scene: the observer it had registered is gone from
    [onBeforeRenderObservable]. *)
Theorem dispose_idempotent (g : CSMShadowGenerator) :
  CSM.dispose (CSM.dispose g) = CSM.dispose g /\
  _freezeShadowCastersBoundingInfoObservable (CSM.dispose g) = None /\
  (forall o, _freezeShadowCastersBoundingInfoObservable g = Some o ->
     o ∉ onBeforeRenderObservable (_scene (CSM.dispose g))).
Proof.
  destruct g as [ac nc la mi ma st ur fr obs info dbg cs rl li sc ms uf lm sa cd co].
  unfold CSM.dispose, CSM.forEach. destruct obs as [o|]; cbn.
  - split; [reflexivity|]. split; [reflexivity|].
    intros o' [= <-]. apply observable_remove_not_in.
  - split; [reflexivity|]. split; [reflexivity|]. intros o' Ho. discriminate.
Qed.

(** X20.  A disposed generator is inert: whatever index is written to
    [activeCascade], [cascade] is [null] (so every getter returns its
    sentinel); [prepareDefines] and [bindShadowLight] write nothing;
    [getShadowMaps] is empty; [isReady] answers yes; a per-cascade setter and
    [setDistanceSplit] find no cascade to write to. *)
Theorem disposed_is_inert (g : CSMShadowGenerator)
    (FILTER_PCF FILTER_PCSS : Z)
    (CSMShadowMap_prepareDefines : CSMShadowMap -> MaterialDefines -> nat -> MaterialDefines)
    (CSMShadowMap_isReady : CSMShadowMap -> SubMesh -> bool -> bool -> bool * CSMShadowMap) :
  let d := CSM.dispose g in
  (forall index, CSM.cascade (CSM.set_activeCascade index d) = None) /\
  (forall defines lightIndex,
     CSM.prepareDefines CSMShadowMap_prepareDefines defines lightIndex d = defines) /\
  (forall lightIndex effect,
     CSM.bindShadowLight FILTER_PCF FILTER_PCSS lightIndex effect d = (d, effect)) /\
  CSM.getShadowMaps d = [] /\
  (forall subMesh useInstances,
     CSM.isReady CSMShadowMap_isReady subMesh useInstances d = (true, d)) /\
  (forall k v, CSM.setNumber k v d = d) /\
  CSM.setDistanceSplit d = d.
Proof.
  intros d.
  assert (Hd : exists g0, d = g0 /\ _cascades g0 = [] /\
                 g0 = assign_cascades [] g0).
  { exists d. split; [reflexivity|]. unfold d.
    destruct g as [ac nc la mi ma st ur fr obs info dbg cs rl li sc ms uf lm sa cd co].
    unfold CSM.dispose, CSM.forEach. destruct obs; cbn; split; reflexivity. }
  destruct Hd as (g0 & -> & Hcs & Heta).
  split; [|split; [|split; [|split; [|split; [|split]]]]].
  - intros index. unfold CSM.cascade, CSM.set_activeCascade. simpl. rewrite Hcs. simpl.
    match goal with |- (if ?b then _ else _) = _ => destruct b end; [|reflexivity].
    apply lookup_nil.
  - intros defines lightIndex. unfold CSM.prepareDefines.
    rewrite disabled_guard; [reflexivity|]. right. right. now rewrite Hcs.
  - intros lightIndex effect. unfold CSM.bindShadowLight.
    rewrite disabled_guard; [reflexivity|]. right. right. now rewrite Hcs.
  - unfold CSM.getShadowMaps. now rewrite Hcs.
  - intros subMesh useInstances. unfold CSM.isReady. rewrite Hcs.
    cbn - [assign_cascades]. now rewrite <- Heta.
  - intros k v. unfold CSM.setNumber, CSM.forEach, CSM._getActiveCascades.
    rewrite orb_true_r, Hcs. cbn - [assign_cascades]. now rewrite <- Heta.
  - unfold CSM.setDistanceSplit. destruct (activeCamera (_scene g0)); [|reflexivity].
    rewrite Hcs. cbn - [assign_cascades]. now rewrite <- Heta.
Qed.

(** X21.  Building a generator and disposing it leaves the observers of the
    scene as they were: the hook that the constructor registers is the one
    that [dispose] removes. *)
Theorem constructor_dispose_observers (LIGHTTYPEID_DIRECTIONALLIGHT : Z)
    (newCSMShadowMap : Z -> IShadowLight -> bool -> CSMShadowMap)
    (mapSize : Z) (light : IShadowLight) (scene : Scene) (numCascades : Z)
    (usefulFloatFirst : option bool) (console : list string) :
  let g := CSM.constructor LIGHTTYPEID_DIRECTIONALLIGHT newCSMShadowMap mapSize light scene
                           numCascades usefulFloatFirst console in
  onBeforeRenderObservable (_scene g) = onBeforeRenderObservable scene
                                        ++ [S (list_max (onBeforeRenderObservable scene))] /\
  onBeforeRenderObservable (_scene (CSM.dispose g)) = onBeforeRenderObservable scene.
Proof.
  intros g.
  assert (Hg : _scene g = _SceneComponentInitialization
                            (set_onBeforeRenderObservable
                               (onBeforeRenderObservable scene
                                ++ [S (list_max (onBeforeRenderObservable scene))]) scene) /\
               _freezeShadowCastersBoundingInfoObservable g
               = Some (S (list_max (onBeforeRenderObservable scene)))).
  { unfold g, CSM.constructor, CSM._initializeGenerator, CSM._initializeCSM.
    match goal with |- context [CSM.setDistanceSplit ?x] => set (g1 := x) end.
    unfold CSM.setDistanceSplit. destruct (activeCamera (_scene g1)); split; reflexivity. }
  destruct Hg as [Hscene Hobs].
  split; [now rewrite Hscene|].
  destruct g as [ac nc la mi ma st ur fr obs info dbg cs rl li sc ms uf lm sa cd co].
  simpl in Hscene, Hobs. subst sc obs.
  unfold CSM.dispose, CSM.forEach. cbn.
  apply observable_remove_fresh.
Qed.

(** ** Binding to a shader, continued *)








Section BindLoop.

Variable FILTER_PCF : Z.
Variable lightIndex : string.
Variable camera : Camera.
Variable masterGenerator : CSMShadowMap.
Variable cascades : list ICascade.


End BindLoop.







(** ** The reducer between calls *)

Lemma reductions_not_disposed (type : Z) (forceFullscreenViewport : bool) (index : nat)
    (sizes : list (Z * Z)) :
  Forall (fun p => MinMax.isDisposed p = false)
         (reductions type forceFullscreenViewport index sizes).
Proof.
  apply Forall_forall. intros p Hp. unfold reductions in Hp.
  apply list_elem_of_lookup in Hp. destruct Hp as [k Hk].
  rewrite list_lookup_imap in Hk.
  destruct (sizes !! k) as [[w h]|]; [|discriminate].
  simpl in Hk. injection Hk as <-. reflexivity.
Qed.

Lemma deactivate_invariant (r : MinMax.MinMaxReducer) :
  reducerInvariant r -> reducerInvariant (MinMax.deactivate r).
Proof.
  intros Hinv. pose proof Hinv as (Ha & Ho & Hs & Hlive & Hdead).
  unfold MinMax.deactivate.
  destruct (MinMax._onAfterUnbindObserver r) eqn:Eo; [|exact Hinv].
  destruct (MinMax._sourceTexture r) eqn:Es; [|exact Hinv].
  unfold reducerInvariant. cbn.
  split; [split; [discriminate | intros [? ?]; discriminate]|].
  split; [intros [? ?]; discriminate|].
  split; [exact Hs|]. split; [exact Hlive | exact Hdead].
Qed.

Lemma deactivate_unobserved (r : MinMax.MinMaxReducer) :
  reducerInvariant r ->
  MinMax._onAfterUnbindObserver (MinMax.deactivate r) = None /\
  MinMax._activated (MinMax.deactivate r) = false.
Proof.
  intros (Ha & Ho & _). unfold MinMax.deactivate.
  destruct (MinMax._onAfterUnbindObserver r) eqn:Eo.
  - destruct (Ho (mk_is_Some _ _ eq_refl)) as [t Et]. rewrite Et. split; reflexivity.
  - rewrite Eo. split; [reflexivity|].
    destruct (MinMax._activated r); [|reflexivity].
    destruct (proj1 Ha eq_refl) as [? ?]; discriminate.
Qed.

Lemma dispose_invariant (disposeAll : bool) (r : MinMax.MinMaxReducer) :
  reducerInvariant r -> reducerInvariant (MinMax.dispose disposeAll r).
Proof.
  intros Hinv.
  destruct (deactivate_unobserved r Hinv) as [Eo Ea].
  destruct (deactivate_invariant r Hinv) as (_ & _ & _ & Hlive & Hdead).
  unfold MinMax.dispose, reducerInvariant. cbn. rewrite Eo, Ea.
  split; [split; [discriminate | intros [? ?]; discriminate]|].
  split; [intros [? ?]; discriminate|].
  split; [split; intros [? ?]; discriminate|].
  split; [intros steps; discriminate|].
  destruct (MinMax._reductionSteps (MinMax.deactivate r)) as [steps|] eqn:Est;
    [|exact Hdead].
  apply Forall_app. split; [exact Hdead|].
  apply Forall_forall. intros p Hp. apply list_elem_of_fmap in Hp.
  destruct Hp as (q & -> & _). reflexivity.
Qed.

Lemma setSourceTexture_invariant (sourceTexture : RenderTargetTexture) (depthRedux : bool)
    (type : Z) (forceFullscreenViewport : bool) (r : MinMax.MinMaxReducer) :
  reducerInvariant r ->
  reducerInvariant
    (MinMax.setSourceTexture sourceTexture depthRedux type forceFullscreenViewport r).
Proof.
  intros Hinv. unfold MinMax.setSourceTexture.
  destruct (MinMax.same_texture sourceTexture (MinMax._sourceTexture r)); [exact Hinv|].
  destruct (deactivate_unobserved r Hinv) as [Eo Ea].
  destruct (dispose_invariant false r Hinv) as (_ & _ & _ & _ & Hdead).
  unfold reducerInvariant. cbn - [MinMax.dispose MinMax.reductionLoop].
  assert (Eo' : MinMax._onAfterUnbindObserver (MinMax.dispose false r) = None) by exact Eo.
  assert (Ea' : MinMax._activated (MinMax.dispose false r) = false) by exact Ea.
  rewrite Eo', Ea'.
  split; [split; [discriminate | intros [? ?]; discriminate]|].
  split; [intros [? ?]; discriminate|].
  split; [split; intros _; eexists; reflexivity|].
  split; [|exact Hdead].
  intros steps Hsteps. injection Hsteps as <-.
  match goal with |- context [MinMax.reductionLoop ?ty ?f ?w ?h ?i ?st] =>
    destruct (reductionLoop_chain ty f w h i st) as (sizes & _ & ->) end.
  apply Forall_app. split; [|apply reductions_not_disposed].
  apply Forall_cons. split; [reflexivity | apply Forall_nil_2].
Qed.

Lemma activate_invariant (observer : Observer) (r : MinMax.MinMaxReducer) :
  reducerInvariant r -> reducerInvariant (MinMax.activate observer r).
Proof.
  intros Hinv. pose proof Hinv as (Ha & Ho & Hs & Hlive & Hdead).
  unfold MinMax.activate.
  destruct (MinMax._onAfterUnbindObserver r) eqn:Eo; [exact Hinv|].
  destruct (MinMax._sourceTexture r) eqn:Es; [|exact Hinv].
  unfold reducerInvariant. cbn.
  split; [split; intros _; [eexists|]; reflexivity|].
  split; [intros _; eexists; reflexivity|].
  split; [exact Hs|]. split; [exact Hlive | exact Hdead].
Qed.

Lemma reducerCalls_invariant (cs : list ReducerCall) (r : MinMax.MinMaxReducer) :
  reducerInvariant r -> reducerInvariant (reducerCalls cs r).
Proof.
  revert r. induction cs as [|c cs IH]; intros r Hinv; [exact Hinv|].
  apply IH. destruct c; simpl.
  - now apply setSourceTexture_invariant.
  - now apply activate_invariant.
  - now apply deactivate_invariant.
  - now apply dispose_invariant.
Qed.

Lemma constructor_reducerInvariant : reducerInvariant MinMax.constructor.
Proof.
  unfold reducerInvariant. cbn.
  split; [split; [discriminate | intros [? ?]; discriminate]|].
  split; [intros [? ?]; discriminate|].
  split; [split; intros [? ?]; discriminate|].
  split; [intros steps; discriminate | apply Forall_nil_2].
Qed.

(** X25.  Whatever is called on a new reducer, and in whatever order, it is
    activated exactly when it observes its source texture, and then it has
    one; it has reduction passes exactly when it has a source texture; no
    pass it holds is disposed and every pass it let go of is. *)
Theorem reducer_calls_keep_invariant (cs : list ReducerCall) :
  reducerInvariant (reducerCalls cs MinMax.constructor).
Proof. apply reducerCalls_invariant, constructor_reducerInvariant. Qed.

(** X26.  On a reducer in use, [setSourceTexture] with a texture other than
    the current one leaves the reducer deactivated, whether or not it was
    activated before, and [dispose] leaves it deactivated with neither
    source texture nor passes; [activate] then does nothing until a source
    texture is set again. *)
Theorem reducer_new_source_deactivates (cs : list ReducerCall)
    (sourceTexture : RenderTargetTexture) (depthRedux : bool) (type : Z)
    (forceFullscreenViewport disposeAll : bool) (observer : Observer) :
  let r := reducerCalls cs MinMax.constructor in
  (MinMax.same_texture sourceTexture (MinMax.sourceTexture r) = false ->
   MinMax.activated
     (MinMax.setSourceTexture sourceTexture depthRedux type forceFullscreenViewport r)
   = false) /\
  MinMax.activated (MinMax.dispose disposeAll r) = false /\
  MinMax.sourceTexture (MinMax.dispose disposeAll r) = None /\
  MinMax._reductionSteps (MinMax.dispose disposeAll r) = None /\
  MinMax.activate observer (MinMax.dispose disposeAll r) = MinMax.dispose disposeAll r.
Proof.
  intros r.
  pose proof (reducerCalls_invariant cs _ constructor_reducerInvariant) as Hinv.
  fold r in Hinv. destruct (deactivate_unobserved r Hinv) as [Eo Ea].
  split; [|split; [exact Ea|split; [reflexivity|split; [reflexivity|]]]].
  - intros Hnew. unfold MinMax.setSourceTexture, MinMax.sourceTexture in *.
    rewrite Hnew. exact Ea.
  - unfold MinMax.activate. cbn. rewrite Eo. reflexivity.
Qed.

Lemma reducer_new_source_deactivates_witness :
  MinMax.activated
    (MinMax.setSourceTexture sampleTexture8x1 false 2 true
       (reducerCalls [call_setSourceTexture sampleTexture false 2 true; call_activate 1%nat]
                     MinMax.constructor))
  = false.
Proof.
  assert (Hnew : MinMax.same_texture sampleTexture8x1
                   (MinMax.sourceTexture
                      (reducerCalls [call_setSourceTexture sampleTexture false 2 true;
                                     call_activate 1%nat] MinMax.constructor)) = false)
    by reflexivity.
  exact (proj1 (reducer_new_source_deactivates
                  [call_setSourceTexture sampleTexture false 2 true; call_activate 1%nat]
                  sampleTexture8x1 false 2 true true 1%nat) Hnew).
Defined.

(** ** The number of passes *)

Lemma log2_up_half (m : Z) : 1 < m -> Z.log2_up ((m + 1) / 2) = Z.log2_up m - 1.
Proof.
  intros Hm. destruct (Z.eq_dec m 2) as [->|Hne]; [reflexivity|].
  pose proof (Z.log2_up_spec m Hm) as [Hlo Hhi].
  assert (Hk : 1 < Z.log2_up m).
  { apply Z.log2_up_lt_pow2; [lia|]. change (2 ^ 1) with 2. lia. }
  set (k := Z.log2_up m) in *.
  assert (E1 : 2 ^ k = 2 * 2 ^ (k - 1)).
  { replace k with (Z.succ (k - 1)) at 1 by lia. apply Z.pow_succ_r. lia. }
  assert (E2 : 2 ^ (k - 1) = 2 * 2 ^ (k - 2)).
  { replace (k - 1) with (Z.succ (k - 2)) at 1 by lia. apply Z.pow_succ_r. lia. }
  replace (Z.pred k) with (k - 1) in Hlo by lia.
  apply Z.log2_up_unique; [lia|].
  replace (Z.pred (k - 1)) with (k - 2) by lia.
  split.
  - assert (2 ^ (k - 2) + 1 <= (m + 1) / 2) by (apply Z.div_le_lower_bound; lia). lia.
  - assert ((m + 1) / 2 < 2 ^ (k - 1) + 1) by (apply Z.div_lt_upper_bound; lia). lia.
Qed.

Lemma halve_max (w h : Z) :
  Z.max (MinMax.halve w) (MinMax.halve h) = MinMax.halve (Z.max w h).
Proof.
  rewrite !halve_spec.
  destruct (Z.le_ge_cases w h) as [Hle|Hge].
  - rewrite (Z.max_r w h) by exact Hle.
    assert ((w + 1) / 2 <= (h + 1) / 2) by (apply Z.div_le_mono; lia). lia.
  - rewrite (Z.max_l w h) by exact Hge.
    assert ((h + 1) / 2 <= (w + 1) / 2) by (apply Z.div_le_mono; lia). lia.
Qed.

Lemma halve_log2_up (m : Z) : 1 < m -> Z.log2_up (MinMax.halve m) = Z.log2_up m - 1.
Proof.
  intros Hm. rewrite halve_spec, <- (log2_up_half m Hm). f_equal.
  assert (1 <= (m + 1) / 2) by (apply Z.div_le_lower_bound; lia). lia.
Qed.

Lemma reductionLoop_length (type : Z) (forceFullscreenViewport : bool) (w h : Z)
    (index : nat) (steps : list MinMax.PostProcess) :
  length (MinMax.reductionLoop type forceFullscreenViewport w h index steps)
  = (length steps + Z.to_nat (Z.log2_up (Z.max w h)))%nat.
Proof.
  funelim (MinMax.reductionLoop type forceFullscreenViewport w h index steps).
  - rewrite H, length_app, halve_max. simpl.
    assert (Hm : 1 < Z.max w h).
    { destruct (proj1 (orb_true_iff _ _) e) as [e'|e']; apply Z.gtb_lt in e'; lia. }
    rewrite (halve_log2_up _ Hm).
    assert (0 < Z.log2_up (Z.max w h)) by (apply Z.log2_up_pos; exact Hm). lia.
  - destruct (proj1 (orb_false_iff _ _) e) as [Hw Hh].
    rewrite Z.gtb_ltb in Hw, Hh. apply Z.ltb_ge in Hw, Hh.
    rewrite Z.log2_up_eqn0 by lia. simpl. lia.
Qed.

(** X27.  [setSourceTexture] with a new texture of [w] x [h] pixels builds
    [1 + ceil(log2(max(w, h)))] passes: the initial one and one for every
    halving of the larger dimension; the loop ends for every size. *)
Theorem setSourceTexture_pass_count (sourceTexture : RenderTargetTexture)
    (depthRedux : bool) (type : Z) (forceFullscreenViewport : bool)
    (r : MinMax.MinMaxReducer) :
  MinMax.same_texture sourceTexture (MinMax._sourceTexture r) = false ->
  exists steps,
    MinMax._reductionSteps
      (MinMax.setSourceTexture sourceTexture depthRedux type forceFullscreenViewport r)
    = Some steps /\
    Z.of_nat (length steps)
    = 1 + Z.log2_up (Z.max (renderWidth sourceTexture) (renderHeight sourceTexture)).
Proof.
  intros Hnew. unfold MinMax.setSourceTexture. rewrite Hnew.
  cbn - [MinMax.dispose MinMax.reductionLoop].
  eexists. split; [reflexivity|].
  rewrite reductionLoop_length. simpl length.
  pose proof (Z.log2_up_nonneg (Z.max (renderWidth sourceTexture) (renderHeight sourceTexture))).
  lia.
Qed.

Lemma setSourceTexture_pass_count_witness :
  exists steps,
    MinMax._reductionSteps (MinMax.setSourceTexture sampleTexture false 2 true MinMax.constructor)
    = Some steps /\
    Z.of_nat (length steps) = 11.
Proof.
  assert (Hnew : MinMax.same_texture sampleTexture (MinMax._sourceTexture MinMax.constructor)
                 = false) by reflexivity.
  exact (setSourceTexture_pass_count sampleTexture false 2 true MinMax.constructor Hnew).
Defined.

(** ** What the passes do *)

Lemma reductions_no_read_back (type : Z) (forceFullscreenViewport : bool) (index : nat)
    (sizes : list (Z * Z)) :
  Forall (fun '(a, b) => 1 <= a /\ 1 <= b /\ (1 < a \/ 1 < b)) sizes ->
  omap MinMax.readsBack (reductions type forceFullscreenViewport index sizes) = [].
Proof.
  revert index. induction sizes as [|[a b] sizes IH]; intros index Hall; [reflexivity|].
  apply Forall_cons in Hall as [Hab Hall].
  unfold reductions. rewrite imap_cons. cbn.
  assert (Hne : (a =? 1) && (b =? 1) = false).
  { apply andb_false_iff.
    destruct Hab as (_ & _ & [Ha|Hb]); [left|right]; apply Z.eqb_neq; lia. }
  rewrite Hne.
  rewrite <- (IH (S index) Hall). unfold reductions. f_equal.
  apply imap_ext. intros k [a' b'] _. simpl. f_equal. lia.
Qed.

(** X28.  The result is read back after the final pass and after no other:
    of the passes that [setSourceTexture] builds for a source larger than
    1 x 1, the last one alone carries the observer that reads the 1 x 1
    result and notifies [onAfterReductionPerformed]; for a source of 1 x 1
    no pass carries it, so nothing is ever reported. *)
Theorem setSourceTexture_read_back (sourceTexture : RenderTargetTexture)
    (depthRedux : bool) (type : Z) (forceFullscreenViewport : bool)
    (r : MinMax.MinMaxReducer) :
  1 <= renderWidth sourceTexture -> 1 <= renderHeight sourceTexture ->
  MinMax.same_texture sourceTexture (MinMax._sourceTexture r) = false ->
  exists steps,
    MinMax._reductionSteps
      (MinMax.setSourceTexture sourceTexture depthRedux type forceFullscreenViewport r)
    = Some steps /\
    (renderWidth sourceTexture = 1 /\ renderHeight sourceTexture = 1 ->
     omap MinMax.readsBack steps = []) /\
    (1 < renderWidth sourceTexture \/ 1 < renderHeight sourceTexture ->
     omap MinMax.readsBack steps = [(1, 1)] /\
     MinMax.readsBack <$> last steps = Some (Some (1, 1))).
Proof.
  intros Hw Hh Hnew.
  destruct (decide (1 < renderWidth sourceTexture \/ 1 < renderHeight sourceTexture))
    as [Hgt|Hle].
  - destruct (setSourceTexture_reduction sourceTexture depthRedux type forceFullscreenViewport
                r Hw Hh Hgt Hnew)
      as (initial & sizes & final & Hsteps & _ & Hchain & -> & _ & _ & Hbefore & _).
    eexists. split; [exact Hsteps|]. split; [lia|]. intros _.
    assert (Hinit : MinMax.readsBack initial = None).
    { unfold MinMax.setSourceTexture in Hsteps. rewrite Hnew in Hsteps.
      cbn - [MinMax.dispose MinMax.reductionLoop] in Hsteps.
      match type of Hsteps with
      | context [MinMax.reductionLoop ?ty ?f ?w ?h ?i ?st] =>
          destruct (reductionLoop_chain ty f w h i st) as (sz & _ & Heq)
      end.
      rewrite Heq in Hsteps. injection Hsteps as <- _. reflexivity. }
    destruct (HalvingChain_last _ _ _ Hchain) as (sizes' & Heq & Hall);
      [now destruct sizes|].
    apply app_inj_tail in Heq as [<- _].
    split.
    + rewrite app_comm_cons, omap_app. cbn. rewrite Hinit.
      rewrite (reductions_no_read_back _ _ _ _ Hall). reflexivity.
    + rewrite app_comm_cons, last_snoc. reflexivity.
  - destruct (setSourceTexture_no_reduction sourceTexture depthRedux type
                forceFullscreenViewport r ltac:(lia) ltac:(lia) Hnew)
      as (initial & Hsteps & _).
    eexists. split; [exact Hsteps|]. split; [|tauto]. intros _.
    unfold MinMax.setSourceTexture in Hsteps. rewrite Hnew in Hsteps.
    cbn - [MinMax.dispose MinMax.reductionLoop] in Hsteps.
    match type of Hsteps with
    | context [MinMax.reductionLoop ?ty ?f ?w ?h ?i ?st] =>
        destruct (reductionLoop_chain ty f w h i st) as (sz & _ & Heq)
    end.
    rewrite Heq in Hsteps.
    destruct sz as [|[a b] sz]; cbn in Hsteps; [|discriminate].
    injection Hsteps as <-. reflexivity.
Qed.

Lemma setSourceTexture_read_back_witness :
  exists steps,
    MinMax._reductionSteps
      (MinMax.setSourceTexture sampleTexture1x1 false 2 true MinMax.constructor)
    = Some steps /\
    omap MinMax.readsBack steps = [].
Proof.
  assert (Hw : 1 <= renderWidth sampleTexture1x1) by (simpl; lia).
  assert (Hh : 1 <= renderHeight sampleTexture1x1) by (simpl; lia).
  assert (Hnew : MinMax.same_texture sampleTexture1x1 (MinMax._sourceTexture MinMax.constructor)
                 = false) by reflexivity.
  destruct (setSourceTexture_read_back sampleTexture1x1 false 2 true MinMax.constructor
              Hw Hh Hnew) as (steps & Hsteps & Hnone & _).
  exists steps. split; [exact Hsteps|]. apply Hnone. split; reflexivity.
Defined.

Lemma HalvingChain_ge_1 (w h : Z) (sizes : list (Z * Z)) :
  HalvingChain w h sizes -> Forall (fun '(a, b) => 1 <= a /\ 1 <= b) sizes.
Proof.
  induction 1 as [w h Hw Hh | w h sizes Hgt Hchain IH]; [apply Forall_nil_2|].
  apply Forall_cons. split; [|exact IH].
  split; apply halve_ge_1.
Qed.

Lemma reduction_texSize (index : nat) (a b : Z) (type : Z) (forceFullscreenViewport : bool)
    (source : option RenderTargetTexture) :
  let p := MinMax.reduction index a b type forceFullscreenViewport in
  MinMax.onApply p source
  = if decide (MinMax.defines p = "#define MAIN"%string)
    then [MinMax.setFloatArray2 "texSize" a b]
    else [MinMax.setIntArray2 "texSize" a b].
Proof.
  cbn. unfold MinMax.phase.
  destruct (a =? 1); destruct (b =? 1); cbn;
    match goal with |- context [decide ?P] => destruct (decide P) as [E|E] end;
    try reflexivity; exfalso;
    solve [vm_compute in E; discriminate | apply E; reflexivity].
Qed.

(** X29.  What the passes upload when they are applied: the initial pass
    binds the source texture of that moment and uploads the size of the
    source as floats; every later pass has a size of at least 1 x 1 and
    uploads that size, as floats when it is tagged [MAIN] and as integers
    when it is tagged [ONEBEFORELAST] or [LAST]. *)
Theorem setSourceTexture_texSize (sourceTexture : RenderTargetTexture)
    (depthRedux : bool) (type : Z) (forceFullscreenViewport : bool)
    (r : MinMax.MinMaxReducer) :
  MinMax.same_texture sourceTexture (MinMax._sourceTexture r) = false ->
  exists initial passes,
    MinMax._reductionSteps
      (MinMax.setSourceTexture sourceTexture depthRedux type forceFullscreenViewport r)
    = Some (initial :: passes) /\
    (forall source,
       MinMax.onApply initial source
       = [MinMax.setTexture "sourceTexture" source;
          MinMax.setFloatArray2 "texSize" (renderWidth sourceTexture)
                                (renderHeight sourceTexture)]) /\
    (forall p, p ∈ passes ->
       exists a b,
         MinMax.options p = MinMax.Size a b /\ 1 <= a /\ 1 <= b /\
         forall source,
           MinMax.onApply p source
           = if decide (MinMax.defines p = "#define MAIN"%string)
             then [MinMax.setFloatArray2 "texSize" a b]
             else [MinMax.setIntArray2 "texSize" a b]).
Proof.
  intros Hnew. unfold MinMax.setSourceTexture. rewrite Hnew.
  cbn - [MinMax.dispose MinMax.reductionLoop].
  match goal with |- context [MinMax.reductionLoop ?ty ?f ?w ?h ?i [?st]] =>
    destruct (reductionLoop_chain ty f w h i [st]) as (sizes & Hchain & ->);
    exists st end.
  eexists. split; [reflexivity|]. split; [reflexivity|].
  intros p Hp. apply elem_of_reductions in Hp as (k & a & b & Hin & ->).
  pose proof (HalvingChain_ge_1 _ _ _ Hchain) as Hall.
  rewrite Forall_forall in Hall. specialize (Hall _ Hin). simpl in Hall.
  exists a, b. split; [reflexivity|]. split; [tauto|]. split; [tauto|].
  intros source. apply reduction_texSize.
Qed.

Lemma setSourceTexture_texSize_witness :
  exists initial passes,
    MinMax._reductionSteps
      (MinMax.setSourceTexture sampleTexture8x1 false 2 true MinMax.constructor)
    = Some (initial :: passes) /\
    MinMax.onApply initial None
    = [MinMax.setTexture "sourceTexture" None; MinMax.setFloatArray2 "texSize" 8 1].
Proof.
  assert (Hnew : MinMax.same_texture sampleTexture8x1 (MinMax._sourceTexture MinMax.constructor)
                 = false) by reflexivity.
  destruct (setSourceTexture_texSize sampleTexture8x1 false 2 true MinMax.constructor Hnew)
    as (initial & passes & Hsteps & Hinit & _).
  exists initial, passes. split; [exact Hsteps | exact (Hinit None)].
Defined.

(** ** Calling twice *)

(** X30.  A second [setSourceTexture] with the texture that is already the
    source is ignored, also when its other arguments differ from those of
    the first call; [activate] and [deactivate] are idempotent; and on a
    reducer in use that is not activated, [activate] followed by
    [deactivate] leaves the reducer as it was. *)
Theorem reducer_repeated_calls (cs : list ReducerCall)
    (sourceTexture : RenderTargetTexture) (depthRedux depthRedux' : bool) (type type' : Z)
    (forceFullscreenViewport forceFullscreenViewport' : bool) (observer observer' : Observer) :
  let r := reducerCalls cs MinMax.constructor in
  MinMax.setSourceTexture sourceTexture depthRedux' type' forceFullscreenViewport'
    (MinMax.setSourceTexture sourceTexture depthRedux type forceFullscreenViewport r)
  = MinMax.setSourceTexture sourceTexture depthRedux type forceFullscreenViewport r /\
  MinMax.activate observer' (MinMax.activate observer r) = MinMax.activate observer r /\
  MinMax.deactivate (MinMax.deactivate r) = MinMax.deactivate r /\
  (MinMax.activated r = false -> MinMax.deactivate (MinMax.activate observer r) = r).
Proof.
  intros r.
  pose proof (reducerCalls_invariant cs _ constructor_reducerInvariant) as Hinv.
  fold r in Hinv. clearbody r. destruct Hinv as (Ha & Ho & _).
  split; [|split; [|split]].
  - unfold MinMax.setSourceTexture at 2 3.
    destruct (MinMax.same_texture sourceTexture (MinMax._sourceTexture r)) eqn:Hsame.
    + unfold MinMax.setSourceTexture. now rewrite Hsame.
    + unfold MinMax.setSourceTexture at 1.
      cbn - [MinMax.dispose MinMax.reductionLoop]. now rewrite Nat.eqb_refl.
  - unfold MinMax.activate.
    destruct (MinMax._onAfterUnbindObserver r) eqn:Eo;
      destruct (MinMax._sourceTexture r) eqn:Es; cbn; rewrite ?Eo, ?Es; reflexivity.
  - unfold MinMax.deactivate.
    destruct (MinMax._onAfterUnbindObserver r) eqn:Eo;
      destruct (MinMax._sourceTexture r) eqn:Es; cbn; rewrite ?Eo, ?Es; reflexivity.
  - intros Hoff. unfold MinMax.activated in Hoff.
    assert (Eo : MinMax._onAfterUnbindObserver r = None).
    { destruct (MinMax._onAfterUnbindObserver r) eqn:Eo; [|reflexivity].
      rewrite (proj2 Ha (mk_is_Some _ _ eq_refl)) in Hoff. discriminate. }
    unfold MinMax.activate. rewrite Eo.
    destruct (MinMax._sourceTexture r) eqn:Es.
    + unfold MinMax.deactivate. cbn.
      destruct r. cbn in *. now subst.
    + unfold MinMax.deactivate. now rewrite Eo.
Qed.

Lemma reducer_repeated_calls_witness :
  let r := reducerCalls [call_setSourceTexture sampleTexture false 2 true] MinMax.constructor in
  MinMax.deactivate (MinMax.activate 1%nat r) = r.
Proof.
  assert (Hoff : MinMax.activated
                   (reducerCalls [call_setSourceTexture sampleTexture false 2 true]
                                 MinMax.constructor) = false) by reflexivity.
  exact (proj2 (proj2 (proj2
           (reducer_repeated_calls [call_setSourceTexture sampleTexture false 2 true]
              sampleTexture false false 2 2 true true 1%nat 1%nat))) Hoff).
Defined.
